(** * Retrieval core of the immigration consultant backend

    A shallow embedding of [backend/rag_config.py] (class
    [ProductionRAGConfig]) and [backend/enhanced_rag.py] (classes
    [EnhancedChunk] and [EnhancedRAGConfig]).

    Conventions of the embedding.
    - A Python [str] is a [string]: a sequence of code points below 256.
    - A Python [int] is a [Z].
    - A Python [float] that is only stored, passed on or compared is the
      rational [Q] of its value.  Where the code computes with floats
      (the freshness average of [get_entity_insights]) the arithmetic is
      binary64, [Float64], with its rounding, infinities and NaN.
    - A [dict] read by key is a [gmap] (the [filters] argument) or, where
      the insertion order is visible (JSON payloads), an association list.
    - A call that may raise returns [Exc]; [try/except Exception] is
      [try_except].  [print] and [logger] calls have no effect on results
      and are left out.
    - The embedding service, the vector store and the three modules that
      are imported but live outside these two files (smart chunker,
      relationship mapper, temporal tracker) are parameters. *)

From Stdlib Require Import ZArith QArith Ascii String List Sorted Lia DecimalString.
From Stdlib Require SpecFloat.
From stdpp Require Import base option list gmap strings.

Local Open Scope string_scope.
Local Open Scope Z_scope.

(** ** Exceptions *)

Inductive Exc (A : Type) : Type :=
| Ok (a : A)
| Raise (e : string).
Arguments Ok {A} a.
Arguments Raise {A} e.

#[global] Instance exc_ret : MRet Exc := fun A a => Ok a.

#[global] Instance exc_bind : MBind Exc := fun A B k m =>
  match m with
  | Ok a => k a
  | Raise e => Raise e
  end.

(** [try: body except Exception as e: handler e] *)
Definition try_except {A} (body : Exc A) (handler : string -> Exc A) : Exc A :=
  match body with
  | Ok a => Ok a
  | Raise e => handler e
  end.

(** ** Python strings *)

Module PyStr.

(** [str.isspace] on one code point below 256: TAB..CR, FS..US, SPACE,
    NEL and NBSP. *)
Definition is_space (c : ascii) : bool :=
  let n := nat_of_ascii c in
  ((9 <=? n) && (n <=? 13))%nat || ((28 <=? n) && (n <=? 32))%nat
  || (n =? 133)%nat || (n =? 160)%nat.

(** Every character of [s] is whitespace. *)
Fixpoint all_space (s : string) : bool :=
  match s with
  | EmptyString => true
  | String c s' => is_space c && all_space s'
  end.

Fixpoint lstrip (s : string) : string :=
  match s with
  | EmptyString => EmptyString
  | String c s' => if is_space c then lstrip s' else s
  end.

(** [rstrip] drops the trailing run of whitespace. *)
Fixpoint rstrip (s : string) : string :=
  match s with
  | EmptyString => EmptyString
  | String c s' =>
      match rstrip s' with
      | EmptyString => if is_space c then EmptyString else String c EmptyString
      | r => String c r
      end
  end.

(** [s.strip()] *)
Definition strip (s : string) : string := rstrip (lstrip s).

(** [s.split()]: maximal runs of non-whitespace.  [cur] is the word
    being read, if any. *)
Fixpoint split_from (cur : option string) (s : string) : list string :=
  match s with
  | EmptyString =>
      match cur with
      | Some w => [w]
      | None => []
      end
  | String c s' =>
      if is_space c then
        match cur with
        | Some w => w :: split_from None s'
        | None => split_from None s'
        end
      else
        split_from (Some (from_option id EmptyString cur +:+ String c EmptyString)) s'
  end.

Definition split (s : string) : list string := split_from None s.

(** [sep.join(ws)] *)
Fixpoint join (sep : string) (ws : list string) : string :=
  match ws with
  | [] => EmptyString
  | [w] => w
  | w :: ws' => w +:+ sep +:+ join sep ws'
  end.

(** [str(n)] for an [int]. *)
Definition of_int (n : Z) : string := NilEmpty.string_of_int (Z.to_int n).

(** [len(s)] *)
Definition len (s : string) : Z := Z.of_nat (String.length s).

(** [s[:n]] for [0 <= n]. *)
Definition take (n : Z) (s : string) : string := substring 0 (Z.to_nat n) s.

(** [s.startswith(p)] *)
Definition startswith (p s : string) : bool := String.prefix p s.

(** [bool(s)] *)
Definition truthy (s : string) : bool :=
  match s with
  | EmptyString => false
  | _ => true
  end.

End PyStr.

(** ** Python lists *)

Module PyList.

Definition len {A} (l : list A) : Z := Z.of_nat (length l).

(** A slice bound is clamped into [0, len]; a negative bound counts from
    the end. *)
Definition clamp {A} (l : list A) (i : Z) : Z :=
  if i <? 0 then Z.max (i + len l) 0 else Z.min i (len l).

(** [l[a:b]] *)
Definition slice {A} (l : list A) (a b : Z) : list A :=
  let a' := clamp l a in
  let b' := clamp l b in
  firstn (Z.to_nat (b' - a')) (skipn (Z.to_nat a') l).

End PyList.

(** ** [rag_config.py] *)

Record ProductionRAGConfig := {
  embedding_model : string;
  embedding_dimensions : Z;
  collection_name : string;
  chunk_size : Z;
  chunk_overlap : Z;
  max_retrieval_results : Z
}.

(** The values set by [ProductionRAGConfig.__init__]. *)
Definition production_config : ProductionRAGConfig := {|
  embedding_model := "text-embedding-3-large";
  embedding_dimensions := 3072;
  collection_name := "immigration_docs";
  chunk_size := 500;
  chunk_overlap := 50;
  max_retrieval_results := 10
|}.

(** The dictionaries built by [smart_chunk_text].  The single-chunk branch
    sets no [start_word]/[end_word]; the loop sets [total_chunks] only in
    its last pass over the result. *)
Record TextChunk := {
  text : string;
  chunk_id : string;
  document_id : string;
  title : string;
  chunk_index : Z;
  total_chunks : option Z;
  word_count : Z;
  start_word : option Z;
  end_word : option Z
}.

Definition set_total_chunks (n : Z) (c : TextChunk) : TextChunk := {|
  text := text c;
  chunk_id := chunk_id c;
  document_id := document_id c;
  title := title c;
  chunk_index := chunk_index c;
  total_chunks := Some n;
  word_count := word_count c;
  start_word := start_word c;
  end_word := end_word c
|}.

Section SmartChunkText.

Variable self : ProductionRAGConfig.

(** The [while start_idx < len(words)] loop.  Each unit of fuel pays for
    one test of the loop condition; [None] means the fuel ran out. *)
Fixpoint chunk_loop (fuel : nat) (words : list string) (doc ttl : string)
    (start_idx chunk_idx : Z) (chunks : list TextChunk)
    : option (list TextChunk) :=
  match fuel with
  | O => None
  | S fuel' =>
      if start_idx <? PyList.len words then
        let end_idx := Z.min (start_idx + chunk_size self) (PyList.len words) in
        let chunk_words := PyList.slice words start_idx end_idx in
        let chunk_text := PyStr.join " " chunk_words in
        let context_prefix :=
          if PyStr.truthy ttl
          then "Document: " +:+ ttl +:+ String (ascii_of_nat 10) (String (ascii_of_nat 10) "")
          else "" in
        let full_chunk_text := context_prefix +:+ chunk_text in
        let chunks' := (chunks ++ [{|
          text := full_chunk_text;
          chunk_id := doc +:+ "_chunk_" +:+ PyStr.of_int chunk_idx;
          document_id := doc;
          title := ttl;
          chunk_index := chunk_idx;
          total_chunks := None;
          word_count := PyList.len chunk_words;
          start_word := Some start_idx;
          end_word := Some end_idx
        |}])%list in
        let start_idx' := end_idx - chunk_overlap self in
        let chunk_idx' := chunk_idx + 1 in
        if start_idx' >=? end_idx - chunk_overlap self then
          Some chunks'
        else
          chunk_loop fuel' words doc ttl start_idx' chunk_idx' chunks'
      else Some chunks
  end.

(** [ProductionRAGConfig.smart_chunk_text] *)
Definition smart_chunk_text (txt doc ttl : string) : option (list TextChunk) :=
  if negb (PyStr.truthy (PyStr.strip txt)) then Some []
  else
    let txt := PyStr.strip txt in
    let words := PyStr.split txt in
    if PyList.len words <=? chunk_size self then
      Some [{|
        text := txt;
        chunk_id := doc +:+ "_chunk_0";
        document_id := doc;
        title := ttl;
        chunk_index := 0;
        total_chunks := Some 1;
        word_count := PyList.len words;
        start_word := None;
        end_word := None
      |}]
    else
      match chunk_loop (S (length words)) words doc ttl 0 0 [] with
      | Some chunks => Some (map (set_total_chunks (PyList.len chunks)) chunks)
      | None => None
      end.

End SmartChunkText.

Section GenerateEmbedding.

Variable self : ProductionRAGConfig.

(** [openai.OpenAI(...).embeddings.create(input=..., model=...)]: the
    embeddings of [response.data], or the exception the client raised. *)
Variable embeddings_create : string -> string -> Exc (list (list Q)).

(** The text sent to the service: at most 8000 characters. *)
Definition embedding_input (txt : string) : string :=
  if 8000 <? PyStr.len txt then PyStr.take 8000 txt else txt.

(** [[0.0] * self.embedding_dimensions] *)
Definition dummy_embedding : list Q :=
  repeat 0%Q (Z.to_nat (embedding_dimensions self)).

(** [ProductionRAGConfig.generate_embedding] *)
Definition generate_embedding (txt : string) : Exc (list Q) :=
  try_except
    (let txt := embedding_input txt in
     data ← embeddings_create txt (embedding_model self);
     match data with
     | [] => Raise "IndexError"
     | embedding :: _ => Ok embedding
     end)
    (fun _ => Ok dummy_embedding).

End GenerateEmbedding.

(** ** Floats *)

(** Python's [float] is IEEE 754 binary64.  The operations are those of
    the Standard Library's specification of floating-point arithmetic at
    53 bits of precision: every result is the exact result rounded to the
    nearest float, ties to even, with infinities and NaN. *)
Module Float64.

Definition prec : Z := 53.
Definition emax : Z := 1024.

Abbreviation t := SpecFloat.spec_float.

(** [0.0] *)
Definition zero : t := SpecFloat.S754_zero false.

(** [x + y] *)
Definition add (x y : t) : t := SpecFloat.SFadd prec emax x y.

(** [x / y] as the hardware computes it; Python raises
    [ZeroDivisionError] before it divides by zero. *)
Definition div (x y : t) : t := SpecFloat.SFdiv prec emax x y.

Definition is_finite (x : t) : bool :=
  match x with
  | SpecFloat.S754_zero _ | SpecFloat.S754_finite _ _ _ => true
  | _ => false
  end.

Definition is_zero (x : t) : bool :=
  match x with
  | SpecFloat.S754_zero _ => true
  | _ => false
  end.

(** The float nearest to an integer; an infinity when the integer is
    beyond the largest float. *)
Definition of_Z (n : Z) : t := SpecFloat.binary_normalize prec emax n 0 false.

(** The float nearest to a rational, ties to even: the rational itself
    when it is a float.  The quotient is taken with at least 56 bits and
    a sticky bit for the remainder, so the one rounding that follows is
    the rounding of the exact value. *)
Definition of_Q (q : Q) : t :=
  match Qnum q with
  | 0 => zero
  | n =>
      let a := Z.abs n in
      let d := Zpos (Qden q) in
      let s := Z.max 0 (56 + Z.log2 d - Z.log2 a) in
      let '(m, r) := Z.div_eucl (Z.shiftl a s) d in
      let sticky := if r =? 0 then 0 else 1 in
      SpecFloat.binary_normalize prec emax
        (SpecFloat.cond_Zopp (n <? 0) (2 * m + sticky)) (- s - 1) false
  end.


End Float64.

(** ** JSON-like values *)

(** The values a payload, a filter or a search result may hold.  A
    [VFloat q] is the finite float of value [q]; where it is computed
    with, a [q] that is not itself a float stands for the float nearest
    to it, as the decimal literal does ([Float64.of_Q]). *)
#[local] Set Warnings "-register-all".
Inductive PyVal : Type :=
| VNone
| VBool (b : bool)
| VInt (n : Z)
| VFloat (x : Q)
| VStr (s : string)
| VList (l : list PyVal)
| VDict (d : list (string * PyVal)).

(** A [dict] with string keys, in insertion order. *)
Abbreviation Dict := (list (string * PyVal)).

Module PyDict.

(** [d.get(k)] *)
Fixpoint get (k : string) (d : Dict) : option PyVal :=
  match d with
  | [] => None
  | (k', v) :: d' => if String.eqb k k' then Some v else get k d'
  end.

(** [d.get(k, default)] *)
Definition get_default (k : string) (default : PyVal) (d : Dict) : PyVal :=
  from_option id default (get k d).

Definition keys (d : Dict) : list string := map fst d.

End PyDict.

Module Py.

(** [bool(v)] *)
Definition truthy (v : PyVal) : bool :=
  match v with
  | VNone => false
  | VBool b => b
  | VInt n => negb (n =? 0)
  | VFloat x => negb (Qeq_bool x 0)
  | VStr s => PyStr.truthy s
  | VList l => match l with [] => false | _ => true end
  | VDict d => match d with [] => false | _ => true end
  end.

(** The numeric value of a [bool], [int] or [float]. *)
Definition num (v : PyVal) : option Q :=
  match v with
  | VBool b => Some (if b then 1%Q else 0%Q)
  | VInt n => Some (inject_Z n)
  | VFloat x => Some x
  | _ => None
  end.

(** [hash(v)] succeeds. *)
Definition hashable (v : PyVal) : bool :=
  match v with
  | VList _ | VDict _ => false
  | _ => true
  end.

(** [a == b] on hashable values: numbers compare by value across
    [bool], [int] and [float]. *)
Definition eqb (a b : PyVal) : bool :=
  match num a, num b with
  | Some x, Some y => Qeq_bool x y
  | None, None =>
      match a, b with
      | VNone, VNone => true
      | VStr s, VStr t => String.eqb s t
      | _, _ => false
      end
  | _, _ => false
  end.

(** [iter(v)]: the items a [for] loop, [list.extend] or [set.update]
    reads from [v]. *)
Definition iter (v : PyVal) : Exc (list PyVal) :=
  match v with
  | VList l => Ok l
  | VStr s => Ok (map (fun c => VStr (String c EmptyString)) (list_ascii_of_string s))
  | VDict d => Ok (map (fun kv => VStr (fst kv)) d)
  | _ => Raise "TypeError"
  end.

(** A [set], kept as the list of its members in order of insertion.
    The order in which Python enumerates a set is not specified; nothing
    below depends on it. *)
Definition set_add (s : list PyVal) (v : PyVal) : Exc (list PyVal) :=
  if hashable v then
    Ok (if existsb (eqb v) s then s else (s ++ [v])%list)
  else Raise "TypeError".

Fixpoint set_add_all (s : list PyVal) (items : list PyVal) : Exc (list PyVal) :=
  match items with
  | [] => Ok s
  | v :: items' => s' ← set_add s v; set_add_all s' items'
  end.

(** [s.update(v)] *)
Definition set_update (s : list PyVal) (v : PyVal) : Exc (list PyVal) :=
  items ← iter v; set_add_all s items.

(** [l.extend(v)] *)
Definition extend (l : list PyVal) (v : PyVal) : Exc (list PyVal) :=
  items ← iter v; Ok (l ++ items)%list.

(** A number in a computation: an [int] (a [bool] counts as one) or a
    [float]. *)
Inductive Number : Type :=
| NInt (n : Z)
| NFloat (x : Float64.t).

Definition number (v : PyVal) : option Number :=
  match v with
  | VBool b => Some (NInt (if b then 1 else 0))
  | VInt n => Some (NInt n)
  | VFloat q => Some (NFloat (Float64.of_Q q))
  | _ => None
  end.

(** [float(n)] for an [int]: the nearest float, [OverflowError] when
    there is none. *)
Definition int_to_float (n : Z) : Exc Float64.t :=
  let x := Float64.of_Z n in
  if Float64.is_finite x then Ok x else Raise "OverflowError".

Definition to_float (x : Number) : Exc Float64.t :=
  match x with
  | NInt n => int_to_float n
  | NFloat f => Ok f
  end.

(** [total + v] for a numeric [total]: exact on two [int]s, and the
    float sum of the two converted operands otherwise. *)
Definition add (total : Number) (v : PyVal) : Exc Number :=
  match number v with
  | None => Raise "TypeError"
  | Some x =>
      match total, x with
      | NInt a, NInt b => Ok (NInt (a + b))
      | _, _ =>
          a ← to_float total;
          b ← to_float x;
          Ok (NFloat (Float64.add a b))
      end
  end.

(** [total / len(l)], where [n] is the length of a list.  Two [int]s
    give the float nearest to the exact quotient, [OverflowError] when
    there is none.  A [float] is divided by [float(n)]; a length is at
    most [sys.maxsize], far below the largest float, so this conversion
    does not overflow. *)
Definition div_len (total : Number) (n : Z) : Exc Float64.t :=
  if n =? 0 then Raise "ZeroDivisionError"
  else
    match total with
    | NInt a =>
        let x :=
          if a =? 0 then SpecFloat.S754_zero (n <? 0)
          else Float64.of_Q (Qmake (a * Z.sgn n) (Z.to_pos (Z.abs n))) in
        if Float64.is_finite x then Ok x else Raise "OverflowError"
    | NFloat x => Ok (Float64.div x (Float64.of_Z n))
    end.

End Py.

(** ** [enhanced_rag.py]: data *)

(** The dataclass [EnhancedChunk], after [__post_init__] has replaced
    every [None] collection by an empty one. *)
Module EnhancedChunk.
Record t := {
  content : string;
  source_url : string;
  document_title : string;
  chunk_type : string;
  section_title : string;
  subsection_title : string;
  chunk_index : Z;
  confidence_score : Q;
  form_numbers : list string;
  visa_types : list string;
  requirements : list string;
  fees : list string;
  countries : list string;
  relationships : list PyVal;
  dependencies : list (string * list string);
  process_flows : list (list string);
  temporal_info : list PyVal;
  is_current : bool;
  freshness_score : Q;
  effective_date : option string;
  expiration_date : option string
}.
End EnhancedChunk.

Definition of_strs (l : list string) : PyVal := VList (map VStr l).

Definition of_opt_str (o : option string) : PyVal :=
  match o with
  | Some s => VStr s
  | None => VNone
  end.

(** [dataclasses.asdict]: one entry per field, in declaration order. *)
Definition asdict (c : EnhancedChunk.t) : Dict :=
  [ ("content", VStr (EnhancedChunk.content c));
    ("source_url", VStr (EnhancedChunk.source_url c));
    ("document_title", VStr (EnhancedChunk.document_title c));
    ("chunk_type", VStr (EnhancedChunk.chunk_type c));
    ("section_title", VStr (EnhancedChunk.section_title c));
    ("subsection_title", VStr (EnhancedChunk.subsection_title c));
    ("chunk_index", VInt (EnhancedChunk.chunk_index c));
    ("confidence_score", VFloat (EnhancedChunk.confidence_score c));
    ("form_numbers", of_strs (EnhancedChunk.form_numbers c));
    ("visa_types", of_strs (EnhancedChunk.visa_types c));
    ("requirements", of_strs (EnhancedChunk.requirements c));
    ("fees", of_strs (EnhancedChunk.fees c));
    ("countries", of_strs (EnhancedChunk.countries c));
    ("relationships", VList (EnhancedChunk.relationships c));
    ("dependencies",
      VDict (map (fun kv => (fst kv, of_strs (snd kv))) (EnhancedChunk.dependencies c)));
    ("process_flows", VList (map of_strs (EnhancedChunk.process_flows c)));
    ("temporal_info", VList (EnhancedChunk.temporal_info c));
    ("is_current", VBool (EnhancedChunk.is_current c));
    ("freshness_score", VFloat (EnhancedChunk.freshness_score c));
    ("effective_date", of_opt_str (EnhancedChunk.effective_date c));
    ("expiration_date", of_opt_str (EnhancedChunk.expiration_date c)) ].

(** [EnhancedRAGConfig._make_serializable].  Every [PyVal] that is not a
    list or a dict is accepted by [json.dumps] and returned as it is. *)
Fixpoint _make_serializable (obj : PyVal) : PyVal :=
  match obj with
  | VDict d => VDict (map (fun '(k, v) => (k, _make_serializable v)) d)
  | VList l => VList (map _make_serializable l)
  | other => other
  end.

(** [_make_serializable] applied to a dict, giving the dict back. *)
Definition _make_serializable_dict (d : Dict) : Dict :=
  map (fun '(k, v) => (k, _make_serializable v)) d.

(** The point dictionaries [{"id", "vector", "payload"}] handed to the
    store. *)
Module Point.
Record t := {
  id : Z;
  vector : list Q;
  payload : Dict
}.
End Point.

(** A match returned by the store's search. *)
Module ScoredPoint.
Record t := {
  id : Z;
  score : Q;
  payload : Dict
}.
End ScoredPoint.

(** The filter dictionaries built by [_build_search_filter]:
    [{"key": k, "match": {"any": v}}], [{"key": k, "match": {"value": v}}]
    and [{"key": k, "range": {"gte": v}}], under [{"must": [...]}]. *)
Inductive Condition : Type :=
| MatchAny (key : string) (any : PyVal)
| MatchValue (key : string) (value : PyVal)
| RangeGte (key : string) (gte : PyVal).

Record Filter := { must : list Condition }.

(** The result dictionaries [{"content", "score", "metadata"}] returned by
    [semantic_search_enhanced]. *)
Module SearchResult.
Record t := {
  content : PyVal;
  score : Q;
  metadata : Dict
}.
End SearchResult.

(** The dictionary returned by [get_entity_insights], sets already
    converted to lists. *)
Module Insights.
Record t := {
  entity : string;
  total_mentions : Z;
  related_forms : list PyVal;
  related_visas : list PyVal;
  requirements : list PyVal;
  fees : list PyVal;
  relationships : list PyVal;
  process_flows : list PyVal;
  temporal_info : list PyVal;
  average_freshness : Float64.t;
  sources : list PyVal;
  dependencies : list string;
  complete_process_flows : list (list string)
}.
End Insights.

(** Modelled from the spec: class [SmartChunk] of [smart_chunking.py],
    which is imported but not part of these sources; "Chunk" of the data
    model, with the attributes [process_document_enhanced] reads. *)
Module SmartChunk.
Record t := {
  content : string;
  chunk_type : string;
  section_title : string;
  subsection_title : string;
  confidence_score : Q;
  form_numbers : list string;
  visa_types : list string;
  requirements : list string;
  fees : list string;
  countries : list string
}.
End SmartChunk.

(** Modelled from the spec: class [ImmigrationRelationship] of
    [relationship_mapper.py], not part of these sources; "Relationship" of
    the data model. *)
Module ImmigrationRelationship.
Record t := {
  source : string;
  target : string;
  relationship_type : string;
  confidence : Q;
  context : string
}.
End ImmigrationRelationship.

(** Modelled from the spec: class [TemporalInfo] of [temporal_tracker.py],
    not part of these sources; "TemporalFact" of the data model.
    [date_mentioned] holds the [isoformat()] of the parsed date, if any. *)
Module TemporalInfo.
Record t := {
  content_type : string;
  text_mention : string;
  date_mentioned : option string;
  confidence : Q;
  context : string
}.
End TemporalInfo.

(** Modelled from the spec: the dictionary returned by
    [TemporalTracker.get_temporal_summary], not part of these sources; the
    date lists hold the ["date"] entry of each element. *)
Module TemporalSummary.
Record t := {
  is_current : bool;
  freshness_score : Q;
  effective_dates : list (option string);
  expiration_dates : list (option string)
}.
End TemporalSummary.

(** [d[k] = v] on an insertion-ordered dict. *)
Fixpoint dict_set {V} (k : string) (v : V) (d : list (string * V)) : list (string * V) :=
  match d with
  | [] => [(k, v)]
  | (k', v') :: d' => if String.eqb k k' then (k, v) :: d' else (k', v') :: dict_set k v d'
  end.

(** [d.get(k)] on an insertion-ordered dict of any values. *)
Fixpoint assoc_get {V} (k : string) (d : list (string * V)) : option V :=
  match d with
  | [] => None
  | (k', v) :: d' => if String.eqb k k' then Some v else assoc_get k d'
  end.

(** [enumerate(l)] *)
Definition enumerate {A} (l : list A) : list (Z * A) :=
  imap (fun i x => (Z.of_nat i, x)) l.

(** ** [enhanced_rag.py]: the ingestion pipeline *)

Section ProcessDocument.

(** The state of the relationship mapper, and the three components
    built by [EnhancedRAGConfig.__init__]. *)
Variable MapperState : Type.
Variable smart_chunk_document : string -> string -> string -> list SmartChunk.t.
Variable extract_relationships :
  MapperState -> string -> list string -> list string ->
  list ImmigrationRelationship.t * MapperState.
Variable get_entity_dependencies : MapperState -> string -> list string.
Variable get_process_flow : MapperState -> string -> Z -> list (list string).
Variable extract_temporal_info : string -> string -> list TemporalInfo.t.
Variable get_temporal_summary : list TemporalInfo.t -> TemporalSummary.t.

(** [str.upper] *)
Variable upper : string -> string.

Definition relationship_dict (rel : ImmigrationRelationship.t) : PyVal :=
  VDict [ ("source", VStr (ImmigrationRelationship.source rel));
          ("target", VStr (ImmigrationRelationship.target rel));
          ("type", VStr (ImmigrationRelationship.relationship_type rel));
          ("confidence", VFloat (ImmigrationRelationship.confidence rel));
          ("context", VStr (ImmigrationRelationship.context rel)) ].

Definition temporal_dict (info : TemporalInfo.t) : PyVal :=
  VDict [ ("type", VStr (TemporalInfo.content_type info));
          ("text", VStr (TemporalInfo.text_mention info));
          ("date", of_opt_str (TemporalInfo.date_mentioned info));
          ("confidence", VFloat (TemporalInfo.confidence info));
          ("context",
            VStr (if 100 <? PyStr.len (TemporalInfo.context info)
                  then PyStr.take 100 (TemporalInfo.context info) +:+ "..."
                  else TemporalInfo.context info)) ].

(** The body of [for entity in chunk_entities], on the three
    accumulators of the chunk. *)
Definition collect_entity (m : MapperState)
    (relationships : list ImmigrationRelationship.t)
    (acc : list PyVal * list (string * list string) * list (list string))
    (entity : string)
    : list PyVal * list (string * list string) * list (list string) :=
  let '(chunk_relationships, chunk_dependencies, chunk_flows) := acc in
  let entity_rels :=
    filter (fun rel =>
              String.eqb (upper (ImmigrationRelationship.source rel)) (upper entity)
              || String.eqb (upper (ImmigrationRelationship.target rel)) (upper entity) = true)
           relationships in
  let chunk_relationships := (chunk_relationships ++ map relationship_dict entity_rels)%list in
  let deps := get_entity_dependencies m entity in
  let chunk_dependencies :=
    match deps with
    | [] => chunk_dependencies
    | _ => dict_set entity deps chunk_dependencies
    end in
  let flows := get_process_flow m entity 3 in
  let chunk_flows :=
    match flows with
    | [] => chunk_flows
    | _ => (chunk_flows ++ flows)%list
    end in
  (chunk_relationships, chunk_dependencies, chunk_flows).

(** [EnhancedRAGConfig.process_document_enhanced] *)
Definition process_document_enhanced (m : MapperState)
    (ttl cont src : string) : list EnhancedChunk.t * MapperState :=
  let smart_chunks := smart_chunk_document ttl cont src in
  let all_forms := concat (map SmartChunk.form_numbers smart_chunks) in
  let all_visas := concat (map SmartChunk.visa_types smart_chunks) in
  let '(relationships, m) := extract_relationships m cont all_forms all_visas in
  let temporal_info := extract_temporal_info cont ttl in
  let temporal_summary := get_temporal_summary temporal_info in
  let enhanced_chunks :=
    map (fun '(i, chunk) =>
           let chunk_entities :=
             (SmartChunk.form_numbers chunk ++ SmartChunk.visa_types chunk)%list in
           let '(chunk_relationships, chunk_dependencies, chunk_flows) :=
             fold_left (collect_entity m relationships) chunk_entities ([], [], []) in
           {| EnhancedChunk.content := SmartChunk.content chunk;
              EnhancedChunk.source_url := src;
              EnhancedChunk.document_title := ttl;
              EnhancedChunk.chunk_type := SmartChunk.chunk_type chunk;
              EnhancedChunk.section_title := SmartChunk.section_title chunk;
              EnhancedChunk.subsection_title := SmartChunk.subsection_title chunk;
              EnhancedChunk.chunk_index := i;
              EnhancedChunk.confidence_score := SmartChunk.confidence_score chunk;
              EnhancedChunk.form_numbers := SmartChunk.form_numbers chunk;
              EnhancedChunk.visa_types := SmartChunk.visa_types chunk;
              EnhancedChunk.requirements := SmartChunk.requirements chunk;
              EnhancedChunk.fees := SmartChunk.fees chunk;
              EnhancedChunk.countries := SmartChunk.countries chunk;
              EnhancedChunk.relationships := chunk_relationships;
              EnhancedChunk.dependencies := chunk_dependencies;
              EnhancedChunk.process_flows := chunk_flows;
              EnhancedChunk.temporal_info := map temporal_dict temporal_info;
              EnhancedChunk.is_current := TemporalSummary.is_current temporal_summary;
              EnhancedChunk.freshness_score := TemporalSummary.freshness_score temporal_summary;
              EnhancedChunk.effective_date :=
                match TemporalSummary.effective_dates temporal_summary with
                | d :: _ => d
                | [] => None
                end;
              EnhancedChunk.expiration_date :=
                match TemporalSummary.expiration_dates temporal_summary with
                | d :: _ => d
                | [] => None
                end |})
        (enumerate smart_chunks) in
  (enhanced_chunks, m).

End ProcessDocument.

(** ** [enhanced_rag.py]: store and retrieval *)

(** ["immigration_docs_enhanced"], set by [EnhancedRAGConfig.__init__]. *)
Definition enhanced_collection_name : string := "immigration_docs_enhanced".

(** [EnhancedRAGConfig._build_search_filter] *)
Definition _build_search_filter (filters : gmap string PyVal) : option Filter :=
  let conditions : list Condition := [] in
  let conditions :=
    match filters !! "form_numbers" with
    | Some v => (conditions ++ [MatchAny "form_numbers" v])%list
    | None => conditions
    end in
  let conditions :=
    match filters !! "visa_types" with
    | Some v => (conditions ++ [MatchAny "visa_types" v])%list
    | None => conditions
    end in
  let conditions :=
    match filters !! "chunk_type" with
    | Some v => (conditions ++ [MatchValue "chunk_type" v])%list
    | None => conditions
    end in
  let conditions :=
    match filters !! "current_only" with
    | Some v =>
        if Py.truthy v
        then (conditions ++ [MatchValue "is_current" (VBool true)])%list
        else conditions
    | None => conditions
    end in
  let conditions :=
    match filters !! "min_freshness" with
    | Some v => (conditions ++ [RangeGte "freshness_score" v])%list
    | None => conditions
    end in
  match conditions with
  | [] => None
  | _ => Some {| must := conditions |}
  end.

(** [bool(filters)] for the optional dict argument. *)
Definition filters_truthy (filters : option (gmap string PyVal)) : bool :=
  match filters with
  | Some f => negb (Nat.eqb (size f) 0)
  | None => false
  end.

(** The dictionary built for one match in [semantic_search_enhanced]. *)
Definition enhanced_result (result : ScoredPoint.t) : SearchResult.t :=
  let payload := ScoredPoint.payload result in
  {| SearchResult.content := PyDict.get_default "content" (VStr "") payload;
     SearchResult.score := ScoredPoint.score result;
     SearchResult.metadata :=
       [ ("document_title", PyDict.get_default "document_title" (VStr "") payload);
         ("source_url", PyDict.get_default "source_url" (VStr "") payload);
         ("chunk_type", PyDict.get_default "chunk_type" (VStr "") payload);
         ("section_title", PyDict.get_default "section_title" (VStr "") payload);
         ("form_numbers", PyDict.get_default "form_numbers" (VList []) payload);
         ("visa_types", PyDict.get_default "visa_types" (VList []) payload);
         ("requirements", PyDict.get_default "requirements" (VList []) payload);
         ("fees", PyDict.get_default "fees" (VList []) payload);
         ("relationships", PyDict.get_default "relationships" (VList []) payload);
         ("process_flows", PyDict.get_default "process_flows" (VList []) payload);
         ("temporal_info", PyDict.get_default "temporal_info" (VList []) payload);
         ("is_current", PyDict.get_default "is_current" (VBool true) payload);
         ("freshness_score", PyDict.get_default "freshness_score" (VFloat 1) payload);
         ("confidence_score", PyDict.get_default "confidence_score" (VFloat 1) payload) ] |}.

Section Store.

Variable base_rag : ProductionRAGConfig.
Variable embeddings_create : string -> string -> Exc (list (list Q)).

(** The vector store behind [base_rag.qdrant_client].  [Store] is the
    state of the collections.  [qdrant_upsert] is the whole expression
    [await client.upsert(collection_name=..., points=...)]: the state
    it leaves and whether it raised.  [qdrant_search] is
    [await client.search(collection_name=..., query_vector=...,
    limit=..., query_filter=..., score_threshold=...)]. *)
Variable Store : Type.
Variable qdrant_upsert : Store -> string -> list Point.t -> Store * Exc unit.
Variable qdrant_search :
  Store -> string -> list Q -> Z -> option Filter -> Q -> Exc (list ScoredPoint.t).

(** The first loop of [store_enhanced_chunks]: one embedding per text. *)
Fixpoint embed_texts (texts : list string) : Exc (list (list Q)) :=
  match texts with
  | [] => Ok []
  | txt :: texts' =>
      embedding ← generate_embedding base_rag embeddings_create txt;
      embeddings ← embed_texts texts';
      Ok (embedding :: embeddings)
  end.

(** The second loop: the points prepared for the store. *)
Definition prepare_points (enhanced_chunks : list EnhancedChunk.t)
    (embeddings : list (list Q)) : list Point.t :=
  map (fun '(i, (chunk, embedding)) =>
         let payload := asdict chunk in
         let payload := _make_serializable_dict payload in
         {| Point.id := i; Point.vector := embedding; Point.payload := payload |})
      (enumerate (zip enhanced_chunks embeddings)).

(** [EnhancedRAGConfig.store_enhanced_chunks]: the returned flag and the
    store it leaves. *)
Definition store_enhanced_chunks (st : Store)
    (enhanced_chunks : list EnhancedChunk.t) : bool * Store :=
  let texts := map EnhancedChunk.content enhanced_chunks in
  match embed_texts texts with
  | Raise _ => (false, st)
  | Ok embeddings =>
      let points := prepare_points enhanced_chunks embeddings in
      match qdrant_upsert st enhanced_collection_name points with
      | (st', Ok _) => (true, st')
      | (st', Raise _) => (false, st')
      end
  end.

(** The [try] block of [semantic_search_enhanced]. *)
Definition semantic_search_try (st : Store) (query : string) (limit : Z)
    (filters : option (gmap string PyVal)) : Exc (list SearchResult.t) :=
  query_embedding ← generate_embedding base_rag embeddings_create query;
  let search_filter :=
    if filters_truthy filters
    then _build_search_filter (default ∅ filters)
    else None in
  search_result ←
    qdrant_search st enhanced_collection_name query_embedding limit search_filter (1 # 2);
  Ok (map enhanced_result search_result).

(** [EnhancedRAGConfig.semantic_search_enhanced] *)
Definition semantic_search_enhanced (st : Store) (query : string) (limit : Z)
    (filters : option (gmap string PyVal)) : Exc (list SearchResult.t) :=
  try_except (semantic_search_try st query limit filters) (fun _ => Ok []).

(** The relationship mapper read by [get_entity_insights]. *)
Variable MapperState : Type.
Variable get_entity_dependencies : MapperState -> string -> list string.
Variable get_process_flow : MapperState -> string -> Z -> list (list string).

Definition is_form (entity : string) : bool :=
  PyStr.startswith "I-" entity || PyStr.startswith "N-" entity
  || PyStr.startswith "DS-" entity.

(** [meta.get(k, default)] on the metadata of a result. *)
Definition meta_get (k : string) (default : PyVal) (result : SearchResult.t) : PyVal :=
  PyDict.get_default k default (SearchResult.metadata result).

(** The running state of the aggregation loop: the [insights] dict and
    [total_freshness]. *)
Record Aggregate := {
  agg_related_forms : list PyVal;
  agg_related_visas : list PyVal;
  agg_requirements : list PyVal;
  agg_fees : list PyVal;
  agg_sources : list PyVal;
  agg_relationships : list PyVal;
  agg_process_flows : list PyVal;
  agg_temporal_info : list PyVal;
  total_freshness : Py.Number
}.

Definition empty_aggregate : Aggregate := {|
  agg_related_forms := [];
  agg_related_visas := [];
  agg_requirements := [];
  agg_fees := [];
  agg_sources := [];
  agg_relationships := [];
  agg_process_flows := [];
  agg_temporal_info := [];
  total_freshness := Py.NInt 0
|}.

(** The body of [for result in results]. *)
Definition aggregate_result (a : Aggregate) (result : SearchResult.t) : Exc Aggregate :=
  forms ← Py.set_update (agg_related_forms a) (meta_get "form_numbers" (VList []) result);
  visas ← Py.set_update (agg_related_visas a) (meta_get "visa_types" (VList []) result);
  reqs ← Py.set_update (agg_requirements a) (meta_get "requirements" (VList []) result);
  fs ← Py.set_update (agg_fees a) (meta_get "fees" (VList []) result);
  srcs ← Py.set_add (agg_sources a) (meta_get "source_url" (VStr "") result);
  rels ← Py.extend (agg_relationships a) (meta_get "relationships" (VList []) result);
  flows ← Py.extend (agg_process_flows a) (meta_get "process_flows" (VList []) result);
  temps ← Py.extend (agg_temporal_info a) (meta_get "temporal_info" (VList []) result);
  total ← Py.add (total_freshness a) (meta_get "freshness_score" (VFloat 1) result);
  Ok {| agg_related_forms := forms;
        agg_related_visas := visas;
        agg_requirements := reqs;
        agg_fees := fs;
        agg_sources := srcs;
        agg_relationships := rels;
        agg_process_flows := flows;
        agg_temporal_info := temps;
        total_freshness := total |}.

Fixpoint aggregate_results (a : Aggregate) (results : list SearchResult.t) : Exc Aggregate :=
  match results with
  | [] => Ok a
  | result :: results' => a' ← aggregate_result a result; aggregate_results a' results'
  end.

(** The filter [get_entity_insights] searches with. *)
Definition entity_filter (entity : string) : option (gmap string PyVal) :=
  let entity_filter : gmap string PyVal :=
    <["visa_types" := of_strs (if negb (is_form entity) then [entity] else [])]>
      (<["form_numbers" := of_strs (if is_form entity then [entity] else [])]> ∅) in
  if negb (existsb Py.truthy (map snd (map_to_list entity_filter)))
  then None
  else Some entity_filter.

(** [EnhancedRAGConfig.get_entity_insights] *)
Definition get_entity_insights (st : Store) (m : MapperState) (entity : string)
    : Exc Insights.t :=
  let entity_filter := entity_filter entity in
  results ← semantic_search_enhanced st ("information about " +:+ entity) 10 entity_filter;
  a ← aggregate_results empty_aggregate results;
  average_freshness ←
    match results with
    | [] => Ok Float64.zero
    | _ => Py.div_len (total_freshness a) (PyList.len results)
    end;
  let entity_deps := get_entity_dependencies m entity in
  let entity_flows := get_process_flow m entity 3 in
  Ok {| Insights.entity := entity;
        Insights.total_mentions := PyList.len results;
        Insights.related_forms := agg_related_forms a;
        Insights.related_visas := agg_related_visas a;
        Insights.requirements := agg_requirements a;
        Insights.fees := agg_fees a;
        Insights.relationships := agg_relationships a;
        Insights.process_flows := agg_process_flows a;
        Insights.temporal_info := agg_temporal_info a;
        Insights.average_freshness := average_freshness;
        Insights.sources := agg_sources a;
        Insights.dependencies := entity_deps;
        Insights.complete_process_flows := entity_flows |}.

End Store.

(** ** The vector store as a collaborator

    The store is an external service.  [Qdrant] states what its filters
    mean in the sense of section 6 of the specification (equality and set
    membership on payload fields, numeric range); [MemStore] is a small
    in-memory store with that behaviour, used to run the code above on
    concrete inputs. *)

Module Qdrant.

(** Exact match of a keyword, integer or boolean. *)
Definition match_value (v x : PyVal) : bool :=
  match v, x with
  | VBool a, VBool b => Bool.eqb a b
  | VInt a, VInt b => a =? b
  | VStr a, VStr b => String.eqb a b
  | _, _ => false
  end.

(** A stored array matches when one of its elements does. *)
Definition field_matches (v stored : PyVal) : bool :=
  match stored with
  | VList l => existsb (match_value v) l
  | x => match_value v x
  end.

Definition in_range (lo stored : PyVal) : bool :=
  match stored, Py.num lo with
  | VInt n, Some q => Qle_bool q (inject_Z n)
  | VFloat x, Some q => Qle_bool q x
  | _, _ => false
  end.

Definition condition_holds (payload : Dict) (c : Condition) : bool :=
  match c with
  | MatchValue k v =>
      match PyDict.get k payload with
      | Some x => field_matches v x
      | None => false
      end
  | MatchAny k vs =>
      match PyDict.get k payload, vs with
      | Some x, VList l => existsb (fun v => field_matches v x) l
      | _, _ => false
      end
  | RangeGte k lo =>
      match PyDict.get k payload with
      | Some x => in_range lo x
      | None => false
      end
  end.

Definition filter_holds (f : option Filter) (payload : Dict) : bool :=
  match f with
  | Some f => forallb (condition_holds payload) (must f)
  | None => true
  end.

(** A search that honours its filter returns only matching points. *)
Definition honours_filter {Store : Type}
    (search : Store -> string -> list Q -> Z -> option Filter -> Q ->
              Exc (list ScoredPoint.t)) : Prop :=
  forall st coll v limit f threshold hits,
    search st coll v limit f threshold = Ok hits ->
    Forall (fun h => filter_holds f (ScoredPoint.payload h) = true) hits.

End Qdrant.

Module MemStore.

(** [upsert]: a point replaces the stored point of the same id. *)
Definition upsert (st : gmap Z Point.t) (coll : string) (points : list Point.t)
    : gmap Z Point.t * Exc unit :=
  (foldl (fun s p => <[Point.id p := p]> s) st points, Ok ()).

Definition dot (u v : list Q) : Q := fold_right Qplus 0%Q (zip_with Qmult u v).

(** Insertion into a list sorted by descending score; among equal
    scores the inserted match goes first. *)
Fixpoint insert_by_score (h : ScoredPoint.t) (l : list ScoredPoint.t)
    : list ScoredPoint.t :=
  match l with
  | [] => [h]
  | x :: l' =>
      if Qle_bool (ScoredPoint.score x) (ScoredPoint.score h)
      then h :: l
      else x :: insert_by_score h l'
  end.

Definition rank (l : list ScoredPoint.t) : list ScoredPoint.t :=
  fold_right insert_by_score [] l.

(** [search]: the matching points scoring at least the threshold, best
    first, at most [limit] of them; a negative [limit] is refused. *)
Definition search (st : gmap Z Point.t) (coll : string) (query_vector : list Q)
    (limit : Z) (f : option Filter) (score_threshold : Q)
    : Exc (list ScoredPoint.t) :=
  if limit <? 0 then Raise "limit must not be negative"
  else
    let hits :=
      map (fun kv =>
             {| ScoredPoint.id := Point.id (snd kv);
                ScoredPoint.score := dot query_vector (Point.vector (snd kv));
                ScoredPoint.payload := Point.payload (snd kv) |})
          (map_to_list st) in
    let hits :=
      List.filter (fun h => Qdrant.filter_holds f (ScoredPoint.payload h)
                            && Qle_bool score_threshold (ScoredPoint.score h)) hits in
    Ok (take (Z.to_nat limit) (rank hits)).

(** A search that sets the filter aside. *)
Definition search_unfiltered (st : gmap Z Point.t) (coll : string)
    (query_vector : list Q) (limit : Z) (f : option Filter) (score_threshold : Q)
    : Exc (list ScoredPoint.t) :=
  search st coll query_vector limit None score_threshold.

(** A store that refuses every upsert and leaves its state alone. *)
Definition upsert_unreachable (st : gmap Z Point.t) (coll : string)
    (points : list Point.t) : gmap Z Point.t * Exc unit :=
  (st, Raise "ConnectionError").

End MemStore.

(** ** [rag_config.py]: cache, vectorization and plain search *)

(** [self.cache_ttl], set by [ProductionRAGConfig.__init__]: 24 hours. *)
Definition cache_ttl : Z := 24 * 60 * 60.

Section Cache.

(** The Redis server behind [self.redis_client], and the [json] codec.
    [redis_get] is [client.get(key)]: the stored bytes, if any.
    [redis_setex] is [client.setex(key, ttl, value)]. *)
Variable Redis : Type.
Variable redis_get : Redis -> string -> Exc (option string).
Variable redis_setex : Redis -> string -> Z -> string -> Redis * Exc unit.
Variable json_loads : string -> Exc PyVal.
Variable json_dumps : PyVal -> Exc string.

(** The two cache attributes of the object: [redis_client] is [None] when
    Redis is not available; [_memory_cache] is [None] when the attribute
    was never set. *)
Record CacheState := {
  redis_client : option Redis;
  _memory_cache : option (gmap string PyVal)
}.

(** [ProductionRAGConfig._get_cache]; Python's [None] is [VNone]. *)
Definition _get_cache (self : CacheState) (key : string) : PyVal :=
  match
    try_except
      (match redis_client self with
       | Some client =>
           cached ← redis_get client key;
           match cached with
           | Some bytes =>
               if PyStr.truthy bytes
               then v ← json_loads bytes; Ok (Some v)
               else Ok None
           | None => Ok None
           end
       | None =>
           match _memory_cache self with
           | Some cache => Ok (Some (default VNone (cache !! key)))
           | None => Ok None
           end
       end)
      (fun _ => Ok None)
  with
  | Ok (Some v) => v
  | _ => VNone
  end.

(** [ProductionRAGConfig._set_cache]: the state it leaves. *)
Definition _set_cache (self : CacheState) (key : string) (value : PyVal) : CacheState :=
  match redis_client self with
  | Some client =>
      match json_dumps value with
      | Ok encoded =>
          let '(client', _) := redis_setex client key cache_ttl encoded in
          {| redis_client := Some client'; _memory_cache := _memory_cache self |}
      | Raise _ => self
      end
  | None =>
      match _memory_cache self with
      | Some cache =>
          {| redis_client := None; _memory_cache := Some (<[key := value]> cache) |}
      | None => self
      end
  end.

End Cache.

Section VectorizeChunks.

Variable self : ProductionRAGConfig.
Variable embeddings_create : string -> string -> Exc (list (list Q)).

(** [hash(s)] for a [str], and [datetime.now().isoformat()] as read while
    the chunk at a given position is processed. *)
Variable py_hash : string -> Z.
Variable now_isoformat : nat -> string.

(** The message handed to [progress_callback]. *)
Definition progress_message (i total : Z) : string :=
  "Vectorizing chunk " +:+ PyStr.of_int i +:+ "/" +:+ PyStr.of_int total.

(** The loop of [vectorize_chunks] from position [i] on.  [callback]
    tells whether a [progress_callback] was given; the first component is
    the list of its calls. *)
Fixpoint vectorize_from (i : nat) (total : Z) (callback : bool)
    (chunks : list TextChunk) : list (Z * Z * string) * Exc (list Point.t) :=
  match chunks with
  | [] => ([], Ok [])
  | chunk :: chunks' =>
      let calls :=
        if callback
        then [(Z.of_nat i + 1, total, progress_message (Z.of_nat i + 1) total)]
        else [] in
      match generate_embedding self embeddings_create (text chunk) with
      | Raise e => (calls, Raise e)
      | Ok embedding =>
          match total_chunks chunk with
          | None => (calls, Raise "KeyError")
          | Some n =>
              let point :=
                {| Point.id := py_hash (chunk_id chunk) mod 2 ^ 63;
                   Point.vector := embedding;
                   Point.payload :=
                     [ ("chunk_id", VStr (chunk_id chunk));
                       ("document_id", VStr (document_id chunk));
                       ("title", VStr (title chunk));
                       ("text", VStr (text chunk));
                       ("chunk_index", VInt (chunk_index chunk));
                       ("total_chunks", VInt n);
                       ("word_count", VInt (word_count chunk));
                       ("created_at", VStr (now_isoformat i)) ] |} in
              let '(calls', rest) := vectorize_from (S i) total callback chunks' in
              ((calls ++ calls')%list,
               match rest with
               | Ok points => Ok (point :: points)
               | Raise e => Raise e
               end)
          end
      end
  end.

(** [ProductionRAGConfig.vectorize_chunks] *)
Definition vectorize_chunks (chunks : list TextChunk) (callback : bool)
    : list (Z * Z * string) * Exc (list Point.t) :=
  vectorize_from 0 (PyList.len chunks) callback chunks.

End VectorizeChunks.

(** The result dictionaries of [semantic_search]. *)
Module PlainResult.
Record t := {
  text : PyVal;
  title : PyVal;
  source : PyVal;
  score : Q;
  chunk_id : Z
}.
End PlainResult.

(** The dictionary built for one match in [semantic_search]. *)
Definition plain_result (result : ScoredPoint.t) : PlainResult.t :=
  let payload := ScoredPoint.payload result in
  {| PlainResult.text := PyDict.get_default "text" (VStr "") payload;
     PlainResult.title := PyDict.get_default "title" (VStr "Immigration Document") payload;
     PlainResult.source := PyDict.get_default "source" (VStr "Unknown") payload;
     PlainResult.score := ScoredPoint.score result;
     PlainResult.chunk_id := ScoredPoint.id result |}.

Section PlainSearch.

Variable self : ProductionRAGConfig.
Variable embeddings_create : string -> string -> Exc (list (list Q)).

(** [self.qdrant_client.search(collection_name=..., query_vector=...,
    limit=...)]. *)
Variable Store : Type.
Variable qdrant_search_plain :
  Store -> string -> list Q -> Z -> Exc (list ScoredPoint.t).

(** [ProductionRAGConfig.semantic_search] *)
Definition semantic_search (st : Store) (query : string) (limit : Z)
    : Exc (list PlainResult.t) :=
  try_except
    (if negb (PyStr.truthy (PyStr.strip query)) then Ok []
     else
       query_embedding ← generate_embedding self embeddings_create query;
       if forallb (fun x => Qeq_bool x 0) query_embedding then Ok []
       else
         search_results ←
           qdrant_search_plain st (collection_name self) query_embedding limit;
         Ok (map plain_result search_results))
    (fun _ => Ok []).

End PlainSearch.

(** ** [enhanced_rag.py]: path validation *)

(** The [timeline_estimate] entry of an entity. *)
Module Timeline.
Record t := {
  min_days : Z;
  max_days : Z;
  description : string
}.
End Timeline.

(** The dictionary returned by [validate_user_path]: a copy of the
    validation of the relationship mapper in which three entries are
    set.  An entry holds a value copied from the mapper, or one of the
    three values the function builds. *)
Module EnhancedValidation.

Inductive entry : Type :=
| copied (v : PyVal)
| insights (by_entity : list (string * Insights.t))
| steps (messages : list string)
| timeline (by_entity : list (string * Timeline.t)).

Definition t : Type := list (string * entry).

(** [validation.copy()] *)
Definition copy (validation : Dict) : t :=
  map (fun '(k, v) => (k, copied v)) validation.

(** The insights found under ['entity_insights']. *)
Definition entity_insights (ev : t) : list (string * Insights.t) :=
  match assoc_get "entity_insights" ev with
  | Some (insights by_entity) => by_entity
  | _ => []
  end.

(** The messages found under ['recommended_next_steps']. *)
Definition recommended_next_steps (ev : t) : list string :=
  match assoc_get "recommended_next_steps" ev with
  | Some (steps messages) => messages
  | _ => []
  end.

(** The estimates found under ['timeline_estimate']. *)
Definition timeline_estimate (ev : t) : list (string * Timeline.t) :=
  match assoc_get "timeline_estimate" ev with
  | Some (timeline by_entity) => by_entity
  | _ => []
  end.

End EnhancedValidation.

Section ValidateUserPath.

Variable base_rag : ProductionRAGConfig.
Variable embeddings_create : string -> string -> Exc (list (list Q)).
Variable Store : Type.
Variable qdrant_search :
  Store -> string -> list Q -> Z -> option Filter -> Q -> Exc (list ScoredPoint.t).

(** The relationship mapper and the temporal tracker:
    [validate_entity_combination] returns the validation dictionary,
    [get_processing_estimate] a pair of days or [None]. *)
Variable MapperState : Type.
Variable get_entity_dependencies : MapperState -> string -> list string.
Variable get_process_flow : MapperState -> string -> Z -> list (list string).
Variable validate_entity_combination :
  MapperState -> list string -> option string -> Dict.
Variable get_processing_estimate : string -> option (Z * Z).

(** The first loop of [validate_user_path]: insights and timeline
    estimates, entity by entity. *)
Fixpoint collect_insights (st : Store) (m : MapperState) (entities : list string)
    (insights_acc : list (string * Insights.t))
    (timeline_acc : list (string * Timeline.t))
    : Exc (list (string * Insights.t) * list (string * Timeline.t)) :=
  match entities with
  | [] => Ok (insights_acc, timeline_acc)
  | entity :: entities' =>
      insights ←
        get_entity_insights base_rag embeddings_create Store qdrant_search
          MapperState get_entity_dependencies get_process_flow st m entity;
      let insights_acc := dict_set entity insights insights_acc in
      let timeline_acc :=
        match get_processing_estimate entity with
        | Some (lo, hi) =>
            dict_set entity
              {| Timeline.min_days := lo;
                 Timeline.max_days := hi;
                 Timeline.description :=
                   PyStr.of_int (lo / 30) +:+ "-" +:+ PyStr.of_int (hi / 30) +:+ " months" |}
              timeline_acc
        | None => timeline_acc
        end in
      collect_insights st m entities' insights_acc timeline_acc
  end.

(** The recommendations of a valid path: the second element of every
    flow of an entity that is not itself among the entities. *)
Definition next_steps (m : MapperState) (entities : list string) : list string :=
  flat_map
    (fun entity =>
       flat_map
         (fun flow =>
            match flow with
            | _ :: step :: _ =>
                if bool_decide (step ∈ entities) then []
                else ["Consider " +:+ step +:+ " as next step after " +:+ entity]
            | _ => []
            end)
         (get_process_flow m entity 2))
    entities.

(** [EnhancedRAGConfig.validate_user_path].  The three entries are set
    in the copy, over whatever the mapper had under these keys; the loop
    then fills the two dictionaries in place, and the recommendations
    are appended to the list in place. *)
Definition validate_user_path (st : Store) (m : MapperState)
    (entities : list string) (user_country : option string)
    : Exc EnhancedValidation.t :=
  let validation := validate_entity_combination m entities user_country in
  let enhanced_validation := EnhancedValidation.copy validation in
  let enhanced_validation :=
    dict_set "entity_insights" (EnhancedValidation.insights []) enhanced_validation in
  let enhanced_validation :=
    dict_set "recommended_next_steps" (EnhancedValidation.steps []) enhanced_validation in
  let enhanced_validation :=
    dict_set "timeline_estimate" (EnhancedValidation.timeline []) enhanced_validation in
  '(insights, timeline) ← collect_insights st m entities [] [];
  let enhanced_validation :=
    dict_set "entity_insights" (EnhancedValidation.insights insights)
      enhanced_validation in
  let enhanced_validation :=
    dict_set "timeline_estimate" (EnhancedValidation.timeline timeline)
      enhanced_validation in
  match PyDict.get "valid" validation with
  | None => Raise "KeyError"
  | Some valid =>
      let steps :=
        if negb (Py.truthy valid)
        then ["Address the identified conflicts and missing requirements before proceeding"]
        else next_steps m entities in
      Ok (dict_set "recommended_next_steps" (EnhancedValidation.steps steps)
            enhanced_validation)
  end.

End ValidateUserPath.

(** ** Properties used to state the claims *)

(** The span of words a chunk stands for: [start_word, end_word) when
    set, all [word_count] words of a single-chunk document otherwise. *)
Definition word_span (c : TextChunk) : Z * Z :=
  match start_word c, end_word c with
  | Some a, Some b => (a, b)
  | _, _ => (0, word_count c)
  end.

(** The words of a chunk that come from the document: the last
    [word_count] words of its text (the context line, when there is one,
    comes before them). *)
Definition chunk_words (c : TextChunk) : list string :=
  let ws := PyStr.split (text c) in
  drop (length ws - Z.to_nat (word_count c)) ws.

(** Every word of the text is in a chunk: word [i] lies in the span of a
    chunk, and the text of that chunk holds it at its place. *)
Definition covers_words (words : list string) (chunks : list TextChunk) : Prop :=
  forall (i : nat) w, words !! i = Some w ->
    exists c,
      c ∈ chunks
      /\ fst (word_span c) <= Z.of_nat i < snd (word_span c)
      /\ chunk_words c !! (i - Z.to_nat (fst (word_span c)))%nat = Some w.

(** The chunk at position [i] carries [chunk_index = i]. *)
Definition indexed_in_order (chunks : list TextChunk) : Prop :=
  forall (i : nat) c, chunks !! i = Some c -> chunk_index c = Z.of_nat i.

(** At least one chunk, ordered by index, covering every word. *)
Definition chunks_whole_text (self : ProductionRAGConfig) (txt doc ttl : string) : Prop :=
  exists chunks,
    smart_chunk_text self txt doc ttl = Some chunks
    /\ chunks <> []
    /\ indexed_in_order chunks
    /\ covers_words (PyStr.split txt) chunks.

(** A text of [n] one-letter words. *)
Fixpoint words_text (n : nat) : string :=
  match n with
  | O => EmptyString
  | S n' => "w " +:+ words_text n'
  end.

(** A failed call of the embedding service comes back to the caller as an
    exception. *)
Definition surfaces_failure (self : ProductionRAGConfig)
    (embeddings_create : string -> string -> Exc (list (list Q))) (txt : string) : Prop :=
  forall e,
    embeddings_create (embedding_input txt) (embedding_model self) = Raise e ->
    exists e', generate_embedding self embeddings_create txt = Raise e'.

(** An embedding service that is unreachable. *)
Definition unreachable_embeddings (txt model : string) : Exc (list (list Q)) :=
  Raise "APIConnectionError".

(** The vector [generate_embedding] hands back for a text: the first
    embedding of the response, or the dummy when there is none. *)
Definition embedding_or_dummy (self : ProductionRAGConfig)
    (embeddings_create : string -> string -> Exc (list (list Q))) (txt : string) : list Q :=
  match embeddings_create (embedding_input txt) (embedding_model self) with
  | Ok (v :: _) => v
  | _ => dummy_embedding self
  end.

(** The points of a batch: record [i] under id [i]. *)
Definition batch_points (self : ProductionRAGConfig)
    (embeddings_create : string -> string -> Exc (list (list Q)))
    (batch : list EnhancedChunk.t) : list Point.t :=
  imap (fun i c =>
          {| Point.id := Z.of_nat i;
             Point.vector := embedding_or_dummy self embeddings_create (EnhancedChunk.content c);
             Point.payload := _make_serializable_dict (asdict c) |})
       batch.

Definition is_ok {A} (r : Exc A) : bool :=
  match r with
  | Ok _ => true
  | Raise _ => false
  end.

(** The field names of the payload contract, in the order of section 6 of
    the specification. *)
Definition payload_contract : list string :=
  [ "content"; "document_title"; "source_url"; "chunk_type"; "section_title";
    "subsection_title"; "chunk_index"; "confidence_score"; "form_numbers";
    "visa_types"; "requirements"; "fees"; "countries"; "relationships";
    "dependencies"; "process_flows"; "temporal_info"; "is_current";
    "freshness_score"; "effective_date"; "expiration_date" ].

(** The embedding call fails on the content of a record. *)
Definition embedding_fails (self : ProductionRAGConfig)
    (embeddings_create : string -> string -> Exc (list (list Q)))
    (c : EnhancedChunk.t) : Prop :=
  exists e,
    embeddings_create (embedding_input (EnhancedChunk.content c)) (embedding_model self)
    = Raise e.

(** A record is in the store: some point carries its payload. *)
Definition persisted (st : gmap Z Point.t) (c : EnhancedChunk.t) : Prop :=
  exists k p, st !! k = Some p /\ Point.payload p = _make_serializable_dict (asdict c).

(** Per-record isolation: of a batch stored into an empty collection,
    the records whose embedding failed are skipped and the others are
    stored. *)
Definition skips_failed_records (self : ProductionRAGConfig)
    (embeddings_create : string -> string -> Exc (list (list Q)))
    (batch : list EnhancedChunk.t) : Prop :=
  let st := snd (store_enhanced_chunks self embeddings_create _ MemStore.upsert ∅ batch) in
  forall c, c ∈ batch ->
    (embedding_fails self embeddings_create c -> ~ persisted st c)
    /\ (~ embedding_fails self embeddings_create c -> persisted st c).

(** Sample data: a record of a document, and an embedding service that
    fails on the text ["unembeddable"] and answers [[1]] otherwise. *)
Definition sample_chunk (doc_title cont : string) (index : Z) (forms : list string)
    (current : bool) (freshness : Q) : EnhancedChunk.t := {|
  EnhancedChunk.content := cont;
  EnhancedChunk.source_url := "https://example.org/" +:+ doc_title;
  EnhancedChunk.document_title := doc_title;
  EnhancedChunk.chunk_type := "narrative";
  EnhancedChunk.section_title := "";
  EnhancedChunk.subsection_title := "";
  EnhancedChunk.chunk_index := index;
  EnhancedChunk.confidence_score := 1;
  EnhancedChunk.form_numbers := forms;
  EnhancedChunk.visa_types := [];
  EnhancedChunk.requirements := [];
  EnhancedChunk.fees := [];
  EnhancedChunk.countries := [];
  EnhancedChunk.relationships := [];
  EnhancedChunk.dependencies := [];
  EnhancedChunk.process_flows := [];
  EnhancedChunk.temporal_info := [];
  EnhancedChunk.is_current := current;
  EnhancedChunk.freshness_score := freshness;
  EnhancedChunk.effective_date := None;
  EnhancedChunk.expiration_date := None
|}.

Definition sample_embeddings (txt model : string) : Exc (list (list Q)) :=
  if String.eqb txt "unembeddable" then Raise "RateLimitError" else Ok [[1%Q]].

(** The filter [semantic_search_enhanced] hands to the store. *)
Definition search_filter (filters : option (gmap string PyVal)) : option Filter :=
  if filters_truthy filters then _build_search_filter (default ∅ filters) else None.

(** What [semantic_search_enhanced] asks of the store. *)
Definition store_answer (self : ProductionRAGConfig)
    (embeddings_create : string -> string -> Exc (list (list Q)))
    (Store : Type)
    (qdrant_search :
       Store -> string -> list Q -> Z -> option Filter -> Q -> Exc (list ScoredPoint.t))
    (st : Store) (query : string) (limit : Z)
    (filters : option (gmap string PyVal)) : Exc (list ScoredPoint.t) :=
  qdrant_search st enhanced_collection_name
    (embedding_or_dummy self embeddings_create query)
    limit (search_filter filters) (1 # 2).

(** The keys [_build_search_filter] reads. *)
Definition known_filter_keys : list string :=
  [ "form_numbers"; "visa_types"; "chunk_type"; "current_only"; "min_freshness" ].

(** A call breaks the contract of the search: a negative limit, or a
    filter key that is not known. *)
Definition violates_contract (limit : Z) (filters : option (gmap string PyVal)) : Prop :=
  limit < 0
  \/ exists f k, filters = Some f /\ is_Some (f !! k) /\ k ∉ known_filter_keys.

(** Every call that breaks the contract is answered by an error. *)
Definition rejects_violations (self : ProductionRAGConfig)
    (embeddings_create : string -> string -> Exc (list (list Q)))
    (st : gmap Z Point.t) : Prop :=
  forall query limit filters,
    violates_contract limit filters ->
    exists e,
      semantic_search_enhanced self embeddings_create _ MemStore.search
        st query limit filters = Raise e.

(** The freshness a result reports. *)
Definition result_freshness (r : SearchResult.t) : Q :=
  default 1%Q (Py.num (meta_get "freshness_score" (VFloat 1) r)).

(** [a] may stand before [b]: a higher score, or the same score and a
    freshness at least as high. *)
Definition ranked_before (a b : SearchResult.t) : Prop :=
  (SearchResult.score b < SearchResult.score a)%Q
  \/ ((SearchResult.score a == SearchResult.score b)%Q
      /\ (result_freshness b <= result_freshness a)%Q).

Definition ranked (results : list SearchResult.t) : Prop :=
  forall (i j : nat) a b,
    (i < j)%nat -> results !! i = Some a -> results !! j = Some b -> ranked_before a b.

(** Scores in descending order. *)
Definition descending (scores : list Q) : Prop :=
  StronglySorted (fun x y => (y <= x)%Q) scores.

(** A result does not report a record that is out of date. *)
Definition reports_current (r : SearchResult.t) : Prop :=
  meta_get "is_current" (VBool true) r <> VBool false.

(** The items of a list value. *)
Definition items_of (v : PyVal) : list PyVal :=
  match v with
  | VList l => l
  | _ => []
  end.

Definition is_strs (v : PyVal) : Prop := exists l, v = of_strs l.

Definition is_list (v : PyVal) : Prop := exists l, v = VList l.

Definition is_float (v : PyVal) : Prop := exists q, v = VFloat q.

(** A result whose metadata carries the types [EnhancedChunk] declares:
    lists of strings for the entities, lists for relationships, flows and
    temporal facts, a float for the freshness. *)
Definition well_typed_result (r : SearchResult.t) : Prop :=
  is_strs (meta_get "form_numbers" (VList []) r)
  /\ is_strs (meta_get "visa_types" (VList []) r)
  /\ is_strs (meta_get "requirements" (VList []) r)
  /\ is_strs (meta_get "fees" (VList []) r)
  /\ Py.hashable (meta_get "source_url" (VStr "") r) = true
  /\ is_list (meta_get "relationships" (VList []) r)
  /\ is_list (meta_get "process_flows" (VList []) r)
  /\ is_list (meta_get "temporal_info" (VList []) r)
  /\ is_float (meta_get "freshness_score" (VFloat 1) r).






(** The lists the results hold under [field], one after the other. *)
Definition collected (field : string) (results : list SearchResult.t) : list PyVal :=
  concat (map (fun r => items_of (meta_get field (VList []) r)) results).

(** The freshness of a result as the float the code computes with. *)
Definition freshness_float (r : SearchResult.t) : Float64.t :=
  match meta_get "freshness_score" (VFloat 1) r with
  | VFloat q => Float64.of_Q q
  | _ => Float64.zero
  end.

(** The freshness scores added up in binary64, one result after the
    other, from [0.0]. *)
Definition float_sum (results : list SearchResult.t) : Float64.t :=
  fold_left Float64.add (map freshness_float results) Float64.zero.

(** The mean as the code computes it: that sum divided by the number of
    results, in binary64. *)
Definition float_mean (results : list SearchResult.t) : Float64.t :=
  Float64.div (float_sum results) (Float64.of_Z (PyList.len results)).

(** [total_freshness] after the results [seen]: the [int] 0 before the
    first result, a float from then on. *)
Definition freshness_total (seen : list SearchResult.t) : Py.Number :=
  match seen with
  | [] => Py.NInt 0
  | _ => Py.NFloat (float_sum seen)
  end.



(** A set of strings: the members are distinct strings. *)
Definition str_set (s : list PyVal) : Prop :=
  exists ss, s = map VStr ss /\ NoDup ss.

(** The set kept under a field, after the results [seen]. *)
Definition set_inv (field : string) (seen : list SearchResult.t)
    (s : list PyVal) : Prop :=
  str_set s
  /\ forall v, v ∈ s <->
       exists r, r ∈ seen /\ v ∈ items_of (meta_get field (VList []) r).

(** The state of the aggregation loop after the results [seen]. *)
Definition agg_inv (seen : list SearchResult.t) (a : Aggregate) : Prop :=
  set_inv "form_numbers" seen (agg_related_forms a)
  /\ set_inv "visa_types" seen (agg_related_visas a)
  /\ set_inv "requirements" seen (agg_requirements a)
  /\ set_inv "fees" seen (agg_fees a)
  /\ agg_relationships a = collected "relationships" seen
  /\ agg_process_flows a = collected "process_flows" seen
  /\ agg_temporal_info a = collected "temporal_info" seen
  /\ total_freshness a = freshness_total seen.

(** Sample data: a collection holding three records of one document, the
    second of them out of date. *)
Definition sample_store : gmap Z Point.t :=
  snd (store_enhanced_chunks production_config sample_embeddings _ MemStore.upsert ∅
         [ sample_chunk "Guide" "Form I-130 opens the case." 0 ["I-130"] true (1 # 5);
           sample_chunk "Guide" "The old fee was 420 dollars." 1 ["I-130"] false (1 # 10);
           sample_chunk "Guide" "Form I-485 follows." 2 ["I-130"; "I-485"] true (9 # 10) ]).

(** ** Properties of the further code *)

(** No character of [s] is whitespace. *)
Fixpoint no_space (s : string) : bool :=
  match s with
  | EmptyString => true
  | String c s' => negb (PyStr.is_space c) && no_space s'
  end.

(** A word: not empty, no whitespace in it. *)
Definition is_word (w : string) : Prop := w <> "" /\ no_space w = true.

(** The context line put before the words of a chunk. *)
Definition context_prefix (ttl : string) : string :=
  if PyStr.truthy ttl
  then "Document: " +:+ ttl +:+ String (ascii_of_nat 10) (String (ascii_of_nat 10) "")
  else "".

(** [all(x == 0.0 for x in v)] *)
Definition all_zero (v : list Q) : bool := forallb (fun x => Qeq_bool x 0) v.

(** The calls a progress callback receives for a list of chunks. *)
Definition progress_calls (chunks : list TextChunk) : list (Z * Z * string) :=
  imap (fun i _ =>
          (Z.of_nat i + 1, PyList.len chunks,
           progress_message (Z.of_nat i + 1) (PyList.len chunks)))
       chunks.

(** A filters dict that gives [_build_search_filter] nothing to build
    on: none of the four value keys, and no true [current_only]. *)
Definition no_criteria (f : gmap string PyVal) : Prop :=
  f !! "form_numbers" = None
  /\ f !! "visa_types" = None
  /\ f !! "chunk_type" = None
  /\ f !! "min_freshness" = None
  /\ forall v, f !! "current_only" = Some v -> Py.truthy v = false.

(** The result dictionary a stored record gives rise to. *)
Definition result_of_chunk (c : EnhancedChunk.t) (s : Q) : SearchResult.t := {|
  SearchResult.content := VStr (EnhancedChunk.content c);
  SearchResult.score := s;
  SearchResult.metadata :=
    [ ("document_title", VStr (EnhancedChunk.document_title c));
      ("source_url", VStr (EnhancedChunk.source_url c));
      ("chunk_type", VStr (EnhancedChunk.chunk_type c));
      ("section_title", VStr (EnhancedChunk.section_title c));
      ("form_numbers", of_strs (EnhancedChunk.form_numbers c));
      ("visa_types", of_strs (EnhancedChunk.visa_types c));
      ("requirements", of_strs (EnhancedChunk.requirements c));
      ("fees", of_strs (EnhancedChunk.fees c));
      ("relationships", VList (EnhancedChunk.relationships c));
      ("process_flows", VList (map of_strs (EnhancedChunk.process_flows c)));
      ("temporal_info", VList (EnhancedChunk.temporal_info c));
      ("is_current", VBool (EnhancedChunk.is_current c));
      ("freshness_score", VFloat (EnhancedChunk.freshness_score c));
      ("confidence_score", VFloat (EnhancedChunk.confidence_score c)) ]
|}.

(** The insights of an entity that no record mentions. *)
Definition empty_insights (entity : string) (deps : list string)
    (flows : list (list string)) : Insights.t := {|
  Insights.entity := entity;
  Insights.total_mentions := 0;
  Insights.related_forms := [];
  Insights.related_visas := [];
  Insights.requirements := [];
  Insights.fees := [];
  Insights.relationships := [];
  Insights.process_flows := [];
  Insights.temporal_info := [];
  Insights.average_freshness := Float64.zero;
  Insights.sources := [];
  Insights.dependencies := deps;
  Insights.complete_process_flows := flows
|}.

(** The entities of a chunk: its forms, then its visa types. *)
Definition chunk_entities (chunk : SmartChunk.t) : list string :=
  (SmartChunk.form_numbers chunk ++ SmartChunk.visa_types chunk)%list.

(** A relationship has the entity at one of its ends, letter case aside. *)
Definition touches (upper : string -> string) (entity : string)
    (rel : ImmigrationRelationship.t) : Prop :=
  upper (ImmigrationRelationship.source rel) = upper entity
  \/ upper (ImmigrationRelationship.target rel) = upper entity.

(** The timeline entry of an estimate of [lo] to [hi] days. *)
Definition timeline_entry (lo hi : Z) : Timeline.t := {|
  Timeline.min_days := lo;
  Timeline.max_days := hi;
  Timeline.description :=
    PyStr.of_int (lo / 30) +:+ "-" +:+ PyStr.of_int (hi / 30) +:+ " months"
|}.

(** The keys [validate_user_path] writes in the copy of the validation. *)
Definition written_keys : list string :=
  ["entity_insights"; "recommended_next_steps"; "timeline_estimate"].

(** The recommendation to take [step] after [entity]. *)
Definition next_step_message (step entity : string) : string :=
  "Consider " +:+ step +:+ " as next step after " +:+ entity.

(** Sample data: a collection with one record whose [form_numbers] is a
    number instead of a list. *)
Definition ill_typed_store : gmap Z Point.t :=
  {[ 0 := {| Point.id := 0;
             Point.vector := [1%Q];
             Point.payload := [("content", VStr "x"); ("form_numbers", VInt 3)] |} ]}.

(** ** Facts about Python strings *)

Module PyStrFacts.
Import PyStr.

Lemma rstrip_empty s : rstrip s = EmptyString -> all_space s = true.
Proof.
  induction s as [|c s IH]; [reflexivity|].
  cbn [rstrip all_space]. destruct (rstrip s) eqn:E.
  - destruct (is_space c); [intros _; now rewrite IH | discriminate].
  - discriminate.
Qed.

Lemma rstrip_keeps_word s : rstrip s <> EmptyString -> all_space (rstrip s) = false.
Proof.
  induction s as [|c s IH]; [cbn; congruence|].
  cbn [rstrip]. destruct (rstrip s) eqn:E.
  - destruct (is_space c) eqn:Ec; [congruence|].
    intros _. cbn [all_space]. now rewrite Ec.
  - intros _. assert (H : all_space (String a s0) = false) by (apply IH; congruence).
    cbn [all_space] in *. rewrite H. apply andb_false_r.
Qed.

Lemma split_from_some w s : split_from (Some w) s <> [].
Proof.
  revert w. induction s as [|c s IH]; intros w; cbn [split_from]; [congruence|].
  destruct (is_space c); [congruence | apply IH].
Qed.

Lemma split_from_word cur s : all_space s = false -> split_from cur s <> [].
Proof.
  revert cur. induction s as [|c s IH]; intros cur; cbn [all_space split_from];
    [congruence|].
  destruct (is_space c); cbn [andb].
  - intros H. destruct cur; [congruence | now apply IH].
  - intros _. apply split_from_some.
Qed.

Lemma split_from_spaces cur s :
  all_space s = true ->
  split_from cur s = match cur with Some w => [w] | None => [] end.
Proof.
  revert cur. induction s as [|c s IH]; intros cur; cbn [all_space split_from];
    [reflexivity|].
  destruct (is_space c); cbn [andb]; [|congruence].
  intros H. destruct cur; now rewrite IH.
Qed.

Lemma split_from_rstrip cur s : split_from cur (rstrip s) = split_from cur s.
Proof.
  revert cur. induction s as [|c s IH]; intros cur; [reflexivity|].
  cbn [rstrip]. destruct (rstrip s) eqn:E.
  - apply rstrip_empty in E.
    destruct (is_space c) eqn:Ec; cbn [split_from]; rewrite Ec.
    + destruct cur; now rewrite split_from_spaces.
    + now rewrite split_from_spaces.
  - cbn [split_from]. destruct (is_space c); [destruct cur|]; now rewrite <- IH.
Qed.

Lemma split_lstrip s : split (lstrip s) = split s.
Proof.
  unfold split. induction s as [|c s IH]; [reflexivity|].
  cbn [lstrip]. destruct (is_space c) eqn:Ec; [|reflexivity].
  rewrite IH. cbn [split_from]. now rewrite Ec.
Qed.

(** Stripping a text does not change its words. *)
Lemma split_strip s : split (strip s) = split s.
Proof.
  unfold strip. unfold split at 1. rewrite split_from_rstrip. apply split_lstrip.
Qed.

(** A text that is not blank has a word. *)
Lemma split_strip_nonempty s : strip s <> EmptyString -> split (strip s) <> [].
Proof.
  intros H. apply split_from_word. now apply rstrip_keeps_word.
Qed.

Lemma truthy_nonempty s : truthy s = true <-> s <> EmptyString.
Proof. destruct s; cbn; split; congruence. Qed.

End PyStrFacts.

(** ** [smart_chunk_text] *)

Section ChunkFacts.

Variable self : ProductionRAGConfig.

(** The guard "prevent infinite loop" compares [start_idx] with the very
    value it was just given, so one pass of the loop is the last. *)
Lemma chunk_loop_S fuel words doc ttl start_idx chunk_idx chunks :
  chunk_loop self (S fuel) words doc ttl start_idx chunk_idx chunks =
  if start_idx <? PyList.len words then
    chunk_loop self 1 words doc ttl start_idx chunk_idx chunks
  else Some chunks.
Proof.
  cbn [chunk_loop]. destruct (start_idx <? PyList.len words); [|reflexivity].
  now rewrite Z.geb_leb, Z.leb_refl.
Qed.

Lemma chunk_loop_length fuel words doc ttl start_idx chunk_idx :
  exists r,
    chunk_loop self (S fuel) words doc ttl start_idx chunk_idx [] = Some r
    /\ (length r <= 1)%nat
    /\ (start_idx < PyList.len words -> length r = 1%nat)
    /\ Forall (fun c => chunk_index c = chunk_idx) r.
Proof.
  cbn [chunk_loop]. destruct (start_idx <? PyList.len words) eqn:E.
  - rewrite Z.geb_leb, Z.leb_refl. eexists; repeat split; cbn; [lia|].
    repeat constructor.
  - exists []. repeat split; [cbn; lia | lia | constructor].
Qed.

(** [smart_chunk_text] returns on every input. *)
Lemma smart_chunk_text_total txt doc ttl :
  exists chunks, smart_chunk_text self txt doc ttl = Some chunks.
Proof.
  unfold smart_chunk_text.
  destruct (negb _); [eauto|]. destruct (_ <=? _); [eauto|].
  destruct (chunk_loop_length (length (PyStr.split (PyStr.strip txt)))
              (PyStr.split (PyStr.strip txt)) doc ttl 0 0) as (r & -> & _).
  eauto.
Qed.

End ChunkFacts.

(** C1, as stated, fails on a text of one space: it is not empty, and
    [smart_chunk_text] returns no chunk for it.  It also fails on a text
    of 501 words: the one chunk returned ends before the last word. *)
Lemma smart_chunk_text_counterexample :
  (" " <> "" /\ smart_chunk_text production_config " " "doc" "Guide" = Some []
   /\ ~ chunks_whole_text production_config " " "doc" "Guide")
  /\ (words_text 501 <> ""
      /\ PyList.len (PyStr.split (words_text 501)) = 501
      /\ ~ chunks_whole_text production_config (words_text 501) "doc" "").
Proof.
  split.
  - split; [discriminate|]. split; [reflexivity|].
    intros (chunks & H & Hne & _). cbv in H. congruence.
  - split; [discriminate|]. split; [vm_compute; reflexivity|].
    intros (chunks & H & _ & _ & Hcov).
    assert (E : exists c,
              smart_chunk_text production_config (words_text 501) "doc" "" = Some [c]
              /\ word_span c = (0, 500)).
    { eexists. split; vm_compute; reflexivity. }
    destruct E as (c0 & E & Hspan). rewrite E in H. injection H as <-.
    destruct (Hcov 500%nat "w" ltac:(vm_compute; reflexivity)) as (c & Hc & Hs & _).
    apply list_elem_of_singleton in Hc. subst c. rewrite Hspan in Hs. cbn in Hs. lia.
Qed.

(** C1, amended: a text of whitespace only gives no chunk.  For every
    text with a character that is not whitespace, [smart_chunk_text]
    returns at least one chunk, the chunk at position [i] has
    [chunk_index = i], and when the text has at most [chunk_size] words
    the text of the chunks holds every word of the original text at its
    place. *)
Theorem smart_chunk_text_nonblank (self : ProductionRAGConfig) (txt doc ttl : string) :
  (PyStr.strip txt = "" -> smart_chunk_text self txt doc ttl = Some [])
  /\ (PyStr.strip txt <> "" ->
      exists chunks,
        smart_chunk_text self txt doc ttl = Some chunks
        /\ chunks <> []
        /\ indexed_in_order chunks
        /\ (PyList.len (PyStr.split txt) <= chunk_size self ->
            covers_words (PyStr.split txt) chunks)).
Proof.
  split.
  { intros Hb. unfold smart_chunk_text. now rewrite Hb. }
  intros Hne. unfold smart_chunk_text.
  pose proof (proj2 (PyStrFacts.truthy_nonempty _) Hne) as Ht. rewrite Ht. cbn [negb].
  pose proof (PyStrFacts.split_strip_nonempty _ Hne) as Hw.
  rewrite <- (PyStrFacts.split_strip txt).
  set (words := PyStr.split (PyStr.strip txt)) in *.
  destruct (PyList.len words <=? chunk_size self) eqn:E.
  - eexists. split; [reflexivity|]. split; [congruence|]. split.
    + intros [|i] c; cbn; [now intros [= <-] | discriminate].
    + intros _ i w Hi. eexists. split; [apply list_elem_of_here|].
      unfold word_span, chunk_words. cbn [start_word end_word word_count text fst snd].
      fold words. split.
      * apply lookup_lt_Some in Hi. unfold PyList.len. lia.
      * unfold PyList.len. rewrite Nat2Z.id, Nat.sub_diag, Nat.sub_0_r. exact Hi.
  - destruct (chunk_loop_length self (length words) words doc ttl 0 0)
      as (r & -> & Hle & Hone & Hidx).
    assert (Hlen : length r = 1%nat).
    { apply Hone. unfold PyList.len. destruct words; [congruence | cbn; lia]. }
    destruct r as [|c [|? ?]]; try discriminate.
    eexists. split; [reflexivity|]. split; [discriminate|]. split.
    + intros [|i] c'; cbn; [|discriminate]. intros [= <-]. cbn.
      now inversion Hidx.
    + apply Z.leb_gt in E. lia.
Qed.

Lemma smart_chunk_text_nonblank_witness :
  PyStr.strip " visa  form " <> ""
  /\ exists chunks,
       smart_chunk_text production_config " visa  form " "doc" "" = Some chunks
       /\ chunks <> []
       /\ indexed_in_order chunks
       /\ (PyList.len (PyStr.split " visa  form ") <= chunk_size production_config ->
           covers_words (PyStr.split " visa  form ") chunks).
Proof.
  split; [cbv; discriminate|].
  apply (proj2 (smart_chunk_text_nonblank production_config " visa  form " "doc" "")).
  cbv; discriminate.
Defined.

(** On a text of 501 words the loop stops after its first chunk: words
    500 and beyond are in no chunk. *)
Lemma smart_chunk_text_long_text :
  exists c,
    smart_chunk_text production_config (words_text 501) "doc" "" = Some [c]
    /\ start_word c = Some 0 /\ end_word c = Some 500 /\ word_count c = 500
    /\ PyList.len (PyStr.split (words_text 501)) = 501
    /\ ~ covers_words (PyStr.split (words_text 501)) [c].
Proof.
  eexists. split; [vm_compute; reflexivity|].
  repeat split; try (vm_compute; reflexivity).
  intros H. destruct (H 500%nat "w" ltac:(vm_compute; reflexivity)) as (c & Hc & Hs & _).
  apply list_elem_of_singleton in Hc. subst c. cbn in Hs. lia.
Qed.

(** ** [generate_embedding] *)

(** C3, as stated, fails when the service is unreachable: the call comes
    back with 3072 zeros and no error. *)
Lemma generate_embedding_failure_counterexample :
  generate_embedding production_config unreachable_embeddings "student visa"
    = Ok (repeat 0%Q 3072)
  /\ ~ surfaces_failure production_config unreachable_embeddings "student visa".
Proof.
  split; [reflexivity|].
  intros H. destruct (H "APIConnectionError" eq_refl) as [e He]. discriminate He.
Qed.

(** C3, amended: when the call of the embedding service fails,
    [generate_embedding] raises nothing and returns the dummy vector of
    [embedding_dimensions] zeros. *)
Theorem generate_embedding_failure_dummy (self : ProductionRAGConfig)
    (embeddings_create : string -> string -> Exc (list (list Q))) (txt e : string) :
  embeddings_create (embedding_input txt) (embedding_model self) = Raise e ->
  generate_embedding self embeddings_create txt
    = Ok (repeat 0%Q (Z.to_nat (embedding_dimensions self))).
Proof.
  intros H. unfold generate_embedding. cbn zeta. now rewrite H.
Qed.

Lemma generate_embedding_failure_dummy_witness :
  unreachable_embeddings (embedding_input "fees") (embedding_model production_config)
    = Raise "APIConnectionError"
  /\ generate_embedding production_config unreachable_embeddings "fees"
     = Ok (repeat 0%Q (Z.to_nat (embedding_dimensions production_config))).
Proof.
  split; [reflexivity|].
  apply (generate_embedding_failure_dummy production_config unreachable_embeddings
           "fees" "APIConnectionError").
  reflexivity.
Defined.

(** [generate_embedding] never raises. *)
Lemma generate_embedding_ok (self : ProductionRAGConfig)
    (embeddings_create : string -> string -> Exc (list (list Q))) (txt : string) :
  exists v, generate_embedding self embeddings_create txt = Ok v.
Proof.
  unfold generate_embedding. cbn zeta.
  destruct (embeddings_create _ _) as [[|v ?]|]; cbn; eauto.
Qed.

(** ** [store_enhanced_chunks] *)

Section StoreFacts.

Variable base_rag : ProductionRAGConfig.
Variable embeddings_create : string -> string -> Exc (list (list Q)).

Lemma generate_embedding_eq txt :
  generate_embedding base_rag embeddings_create txt
  = Ok (embedding_or_dummy base_rag embeddings_create txt).
Proof.
  unfold generate_embedding, embedding_or_dummy. cbn zeta.
  destruct (embeddings_create _ _) as [[|v ?]|]; reflexivity.
Qed.

Lemma embed_texts_eq texts :
  embed_texts base_rag embeddings_create texts
  = Ok (map (embedding_or_dummy base_rag embeddings_create) texts).
Proof.
  induction texts as [|t texts IH]; [reflexivity|].
  cbn [embed_texts]. rewrite generate_embedding_eq, IH. reflexivity.
Qed.

Lemma prepare_points_eq batch :
  prepare_points batch
    (map (embedding_or_dummy base_rag embeddings_create)
         (map EnhancedChunk.content batch))
  = batch_points base_rag embeddings_create batch.
Proof.
  unfold prepare_points, batch_points, enumerate.
  rewrite map_map, zip_with_fmap_r, zip_with_diag.
  change (map ?f ?l) with (f <$> l). rewrite imap_fmap, fmap_imap.
  apply imap_ext. reflexivity.
Qed.

(** The whole batch goes to the store in one call, and the flag
    returned tells whether that call raised. *)
Lemma store_enhanced_chunks_eq (Store : Type)
    (qdrant_upsert : Store -> string -> list Point.t -> Store * Exc unit)
    (st : Store) (batch : list EnhancedChunk.t) :
  let r := qdrant_upsert st enhanced_collection_name
             (batch_points base_rag embeddings_create batch) in
  store_enhanced_chunks base_rag embeddings_create Store qdrant_upsert st batch
  = (is_ok (snd r), fst r).
Proof.
  cbv zeta. unfold store_enhanced_chunks.
  rewrite embed_texts_eq, prepare_points_eq.
  destruct (qdrant_upsert _ _ _) as [st' [[]|e]]; reflexivity.
Qed.

Lemma batch_points_lookup batch (i : nat) c :
  batch !! i = Some c ->
  batch_points base_rag embeddings_create batch !! i
  = Some {| Point.id := Z.of_nat i;
            Point.vector :=
              embedding_or_dummy base_rag embeddings_create (EnhancedChunk.content c);
            Point.payload := _make_serializable_dict (asdict c) |}.
Proof.
  intros H. unfold batch_points. rewrite list_lookup_imap, H. reflexivity.
Qed.

Lemma embedding_or_dummy_fails c :
  embedding_fails base_rag embeddings_create c ->
  embedding_or_dummy base_rag embeddings_create (EnhancedChunk.content c)
  = dummy_embedding base_rag.
Proof. intros [e He]. unfold embedding_or_dummy. now rewrite He. Qed.

End StoreFacts.

Lemma _make_serializable_dict_keys (d : Dict) :
  PyDict.keys (_make_serializable_dict d) = PyDict.keys d.
Proof.
  unfold PyDict.keys, _make_serializable_dict. rewrite map_map.
  apply map_ext. now intros [k v].
Qed.

Lemma payload_contract_perm (c : EnhancedChunk.t) :
  PyDict.keys (_make_serializable_dict (asdict c)) ≡ₚ payload_contract.
Proof.
  rewrite _make_serializable_dict_keys. cbn. unfold payload_contract.
  apply perm_skip, perm_swap.
Qed.

(** C2, as stated, fails on a batch of three records when the embedding
    call of the second fails: the second record is not skipped, it is
    stored under key 1 with the all-zero dummy vector. *)
Lemma store_enhanced_chunks_skip_counterexample :
  let a := sample_chunk "Guide" "first part" 0 [] true 1 in
  let b := sample_chunk "Guide" "unembeddable" 1 [] true 1 in
  let c := sample_chunk "Guide" "third part" 2 [] true 1 in
  let st := snd (store_enhanced_chunks production_config sample_embeddings _
                   MemStore.upsert ∅ [a; b; c]) in
  embedding_fails production_config sample_embeddings b
  /\ st !! 1 = Some {| Point.id := 1;
                       Point.vector := repeat 0%Q 3072;
                       Point.payload := _make_serializable_dict (asdict b) |}
  /\ ~ skips_failed_records production_config sample_embeddings [a; b; c].
Proof.
  cbv zeta.
  assert (Hf : embedding_fails production_config sample_embeddings
                 (sample_chunk "Guide" "unembeddable" 1 [] true 1))
    by (exists "RateLimitError"; reflexivity).
  assert (Hs : snd (store_enhanced_chunks production_config sample_embeddings _
                      MemStore.upsert ∅
                      [sample_chunk "Guide" "first part" 0 [] true 1;
                       sample_chunk "Guide" "unembeddable" 1 [] true 1;
                       sample_chunk "Guide" "third part" 2 [] true 1]) !! 1
               = Some {| Point.id := 1;
                         Point.vector := repeat 0%Q 3072;
                         Point.payload :=
                           _make_serializable_dict
                             (asdict (sample_chunk "Guide" "unembeddable" 1 [] true 1)) |})
    by (vm_compute; reflexivity).
  split; [exact Hf|]. split; [exact Hs|].
  intros H. unfold skips_failed_records in H. cbv zeta in H.
  destruct (H (sample_chunk "Guide" "unembeddable" 1 [] true 1)) as [Hskip _].
  { apply list_elem_of_further, list_elem_of_here. }
  apply (Hskip Hf). eexists 1, _. split; [exact Hs | reflexivity].
Qed.

(** When the one upsert call fails, nothing of the batch is stored,
    whichever record was at fault. *)
Lemma store_enhanced_chunks_unreachable (batch : list EnhancedChunk.t) :
  store_enhanced_chunks production_config sample_embeddings _
    MemStore.upsert_unreachable ∅ batch = (false, ∅).
Proof. now rewrite store_enhanced_chunks_eq. Qed.

(** C2, amended: [store_enhanced_chunks] skips no record.  Record [i] of
    the batch becomes point [i], with the dummy vector when its embedding
    call failed; all points go to the store in one upsert call, and the
    function returns [True] exactly when that call did not raise. *)
Theorem store_enhanced_chunks_whole_batch (self : ProductionRAGConfig)
    (embeddings_create : string -> string -> Exc (list (list Q)))
    (Store : Type) (qdrant_upsert : Store -> string -> list Point.t -> Store * Exc unit)
    (st : Store) (batch : list EnhancedChunk.t) :
  let points := batch_points self embeddings_create batch in
  let r := qdrant_upsert st enhanced_collection_name points in
  store_enhanced_chunks self embeddings_create Store qdrant_upsert st batch
    = (is_ok (snd r), fst r)
  /\ length points = length batch
  /\ forall (i : nat) c, batch !! i = Some c ->
       exists p, points !! i = Some p
         /\ Point.id p = Z.of_nat i
         /\ Point.payload p = _make_serializable_dict (asdict c)
         /\ (embedding_fails self embeddings_create c ->
             Point.vector p = repeat 0%Q (Z.to_nat (embedding_dimensions self))).
Proof.
  cbv zeta. split; [apply store_enhanced_chunks_eq|].
  split; [apply length_imap|].
  intros i c Hc. eexists. split; [apply batch_points_lookup; exact Hc|].
  cbn. repeat split. apply embedding_or_dummy_fails.
Qed.

Lemma store_enhanced_chunks_whole_batch_witness :
  let b := sample_chunk "Guide" "unembeddable" 0 [] true 1 in
  let points := batch_points production_config sample_embeddings [b] in
  [b] !! 0%nat = Some b
  /\ embedding_fails production_config sample_embeddings b
  /\ exists p, points !! 0%nat = Some p /\ Point.vector p = repeat 0%Q 3072.
Proof.
  cbv zeta. split; [reflexivity|].
  assert (Hf : embedding_fails production_config sample_embeddings
                 (sample_chunk "Guide" "unembeddable" 0 [] true 1))
    by (exists "RateLimitError"; reflexivity).
  split; [exact Hf|].
  destruct (store_enhanced_chunks_whole_batch production_config sample_embeddings
              _ MemStore.upsert ∅ [sample_chunk "Guide" "unembeddable" 0 [] true 1])
    as (_ & _ & H).
  destruct (H 0%nat _ eq_refl) as (p & Hp & _ & _ & Hv).
  exists p. split; [exact Hp | exact (Hv Hf)].
Defined.

(** C9: every payload that [store_enhanced_chunks] hands to the store has
    exactly the fields of the payload contract. *)
Theorem store_enhanced_chunks_payload_fields (self : ProductionRAGConfig)
    (embeddings_create : string -> string -> Exc (list (list Q)))
    (Store : Type) (qdrant_upsert : Store -> string -> list Point.t -> Store * Exc unit)
    (st : Store) (batch : list EnhancedChunk.t) :
  exists points,
    store_enhanced_chunks self embeddings_create Store qdrant_upsert st batch
    = (is_ok (snd (qdrant_upsert st enhanced_collection_name points)),
       fst (qdrant_upsert st enhanced_collection_name points))
    /\ length points = length batch
    /\ Forall (fun p => PyDict.keys (Point.payload p) ≡ₚ payload_contract) points.
Proof.
  exists (batch_points self embeddings_create batch).
  split; [apply store_enhanced_chunks_eq|]. split; [apply length_imap|].
  apply Forall_lookup. intros i p Hp. unfold batch_points in Hp.
  rewrite list_lookup_imap in Hp. destruct (batch !! i) as [c|]; [|discriminate].
  injection Hp as <-. apply payload_contract_perm.
Qed.

(** The contract names no field twice, and no payload carries a
    [document_id]. *)
Lemma payload_contract_NoDup : NoDup payload_contract.
Proof. apply (bool_decide_unpack _). vm_compute. exact I. Qed.

Lemma payload_no_document_id (c : EnhancedChunk.t) :
  PyDict.get "document_id" (_make_serializable_dict (asdict c)) = None.
Proof. reflexivity. Qed.

(** The key of a point is its position in the batch, whatever document
    the record belongs to. *)
Lemma batch_points_ids (self : ProductionRAGConfig)
    (embeddings_create : string -> string -> Exc (list (list Q)))
    (batch : list EnhancedChunk.t) :
  map Point.id (batch_points self embeddings_create batch)
  = map Z.of_nat (seq 0 (length batch)).
Proof.
  apply list_eq. intros i. unfold batch_points.
  change (map ?f ?l) with (f <$> l).
  rewrite !list_lookup_fmap, list_lookup_imap.
  destruct (batch !! i) as [c|] eqn:E; cbn.
  - rewrite lookup_seq_lt by (now apply lookup_lt_Some in E). reflexivity.
  - rewrite lookup_seq_ge by (now apply lookup_ge_None in E). reflexivity.
Qed.

(** C6 on the code: the first chunk of one document and the first chunk
    of another, stored by two calls, land under the same key 0; the
    second call replaces the record of the first document. *)
Theorem store_enhanced_chunks_key_collision :
  let a := sample_chunk "Family visas" "Form I-130 is filed first." 0 ["I-130"] true 1 in
  let b := sample_chunk "Student visas" "Form I-20 is issued by the school." 0 ["I-20"] true 1 in
  let store := store_enhanced_chunks production_config sample_embeddings _ MemStore.upsert in
  let st1 := snd (store ∅ [a]) in
  let st2 := snd (store st1 [b]) in
  EnhancedChunk.document_title a <> EnhancedChunk.document_title b
  /\ persisted st1 a
  /\ st2 = {[ 0 := {| Point.id := 0;
                      Point.vector := [1%Q];
                      Point.payload := _make_serializable_dict (asdict b) |} ]}
  /\ ~ persisted st2 a.
Proof.
  cbv zeta. split; [discriminate|].
  split; [eexists 0, _; split; vm_compute; reflexivity|].
  assert (H2 : snd (store_enhanced_chunks production_config sample_embeddings _
                      MemStore.upsert
                      (snd (store_enhanced_chunks production_config sample_embeddings _
                              MemStore.upsert ∅
                              [sample_chunk "Family visas" "Form I-130 is filed first."
                                 0 ["I-130"] true 1]))
                      [sample_chunk "Student visas" "Form I-20 is issued by the school."
                         0 ["I-20"] true 1])
               = {[ 0 := {| Point.id := 0;
                            Point.vector := [1%Q];
                            Point.payload :=
                              _make_serializable_dict
                                (asdict (sample_chunk "Student visas"
                                           "Form I-20 is issued by the school."
                                           0 ["I-20"] true 1)) |} ]})
    by (vm_compute; reflexivity).
  split; [exact H2|].
  rewrite H2. intros (k & p & Hk & Hp).
  apply lookup_singleton_Some in Hk as [_ <-]. discriminate Hp.
Qed.

(** ** [semantic_search_enhanced] *)

Section SearchFacts.

Variable base_rag : ProductionRAGConfig.
Variable embeddings_create : string -> string -> Exc (list (list Q)).
Variable Store : Type.
Variable qdrant_search :
  Store -> string -> list Q -> Z -> option Filter -> Q -> Exc (list ScoredPoint.t).

Lemma semantic_search_try_eq st query limit filters :
  semantic_search_try base_rag embeddings_create Store qdrant_search st query limit filters
  = match store_answer base_rag embeddings_create Store qdrant_search
            st query limit filters with
    | Ok hits => Ok (map enhanced_result hits)
    | Raise e => Raise e
    end.
Proof.
  unfold semantic_search_try, store_answer, search_filter.
  rewrite generate_embedding_eq. cbn.
  destruct (qdrant_search _ _ _ _ _ _); reflexivity.
Qed.

Lemma semantic_search_enhanced_eq st query limit filters :
  semantic_search_enhanced base_rag embeddings_create Store qdrant_search
    st query limit filters
  = Ok (match store_answer base_rag embeddings_create Store qdrant_search
                st query limit filters with
        | Ok hits => map enhanced_result hits
        | Raise _ => []
        end).
Proof.
  unfold semantic_search_enhanced. rewrite semantic_search_try_eq.
  destruct (store_answer _ _ _ _ _ _ _ _); reflexivity.
Qed.

End SearchFacts.

Lemma known_filter_keys_ne (k : string) :
  k ∉ known_filter_keys ->
  k <> "form_numbers" /\ k <> "visa_types" /\ k <> "chunk_type"
  /\ k <> "current_only" /\ k <> "min_freshness".
Proof.
  unfold known_filter_keys. intros H.
  repeat split; intros ->; apply H; repeat constructor.
Qed.

(** A key that [_build_search_filter] does not read changes nothing. *)
Lemma _build_search_filter_unknown_key (f : gmap string PyVal) (k : string) (v : PyVal) :
  k ∉ known_filter_keys ->
  _build_search_filter (<[k := v]> f) = _build_search_filter f.
Proof.
  intros H. apply known_filter_keys_ne in H as (H1 & H2 & H3 & H4 & H5).
  unfold _build_search_filter. now rewrite !lookup_insert_ne.
Qed.

Lemma search_filter_unknown_key (f : gmap string PyVal) (k : string) (v : PyVal) :
  k ∉ known_filter_keys ->
  search_filter (Some (<[k := v]> f)) = search_filter (Some f).
Proof.
  intros H. unfold search_filter, filters_truthy. cbn [from_option id].
  rewrite _build_search_filter_unknown_key by exact H.
  destruct (Nat.eqb (size (<[k := v]> f)) 0) eqn:E1.
  { apply Nat.eqb_eq, map_size_empty_iff in E1. now apply insert_non_empty in E1. }
  destruct (Nat.eqb (size f) 0) eqn:E2; [|reflexivity].
  apply Nat.eqb_eq, map_size_empty_iff in E2. subst f. reflexivity.
Qed.

(** C4, as stated, fails on the sample collection: a negative limit is
    answered by an empty list and an unknown filter key by the unfiltered
    results, neither by an error. *)
Lemma semantic_search_enhanced_violation_counterexample :
  let search := semantic_search_enhanced production_config sample_embeddings _
                  MemStore.search sample_store "student visa requirements" in
  violates_contract (-1) None
  /\ search (-1) None = Ok []
  /\ violates_contract 5 (Some {[ "country" := VStr "US" ]})
  /\ search 5 (Some {[ "country" := VStr "US" ]}) = search 5 None
  /\ (exists r results, search 5 None = Ok (r :: results))
  /\ ~ rejects_violations production_config sample_embeddings sample_store.
Proof.
  cbv zeta.
  assert (H1 : violates_contract (-1) None) by (left; lia).
  assert (H2 : semantic_search_enhanced production_config sample_embeddings _
                 MemStore.search sample_store "student visa requirements" (-1) None
               = Ok []) by (vm_compute; reflexivity).
  split; [exact H1|]. split; [exact H2|].
  split.
  { right. exists {[ "country" := VStr "US" ]}, "country".
    split; [reflexivity|]. split; [now rewrite lookup_singleton_eq|].
    unfold known_filter_keys. intros H. repeat (apply elem_of_cons in H as [H|H]; [discriminate|]).
    now apply elem_of_nil in H. }
  split; [vm_compute; reflexivity|].
  split; [eexists _, _; vm_compute; reflexivity|].
  intros H. destruct (H "student visa requirements" (-1) None H1) as [e He].
  rewrite H2 in He. discriminate.
Qed.

(** C4, amended: [semantic_search_enhanced] does not check its arguments.
    A filter key other than the five that [_build_search_filter] reads is
    ignored; the limit goes to the store as it is; and the call returns a
    list, the empty one when the store refuses the request, never an
    error. *)
Theorem semantic_search_enhanced_no_validation (self : ProductionRAGConfig)
    (embeddings_create : string -> string -> Exc (list (list Q)))
    (Store : Type)
    (qdrant_search :
       Store -> string -> list Q -> Z -> option Filter -> Q -> Exc (list ScoredPoint.t))
    (st : Store) (query : string) (limit : Z)
    (f : gmap string PyVal) (k : string) (v : PyVal) :
  k ∉ known_filter_keys ->
  let search := semantic_search_enhanced self embeddings_create Store qdrant_search st query in
  search limit (Some (<[k := v]> f)) = search limit (Some f)
  /\ search limit (Some f)
     = Ok (match qdrant_search st enhanced_collection_name
                   (embedding_or_dummy self embeddings_create query)
                   limit (search_filter (Some f)) (1 # 2) with
           | Ok hits => map enhanced_result hits
           | Raise _ => []
           end).
Proof.
  intros H. cbv zeta. rewrite !semantic_search_enhanced_eq. unfold store_answer.
  rewrite search_filter_unknown_key by exact H. split; reflexivity.
Qed.

Lemma semantic_search_enhanced_no_validation_witness :
  let search := semantic_search_enhanced production_config sample_embeddings _
                  MemStore.search sample_store "fees" in
  ("priority" ∉ known_filter_keys)
  /\ search (-3) (Some (<["priority" := VInt 1]> {[ "chunk_type" := VStr "narrative" ]}))
     = search (-3) (Some {[ "chunk_type" := VStr "narrative" ]}).
Proof.
  cbv zeta.
  assert (H : "priority" ∉ known_filter_keys).
  { unfold known_filter_keys. intros H.
    repeat (apply elem_of_cons in H as [H|H]; [discriminate|]).
    now apply elem_of_nil in H. }
  split; [exact H|].
  apply (semantic_search_enhanced_no_validation production_config sample_embeddings _
           MemStore.search sample_store "fees" (-3)
           {[ "chunk_type" := VStr "narrative" ]} "priority" (VInt 1) H).
Defined.

(** C10: [semantic_search_enhanced] returns a list on every input, and
    the empty list whenever its [try] block raises, in particular when
    the search of the store raises. *)
Theorem semantic_search_enhanced_never_raises (self : ProductionRAGConfig)
    (embeddings_create : string -> string -> Exc (list (list Q)))
    (Store : Type)
    (qdrant_search :
       Store -> string -> list Q -> Z -> option Filter -> Q -> Exc (list ScoredPoint.t))
    (st : Store) (query : string) (limit : Z) (filters : option (gmap string PyVal)) :
  let result := semantic_search_enhanced self embeddings_create Store qdrant_search
                  st query limit filters in
  (exists results, result = Ok results)
  /\ (forall e,
        semantic_search_try self embeddings_create Store qdrant_search
          st query limit filters = Raise e ->
        result = Ok [])
  /\ (forall e,
        qdrant_search st enhanced_collection_name
          (embedding_or_dummy self embeddings_create query)
          limit (search_filter filters) (1 # 2) = Raise e ->
        result = Ok []).
Proof.
  cbv zeta. split; [|split].
  - rewrite semantic_search_enhanced_eq. eauto.
  - intros e He. unfold semantic_search_enhanced. now rewrite He.
  - intros e He. rewrite semantic_search_enhanced_eq. unfold store_answer. now rewrite He.
Qed.

Lemma semantic_search_enhanced_never_raises_witness :
  MemStore.search sample_store enhanced_collection_name
    (embedding_or_dummy production_config sample_embeddings "fees")
    (-1) (search_filter None) (1 # 2) = Raise "limit must not be negative"
  /\ semantic_search_enhanced production_config sample_embeddings _ MemStore.search
       sample_store "fees" (-1) None = Ok [].
Proof.
  assert (H : MemStore.search sample_store enhanced_collection_name
                (embedding_or_dummy production_config sample_embeddings "fees")
                (-1) (search_filter None) (1 # 2) = Raise "limit must not be negative")
    by reflexivity.
  split; [exact H|].
  destruct (semantic_search_enhanced_never_raises production_config sample_embeddings _
              MemStore.search sample_store "fees" (-1) None) as (_ & _ & H3).
  exact (H3 _ H).
Defined.

(** ** The in-memory store *)

Section MemStoreFacts.

Lemma insert_by_score_Forall (P : ScoredPoint.t -> Prop) h l :
  P h -> Forall P l -> Forall P (MemStore.insert_by_score h l).
Proof.
  intros Hh. induction 1 as [|x l Hx Hl IH]; cbn [MemStore.insert_by_score].
  - now constructor.
  - destruct (Qle_bool _ _); repeat constructor; assumption.
Qed.

Lemma rank_Forall (P : ScoredPoint.t -> Prop) l :
  Forall P l -> Forall P (MemStore.rank l).
Proof.
  induction 1 as [|x l Hx Hl IH]; [constructor|].
  now apply insert_by_score_Forall.
Qed.

Lemma insert_by_score_descending h l :
  descending (map ScoredPoint.score l) ->
  descending (map ScoredPoint.score (MemStore.insert_by_score h l)).
Proof.
  unfold descending. induction l as [|x l IH]; cbn [MemStore.insert_by_score map].
  - intros _. repeat constructor.
  - intros Hs. apply StronglySorted_inv in Hs as [Hl Hx].
    destruct (Qle_bool (ScoredPoint.score x) (ScoredPoint.score h)) eqn:E.
    + apply Qle_bool_iff in E. cbn [map]. constructor.
      * now constructor.
      * constructor; [exact E|].
        eapply Forall_impl; [exact Hx|]. cbn. intros y Hy.
        now apply Qle_trans with (ScoredPoint.score x).
    + constructor; [now apply IH|].
      apply Forall_map, insert_by_score_Forall.
      * cbn. apply Qlt_le_weak, Qnot_le_lt. intros Hle.
        apply Qle_bool_iff in Hle. congruence.
      * apply List.Forall_forall. intros y Hy.
        rewrite List.Forall_forall in Hx. now apply Hx, in_map.
Qed.

Lemma rank_descending l : descending (map ScoredPoint.score (MemStore.rank l)).
Proof.
  induction l as [|x l IH]; [constructor|].
  now apply insert_by_score_descending.
Qed.

Lemma descending_take (n : nat) (l : list ScoredPoint.t) :
  descending (map ScoredPoint.score l) ->
  descending (map ScoredPoint.score (take n l)).
Proof.
  unfold descending. revert n. induction l as [|x l IH]; intros [|n] Hs;
    cbn; try constructor.
  - apply IH. now apply StronglySorted_inv in Hs.
  - apply StronglySorted_inv in Hs as [_ Hx].
    rewrite List.Forall_forall in Hx. apply List.Forall_forall. intros y Hy.
    apply Hx. apply in_map_iff in Hy as (p & <- & Hp). apply in_map.
    apply list_elem_of_In. eapply subseteq_take. apply list_elem_of_In. exact Hp.
Qed.

(** The in-memory store returns its matches best first. *)
Lemma search_descending st coll v limit f threshold hits :
  MemStore.search st coll v limit f threshold = Ok hits ->
  descending (map ScoredPoint.score hits).
Proof.
  unfold MemStore.search. destruct (limit <? 0); [discriminate|].
  intros [= <-]. apply descending_take, rank_descending.
Qed.

(** The in-memory store honours its filter. *)
Lemma search_honours_filter : Qdrant.honours_filter MemStore.search.
Proof.
  intros st coll v limit f threshold hits. unfold MemStore.search.
  destruct (limit <? 0); [discriminate|]. intros [= <-].
  apply Forall_take, rank_Forall, List.Forall_forall. intros h Hh.
  apply filter_In in Hh as [_ Hh]. now apply andb_true_iff in Hh as [Hh _].
Qed.

End MemStoreFacts.

(** ** Ranking and currentness of the results *)

Lemma enhanced_result_scores (hits : list ScoredPoint.t) :
  map SearchResult.score (map enhanced_result hits) = map ScoredPoint.score hits.
Proof. rewrite map_map. reflexivity. Qed.

(** C7, as stated, fails on the sample collection: the three matches
    score alike, and the record of freshness 1/10 is returned before the
    record of freshness 1/5. *)
Lemma semantic_search_enhanced_ranking_counterexample :
  exists results,
    semantic_search_enhanced production_config sample_embeddings _ MemStore.search
      sample_store "student visa requirements" 5 None = Ok results
    /\ map (fun r => (SearchResult.score r, result_freshness r)) results
       = [ (1, 9 # 10); (1, 1 # 10); (1, 1 # 5) ]%Q
    /\ ~ ranked results.
Proof.
  eexists. split; [vm_compute; reflexivity|]. split; [vm_compute; reflexivity|].
  intros H. destruct (H 1%nat 2%nat _ _ ltac:(lia) eq_refl eq_refl) as [Hlt | [_ Hle]].
  - vm_compute in Hlt. discriminate Hlt.
  - vm_compute in Hle. now apply Hle.
Qed.

(** C7, amended: [semantic_search_enhanced] returns one result per match
    of the store, in the order of the store and with the score of the
    match; the results are in descending order of score whenever the
    matches of the store are.  Equal scores are not reordered. *)
Theorem semantic_search_enhanced_store_order (self : ProductionRAGConfig)
    (embeddings_create : string -> string -> Exc (list (list Q)))
    (Store : Type)
    (qdrant_search :
       Store -> string -> list Q -> Z -> option Filter -> Q -> Exc (list ScoredPoint.t))
    (st : Store) (query : string) (limit : Z) (filters : option (gmap string PyVal))
    (hits : list ScoredPoint.t) :
  qdrant_search st enhanced_collection_name
    (embedding_or_dummy self embeddings_create query)
    limit (search_filter filters) (1 # 2) = Ok hits ->
  semantic_search_enhanced self embeddings_create Store qdrant_search
    st query limit filters = Ok (map enhanced_result hits)
  /\ map SearchResult.score (map enhanced_result hits) = map ScoredPoint.score hits
  /\ (descending (map ScoredPoint.score hits) ->
      descending (map SearchResult.score (map enhanced_result hits))).
Proof.
  intros H. split; [|split].
  - rewrite semantic_search_enhanced_eq. unfold store_answer. now rewrite H.
  - apply enhanced_result_scores.
  - now rewrite enhanced_result_scores.
Qed.

Lemma semantic_search_enhanced_store_order_witness :
  exists hits,
    MemStore.search sample_store enhanced_collection_name
      (embedding_or_dummy production_config sample_embeddings "fees")
      2 (search_filter None) (1 # 2) = Ok hits
    /\ descending (map ScoredPoint.score hits)
    /\ semantic_search_enhanced production_config sample_embeddings _ MemStore.search
         sample_store "fees" 2 None = Ok (map enhanced_result hits)
    /\ descending (map SearchResult.score (map enhanced_result hits)).
Proof.
  eexists.
  assert (H : MemStore.search sample_store enhanced_collection_name
                (embedding_or_dummy production_config sample_embeddings "fees")
                2 (search_filter None) (1 # 2) = Ok _) by (vm_compute; reflexivity).
  pose proof (search_descending _ _ _ _ _ _ _ H) as Hd.
  destruct (semantic_search_enhanced_store_order production_config sample_embeddings _
              MemStore.search sample_store "fees" 2 None _ H) as (H1 & _ & H3).
  split; [exact H|]. split; [exact Hd|]. split; [exact H1 | exact (H3 Hd)].
Defined.

Lemma _build_search_filter_current_only (f : gmap string PyVal) (v : PyVal) :
  f !! "current_only" = Some v -> Py.truthy v = true ->
  exists conditions,
    _build_search_filter f = Some {| must := conditions |}
    /\ MatchValue "is_current" (VBool true) ∈ conditions.
Proof.
  intros Hv Ht. unfold _build_search_filter. rewrite Hv, Ht.
  destruct (f !! "form_numbers"), (f !! "visa_types"), (f !! "chunk_type"),
    (f !! "min_freshness"); cbn; eexists; (split; [reflexivity|]);
    repeat (first [apply list_elem_of_here | apply list_elem_of_further]).
Qed.

Lemma filter_holds_current (conditions : list Condition) (payload : Dict) :
  MatchValue "is_current" (VBool true) ∈ conditions ->
  Qdrant.filter_holds (Some {| must := conditions |}) payload = true ->
  PyDict.get "is_current" payload <> Some (VBool false)
  /\ PyDict.get_default "is_current" (VBool true) payload <> VBool false.
Proof.
  intros Hin Hf. cbn in Hf. rewrite forallb_forall in Hf.
  apply list_elem_of_In, Hf in Hin. cbn in Hin. unfold PyDict.get_default.
  destruct (PyDict.get "is_current" payload) as [x|]; [|discriminate].
  cbn. split; [intros [= ->] | intros ->]; discriminate Hin.
Qed.

Lemma enhanced_result_is_current (h : ScoredPoint.t) :
  meta_get "is_current" (VBool true) (enhanced_result h)
  = PyDict.get_default "is_current" (VBool true) (ScoredPoint.payload h).
Proof. reflexivity. Qed.

(** The key the filter builder reads is [current_only]: a filter written
    with the key [is_current] asks nothing of the store. *)
Lemma search_filter_is_current_key (v : PyVal) :
  search_filter (Some {[ "is_current" := v ]}) = None.
Proof.
  unfold search_filter, filters_truthy. rewrite map_size_singleton. cbn.
  unfold _build_search_filter. now rewrite !lookup_singleton_ne.
Qed.

(** On the sample collection such a filter lets the out-of-date record
    through. *)
Lemma semantic_search_enhanced_is_current_key :
  exists results,
    semantic_search_enhanced production_config sample_embeddings _ MemStore.search
      sample_store "student visa requirements" 5
      (Some {[ "is_current" := VBool true ]}) = Ok results
    /\ map (meta_get "is_current" (VBool true)) results
       = [ VBool true; VBool false; VBool true ].
Proof. eexists. split; [vm_compute; reflexivity | reflexivity]. Qed.

(** C5: on a store that honours its filter, a search invoked with the
    currentness filter (a true value under the key [current_only], which
    asks the store for [is_current = True]) returns no record whose
    stored [is_current] is false. *)
Theorem semantic_search_enhanced_current_only (self : ProductionRAGConfig)
    (embeddings_create : string -> string -> Exc (list (list Q)))
    (Store : Type)
    (qdrant_search :
       Store -> string -> list Q -> Z -> option Filter -> Q -> Exc (list ScoredPoint.t))
    (st : Store) (query : string) (limit : Z)
    (f : gmap string PyVal) (v : PyVal) (results : list SearchResult.t) :
  Qdrant.honours_filter qdrant_search ->
  f !! "current_only" = Some v ->
  Py.truthy v = true ->
  semantic_search_enhanced self embeddings_create Store qdrant_search
    st query limit (Some f) = Ok results ->
  exists hits,
    results = map enhanced_result hits
    /\ Forall (fun h => PyDict.get "is_current" (ScoredPoint.payload h)
                        <> Some (VBool false)) hits
    /\ Forall reports_current results.
Proof.
  intros Hhon Hv Ht. rewrite semantic_search_enhanced_eq. unfold store_answer.
  destruct (_build_search_filter_current_only f v Hv Ht) as (conds & Hb & Hin).
  assert (Hsf : search_filter (Some f) = Some {| must := conds |}).
  { unfold search_filter, filters_truthy. cbn [from_option id]. rewrite Hb.
    destruct (Nat.eqb (size f) 0) eqn:E; [|reflexivity].
    apply Nat.eqb_eq in E. exfalso. revert E.
    apply (map_size_ne_0_lookup_2 f "current_only"). now rewrite Hv. }
  rewrite Hsf.
  destruct (qdrant_search _ _ _ _ _ _) as [hits|e] eqn:E; intros [= <-].
  - exists hits. apply Hhon in E. split; [reflexivity|]. split.
    + eapply Forall_impl; [exact E|]. intros h Hh.
      now apply (filter_holds_current conds).
    + apply Forall_map. eapply Forall_impl; [exact E|]. intros h Hh.
      unfold reports_current. rewrite enhanced_result_is_current.
      now apply (filter_holds_current conds).
  - exists []. repeat split; constructor.
Qed.

Lemma semantic_search_enhanced_current_only_witness :
  exists results,
    Qdrant.honours_filter MemStore.search
    /\ ({[ "current_only" := VBool true ]} : gmap string PyVal) !! "current_only"
       = Some (VBool true)
    /\ semantic_search_enhanced production_config sample_embeddings _ MemStore.search
         sample_store "student visa requirements" 5
         (Some {[ "current_only" := VBool true ]}) = Ok results
    /\ length results = 2%nat
    /\ Forall reports_current results.
Proof.
  eexists.
  assert (H : semantic_search_enhanced production_config sample_embeddings _
                MemStore.search sample_store "student visa requirements" 5
                (Some {[ "current_only" := VBool true ]}) = Ok _)
    by (vm_compute; reflexivity).
  destruct (semantic_search_enhanced_current_only production_config sample_embeddings _
              MemStore.search sample_store "student visa requirements" 5
              {[ "current_only" := VBool true ]} (VBool true) _
              search_honours_filter (lookup_singleton_eq _ _) eq_refl H)
    as (hits & _ & _ & Hr).
  split; [exact search_honours_filter|]. split; [apply lookup_singleton_eq|].
  split; [exact H|]. split; [reflexivity | exact Hr].
Defined.

(** ** [get_entity_insights] *)

Section InsightFacts.

Lemma existsb_eqb_str x ss :
  existsb (Py.eqb (VStr x)) (map VStr ss) = true <-> x ∈ ss.
Proof.
  induction ss as [|y ss IH]; cbn.
  - split; [discriminate | intros H; now apply elem_of_nil in H].
  - rewrite orb_true_iff, IH, elem_of_cons, String.eqb_eq. reflexivity.
Qed.


Lemma set_add_str s x :
  str_set s ->
  exists s', Py.set_add s (VStr x) = Ok s' /\ str_set s'
             /\ forall v, v ∈ s' <-> v ∈ s \/ v = VStr x.
Proof.
  intros (ss & -> & Hnd). unfold Py.set_add. cbn [Py.hashable].
  destruct (existsb _ _) eqn:E.
  - apply existsb_eqb_str in E. eexists. split; [reflexivity|].
    split; [now exists ss|]. intros v. split; [now left|].
    intros [H | ->]; [exact H|]. now apply (list_elem_of_fmap_2 VStr).
  - assert (Hx : x ∉ ss).
    { intros Hx. apply existsb_eqb_str in Hx. congruence. }
    eexists. split; [reflexivity|]. split.
    + exists (ss ++ [x])%list. split; [now rewrite map_app|].
      apply NoDup_app. repeat split; [exact Hnd | | apply NoDup_singleton].
      intros y Hy Hy'. apply list_elem_of_singleton in Hy'. now subst y.
    + intros v. rewrite elem_of_app, list_elem_of_singleton. reflexivity.
Qed.

Lemma set_add_all_strs l : forall s,
  str_set s ->
  exists s', Py.set_add_all s (map VStr l) = Ok s' /\ str_set s'
             /\ forall v, v ∈ s' <-> v ∈ s \/ v ∈ map VStr l.
Proof.
  induction l as [|x l IH]; intros s Hs; cbn [map Py.set_add_all].
  - exists s. split; [reflexivity|]. split; [exact Hs|].
    intros v. rewrite elem_of_nil. tauto.
  - destruct (set_add_str s x Hs) as (s1 & -> & Hs1 & Hm1).
    destruct (IH s1 Hs1) as (s2 & H2 & Hs2 & Hm2).
    exists s2. split; [exact H2|]. split; [exact Hs2|].
    intros v. rewrite Hm2, Hm1, elem_of_cons. tauto.
Qed.

Lemma set_update_strs s v :
  str_set s -> is_strs v ->
  exists s', Py.set_update s v = Ok s' /\ str_set s'
             /\ forall x, x ∈ s' <-> x ∈ s \/ x ∈ items_of v.
Proof.
  intros Hs [l ->]. unfold Py.set_update, of_strs. cbn.
  apply set_add_all_strs, Hs.
Qed.

Lemma set_inv_nil field : set_inv field [] [].
Proof.
  split; [exists []; split; [reflexivity | constructor]|].
  intros v. split; [intros H; now apply elem_of_nil in H|].
  intros (r & Hr & _). now apply elem_of_nil in Hr.
Qed.

Lemma set_inv_step field seen s r :
  set_inv field seen s ->
  is_strs (meta_get field (VList []) r) ->
  exists s', Py.set_update s (meta_get field (VList []) r) = Ok s'
             /\ set_inv field (seen ++ [r]) s'.
Proof.
  intros [Hs Hm] Ht.
  destruct (set_update_strs s _ Hs Ht) as (s' & H & Hs' & Hm').
  exists s'. split; [exact H|]. split; [exact Hs'|].
  intros v. rewrite Hm', Hm. split.
  - intros [(r' & Hr' & Hv) | Hv].
    + exists r'. split; [apply elem_of_app; now left | exact Hv].
    + exists r. split; [apply elem_of_app; right; apply list_elem_of_here | exact Hv].
  - intros (r' & Hr' & Hv). apply elem_of_app in Hr' as [Hr' | Hr'].
    + left. now exists r'.
    + apply list_elem_of_singleton in Hr'. subst r'. now right.
Qed.

Lemma collected_snoc field seen r :
  collected field (seen ++ [r])
  = (collected field seen ++ items_of (meta_get field (VList []) r))%list.
Proof.
  unfold collected. rewrite map_app, concat_app. cbn. now rewrite app_nil_r.
Qed.

Lemma extend_step field seen l r :
  l = collected field seen ->
  is_list (meta_get field (VList []) r) ->
  exists l', Py.extend l (meta_get field (VList []) r) = Ok l'
             /\ l' = collected field (seen ++ [r]).
Proof.
  intros -> [items Hi]. rewrite collected_snoc, Hi. cbn. eauto.
Qed.

Lemma float_sum_snoc seen r :
  float_sum (seen ++ [r]) = Float64.add (float_sum seen) (freshness_float r).
Proof. unfold float_sum. now rewrite map_app, fold_left_app. Qed.

(** The first float is added to the [int] 0, converted to [0.0]; every
    later one to the float reached so far. *)
Lemma add_step seen total r :
  total = freshness_total seen ->
  is_float (meta_get "freshness_score" (VFloat 1) r) ->
  exists total', Py.add total (meta_get "freshness_score" (VFloat 1) r) = Ok total'
                 /\ total' = freshness_total (seen ++ [r]).
Proof.
  intros -> [q Hq].
  assert (Hf : freshness_float r = Float64.of_Q q)
    by (unfold freshness_float; now rewrite Hq).
  assert (Hsnoc : freshness_total (seen ++ [r])
                  = Py.NFloat (Float64.add (float_sum seen) (Float64.of_Q q))).
  { rewrite <- Hf, <- float_sum_snoc. now destruct seen. }
  rewrite Hsnoc, Hq. destruct seen as [|x seen]; eexists; split; reflexivity.
Qed.

Lemma agg_inv_empty : agg_inv [] empty_aggregate.
Proof.
  unfold agg_inv. repeat (split; [first [apply set_inv_nil | reflexivity]|]).
  reflexivity.
Qed.

Lemma aggregate_result_inv seen a r :
  agg_inv seen a -> well_typed_result r ->
  exists a', aggregate_result a r = Ok a' /\ agg_inv (seen ++ [r]) a'.
Proof.
  intros (If & Iv & Ir & Ie & Il & Ip & It & Is)
         (Tf & Tv & Tr & Te & Th & Tl & Tp & Tt & Tn).
  unfold aggregate_result.
  destruct (set_inv_step _ _ _ _ If Tf) as (s1 & -> & H1).
  destruct (set_inv_step _ _ _ _ Iv Tv) as (s2 & -> & H2).
  destruct (set_inv_step _ _ _ _ Ir Tr) as (s3 & -> & H3).
  destruct (set_inv_step _ _ _ _ Ie Te) as (s4 & -> & H4).
  cbn [mbind exc_bind]. unfold Py.set_add at 1. rewrite Th.
  destruct (extend_step _ _ _ _ Il Tl) as (l1 & -> & H5).
  destruct (extend_step _ _ _ _ Ip Tp) as (l2 & -> & H6).
  destruct (extend_step _ _ _ _ It Tt) as (l3 & -> & H7).
  destruct (add_step _ _ _ Is Tn) as (t & -> & H8).
  cbn [mbind exc_bind]. eexists. split; [reflexivity|].
  repeat split; cbn; assumption || apply H1 || apply H2 || apply H3 || apply H4.
Qed.

Lemma aggregate_results_inv results : forall seen a,
  agg_inv seen a -> Forall well_typed_result results ->
  exists a', aggregate_results a results = Ok a' /\ agg_inv (seen ++ results) a'.
Proof.
  induction results as [|r results IH]; intros seen a Ha Ht.
  - exists a. rewrite app_nil_r. now split.
  - apply Forall_cons_1 in Ht as [Hr Ht]. cbn [aggregate_results].
    destruct (aggregate_result_inv seen a r Ha Hr) as (a1 & -> & Ha1).
    destruct (IH (seen ++ [r])%list a1 Ha1 Ht) as (a2 & H2 & Ha2).
    exists a2. split; [exact H2|]. now rewrite <- app_assoc in Ha2.
Qed.


End InsightFacts.




(** The division that ends the aggregation: a float total divided by the
    number of results. *)
Lemma div_len_freshness_total (results : list SearchResult.t) :
  results <> [] ->
  Py.div_len (freshness_total results) (PyList.len results) = Ok (float_mean results).
Proof.
  destruct results as [|r results]; [congruence|]. intros _.
  unfold Py.div_len, PyList.len.
  destruct (Z.of_nat (length (r :: results)) =? 0) eqn:E; [|reflexivity].
  apply Z.eqb_eq in E. cbn [length] in E. lia.
Qed.

Lemma average_of_freshness_total (results : list SearchResult.t) :
  match results with
  | [] => Ok Float64.zero
  | _ => Py.div_len (freshness_total results) (PyList.len results)
  end
  = Ok match results with
       | [] => Float64.zero
       | _ => float_mean results
       end.
Proof.
  destruct results as [|r results]; [reflexivity|].
  now apply div_len_freshness_total.
Qed.




(** ** [process_document_enhanced] *)

(** The records of one document carry the indices 0, 1, 2, ... in
    order, so [chunk_index] is unique within the document. *)
Lemma process_document_enhanced_chunk_index (MapperState : Type)
    (smart_chunk_document : string -> string -> string -> list SmartChunk.t)
    (extract_relationships :
       MapperState -> string -> list string -> list string ->
       list ImmigrationRelationship.t * MapperState)
    (get_entity_dependencies : MapperState -> string -> list string)
    (get_process_flow : MapperState -> string -> Z -> list (list string))
    (extract_temporal_info : string -> string -> list TemporalInfo.t)
    (get_temporal_summary : list TemporalInfo.t -> TemporalSummary.t)
    (upper : string -> string)
    (m : MapperState) (ttl cont src : string) :
  map EnhancedChunk.chunk_index
      (fst (process_document_enhanced MapperState smart_chunk_document
              extract_relationships get_entity_dependencies get_process_flow
              extract_temporal_info get_temporal_summary upper m ttl cont src))
  = map Z.of_nat (seq 0 (length (smart_chunk_document ttl cont src))).
Proof.
  unfold process_document_enhanced.
  destruct (extract_relationships _ _ _ _) as [rels m']. cbn [fst].
  unfold enumerate. apply list_eq. intros i.
  change (map ?f ?l) with (f <$> l).
  rewrite !list_lookup_fmap, list_lookup_imap.
  destruct (smart_chunk_document ttl cont src !! i) as [c|] eqn:E; cbn.
  - rewrite lookup_seq_lt by (now apply lookup_lt_Some in E). cbn.
    now destruct (fold_left _ _ _) as [[? ?] ?].
  - rewrite lookup_seq_ge by (now apply lookup_ge_None in E). reflexivity.
Qed.

(** ** Payloads written by [store_enhanced_chunks] are well typed *)

Lemma _make_serializable_strs (l : list string) :
  _make_serializable (of_strs l) = of_strs l.
Proof.
  unfold of_strs. cbn. f_equal. rewrite map_map. apply map_ext. reflexivity.
Qed.

(** A match whose payload was written by [store_enhanced_chunks] gives a
    well-typed result. *)
Lemma stored_payload_well_typed (c : EnhancedChunk.t) (i : Z) (s : Q) :
  well_typed_result
    (enhanced_result {| ScoredPoint.id := i;
                        ScoredPoint.score := s;
                        ScoredPoint.payload := _make_serializable_dict (asdict c) |}).
Proof.
  unfold well_typed_result, meta_get, enhanced_result, PyDict.get_default.
  cbn -[_make_serializable of_strs]. rewrite !_make_serializable_strs.
  repeat split; try (now eexists); try (cbn; now eexists).
Qed.

(** * Further properties of the code *)

(** ** Words of a text *)

Lemma string_app_nil_l (s : string) : "" +:+ s = s.
Proof. reflexivity. Qed.

Lemma string_app_cons (c : ascii) (a b : string) :
  String c a +:+ b = String c (a +:+ b).
Proof. reflexivity. Qed.

Lemma string_app_nil_r (s : string) : s +:+ "" = s.
Proof.
  induction s as [|c s IH]; [reflexivity|].
  change (String c (s +:+ "") = String c s). now f_equal.
Qed.

Lemma string_app_assoc (a b c : string) : (a +:+ b) +:+ c = a +:+ (b +:+ c).
Proof.
  induction a as [|x a IH]; [reflexivity|].
  change (String x ((a +:+ b) +:+ c) = String x (a +:+ (b +:+ c))). now f_equal.
Qed.

(** Reading a run of non-whitespace characters extends the current word. *)
Lemma split_from_no_space (w r : string) : forall cur,
  no_space w = true -> w <> "" ->
  PyStr.split_from cur (w +:+ r)
  = PyStr.split_from (Some (default "" cur +:+ w)) r.
Proof.
  induction w as [|c w IH]; intros cur Hw Hne; [congruence|].
  cbn in Hw. apply andb_true_iff in Hw as [Hc Hw]. apply negb_true_iff in Hc.
  change (String c w +:+ r) with (String c (w +:+ r)).
  cbn [PyStr.split_from]. rewrite Hc.
  destruct w as [|c' w'].
  - reflexivity.
  - rewrite IH by (assumption || discriminate). cbn [default from_option id].
    now rewrite string_app_assoc.
Qed.

Lemma no_space_snoc (w : string) (c : ascii) :
  no_space w = true -> PyStr.is_space c = false ->
  no_space (w +:+ String c "") = true.
Proof.
  intros Hw Hc. induction w as [|x w IH].
  - rewrite string_app_nil_l. cbn -[PyStr.is_space]. now rewrite Hc.
  - rewrite string_app_cons. cbn -[PyStr.is_space] in *.
    apply andb_true_iff in Hw as [-> Hw]. now apply IH.
Qed.

Lemma split_from_words (s : string) : forall cur,
  (forall w, cur = Some w -> is_word w) ->
  Forall is_word (PyStr.split_from cur s).
Proof.
  induction s as [|c s IH]; intros cur Hcur; cbn [PyStr.split_from].
  - destruct cur as [w|]; [|constructor].
    constructor; [now apply Hcur | constructor].
  - destruct (PyStr.is_space c) eqn:Ec.
    + destruct cur as [w|].
      * constructor; [now apply Hcur|]. apply IH. discriminate.
      * apply IH. discriminate.
    + apply IH. intros w [= <-]. destruct cur as [w|]; cbn [from_option id].
      * destruct (Hcur w eq_refl) as [Hne Hns]. split.
        -- destruct w; discriminate.
        -- now apply no_space_snoc.
      * rewrite string_app_nil_l. split; [discriminate|].
        cbn -[PyStr.is_space]. now rewrite Ec.
Qed.

(** The words of a text are words. *)
Lemma split_words (s : string) : Forall is_word (PyStr.split s).
Proof. apply split_from_words. discriminate. Qed.

(** Joining words with one space and splitting again gives the words
    back. *)
Lemma split_join (ws : list string) :
  Forall is_word ws -> PyStr.split (PyStr.join " " ws) = ws.
Proof.
  unfold PyStr.split. induction 1 as [|w ws [Hne Hns] Hws IH]; [reflexivity|].
  cbn [PyStr.join]. destruct ws as [|w' ws'].
  - pose proof (split_from_no_space w "" None Hns Hne) as Hw.
    rewrite string_app_nil_r in Hw. rewrite Hw. reflexivity.
  - rewrite split_from_no_space by assumption. cbn [default from_option id].
    rewrite string_app_nil_l.
    change (" " +:+ PyStr.join " " (w' :: ws'))
      with (String " " (PyStr.join " " (w' :: ws'))).
    cbn [PyStr.split_from]. change (PyStr.is_space " ") with true. cbn iota.
    now rewrite IH.
Qed.

(** ** More on [smart_chunk_text] *)

Lemma split_blank (txt : string) : PyStr.strip txt = "" -> PyStr.split txt = [].
Proof. intros H. rewrite <- PyStrFacts.split_strip, H. reflexivity. Qed.

(** The one pass of the loop, on a text that has words. *)
Lemma chunk_loop_first (self : ProductionRAGConfig) (fuel : nat)
    (words : list string) (doc ttl : string) :
  0 < PyList.len words ->
  chunk_loop self (S fuel) words doc ttl 0 0 []
  = Some [ {| text := context_prefix ttl
                      +:+ PyStr.join " "
                            (PyList.slice words 0
                               (Z.min (0 + chunk_size self) (PyList.len words)));
              chunk_id := doc +:+ "_chunk_0";
              document_id := doc;
              title := ttl;
              chunk_index := 0;
              total_chunks := None;
              word_count :=
                PyList.len (PyList.slice words 0
                              (Z.min (0 + chunk_size self) (PyList.len words)));
              start_word := Some 0;
              end_word := Some (Z.min (0 + chunk_size self) (PyList.len words)) |} ].
Proof.
  intros H. cbn [chunk_loop]. apply Z.ltb_lt in H. rewrite H.
  now rewrite Z.geb_leb, Z.leb_refl.
Qed.

Lemma slice_prefix {A} (l : list A) (n : Z) :
  0 <= n <= PyList.len l -> PyList.slice l 0 n = take (Z.to_nat n) l.
Proof.
  intros H. unfold PyList.slice, PyList.clamp. change (0 <? 0) with false. cbn iota.
  destruct (n <? 0) eqn:E; [apply Z.ltb_lt in E; lia|].
  rewrite !Z.min_l by (unfold PyList.len in *; lia).
  now rewrite Z.sub_0_r.
Qed.

(** X1: [smart_chunk_text] returns no chunk exactly when the text is
    blank, and otherwise exactly one chunk: index 0, [total_chunks] 1 and
    the id [<document_id>_chunk_0]. *)
Theorem smart_chunk_text_blank_or_single (self : ProductionRAGConfig)
    (txt doc ttl : string) :
  (PyStr.strip txt = "" /\ smart_chunk_text self txt doc ttl = Some [])
  \/ (PyStr.strip txt <> ""
      /\ exists c,
           smart_chunk_text self txt doc ttl = Some [c]
           /\ chunk_index c = 0 /\ total_chunks c = Some 1
           /\ chunk_id c = doc +:+ "_chunk_0"
           /\ document_id c = doc /\ title c = ttl).
Proof.
  unfold smart_chunk_text. destruct (PyStr.strip txt) as [|a s] eqn:E.
  - left. now split.
  - right. split; [discriminate|]. cbn [PyStr.truthy negb].
    destruct (_ <=? _).
    + eexists. split; [reflexivity|]. now repeat split.
    + rewrite chunk_loop_first.
      * eexists. split; [reflexivity|]. now repeat split.
      * assert (Hw : PyStr.split (PyStr.strip txt) <> [])
          by (apply PyStrFacts.split_strip_nonempty; rewrite E; discriminate).
        rewrite E in Hw. unfold PyList.len.
        destruct (PyStr.split (String a s)); [congruence | cbn; lia].
Qed.

(** X2: a text of at most [chunk_size] words gives one chunk whose text
    is the stripped text, with exactly the words of the original and no
    context line and no word span. *)
Theorem smart_chunk_text_small (self : ProductionRAGConfig) (txt doc ttl : string) :
  PyStr.strip txt <> "" ->
  PyList.len (PyStr.split txt) <= chunk_size self ->
  exists c,
    smart_chunk_text self txt doc ttl = Some [c]
    /\ text c = PyStr.strip txt
    /\ PyStr.split (text c) = PyStr.split txt
    /\ word_count c = PyList.len (PyStr.split txt)
    /\ start_word c = None /\ end_word c = None.
Proof.
  intros Hne Hle. unfold smart_chunk_text.
  rewrite (proj2 (PyStrFacts.truthy_nonempty _) Hne). cbn [negb].
  rewrite PyStrFacts.split_strip. apply Z.leb_le in Hle. rewrite Hle.
  eexists. split; [reflexivity|]. cbn.
  repeat split. apply PyStrFacts.split_strip.
Qed.

Lemma smart_chunk_text_small_witness :
  PyStr.strip "  Form I-130 " <> ""
  /\ PyList.len (PyStr.split "  Form I-130 ") <= chunk_size production_config
  /\ exists c,
       smart_chunk_text production_config "  Form I-130 " "doc" "Guide" = Some [c]
       /\ text c = "Form I-130".
Proof.
  assert (H1 : PyStr.strip "  Form I-130 " <> "") by (cbv; discriminate).
  assert (H2 : PyList.len (PyStr.split "  Form I-130 ") <= chunk_size production_config)
    by (cbv; discriminate).
  split; [exact H1|]. split; [exact H2|].
  destruct (smart_chunk_text_small production_config "  Form I-130 " "doc" "Guide" H1 H2)
    as (c & Hc & Ht & _).
  exists c. split; [exact Hc | exact Ht].
Defined.

(** X3: a text of more than [chunk_size] words gives one chunk that holds
    the first [chunk_size] words and nothing else: the span is
    [0, chunk_size), the text is the context line followed by those words
    joined by single spaces, and without a title splitting the text gives
    those words back. *)
Theorem smart_chunk_text_long (self : ProductionRAGConfig) (txt doc ttl : string) :
  0 <= chunk_size self < PyList.len (PyStr.split txt) ->
  let first_words := take (Z.to_nat (chunk_size self)) (PyStr.split txt) in
  exists c,
    smart_chunk_text self txt doc ttl = Some [c]
    /\ start_word c = Some 0 /\ end_word c = Some (chunk_size self)
    /\ word_count c = chunk_size self
    /\ text c = context_prefix ttl +:+ PyStr.join " " first_words
    /\ (ttl = "" -> PyStr.split (text c) = first_words).
Proof.
  intros [H0 Hlt]. cbv zeta. unfold smart_chunk_text.
  destruct (PyStr.strip txt) as [|a s] eqn:E.
  { apply split_blank in E. rewrite E in Hlt. unfold PyList.len in Hlt.
    cbn [length] in Hlt. lia. }
  cbn [PyStr.truthy negb]. rewrite <- E, PyStrFacts.split_strip.
  set (words := PyStr.split txt) in *.
  destruct (PyList.len words <=? chunk_size self) eqn:El; [apply Z.leb_le in El; lia|].
  rewrite chunk_loop_first by lia.
  rewrite Z.add_0_l, Z.min_l by lia. rewrite slice_prefix by lia.
  eexists. split; [reflexivity|]. cbn.
  assert (Hlen : PyList.len (take (Z.to_nat (chunk_size self)) words) = chunk_size self).
  { unfold PyList.len in *. rewrite length_take. lia. }
  repeat split; try (now rewrite Hlen).
  intros ->. unfold context_prefix. cbn [PyStr.truthy]. rewrite string_app_nil_l.
  apply split_join, Forall_take, split_words.
Qed.

Lemma smart_chunk_text_long_witness :
  let self := {| embedding_model := "m"; embedding_dimensions := 4;
                 collection_name := "docs"; chunk_size := 2; chunk_overlap := 1;
                 max_retrieval_results := 3 |} in
  0 <= chunk_size self < PyList.len (PyStr.split "file form early today")
  /\ exists c,
       smart_chunk_text self "file form early today" "doc" "" = Some [c]
       /\ PyStr.split (text c) = ["file"; "form"].
Proof.
  cbv zeta.
  assert (H : 0 <= 2 < PyList.len (PyStr.split "file form early today"))
    by (split; [lia | reflexivity]).
  split; [exact H|].
  destruct (smart_chunk_text_long
              {| embedding_model := "m"; embedding_dimensions := 4;
                 collection_name := "docs"; chunk_size := 2; chunk_overlap := 1;
                 max_retrieval_results := 3 |}
              "file form early today" "doc" "" H) as (c & Hc & _ & _ & _ & _ & Hs).
  exists c. split; [exact Hc | exact (Hs eq_refl)].
Defined.

(** ** The text sent to the embedding service *)

Lemma substring_0_length (n : nat) (s : string) :
  String.length (substring 0 n s) = Nat.min n (String.length s).
Proof.
  revert n. induction s as [|c s IH]; intros [|n]; cbn; try reflexivity.
  now rewrite IH.
Qed.

Lemma prefix_refl (s : string) : String.prefix s s = true.
Proof.
  induction s as [|c s IH]; cbn; [reflexivity|].
  destruct (ascii_dec c c); [exact IH | congruence].
Qed.

Lemma substring_0_prefix (n : nat) (s : string) :
  String.prefix (substring 0 n s) s = true.
Proof.
  revert n. induction s as [|c s IH]; intros [|n]; cbn; try reflexivity.
  destruct (ascii_dec c c); [apply IH | congruence].
Qed.

(** X4: the embedding service never receives more than 8000 characters:
    it is sent the text itself when that is at most 8000 characters long,
    and its first 8000 characters otherwise. *)
Theorem embedding_input_bound (txt : string) :
  PyStr.len (embedding_input txt) <= 8000
  /\ String.prefix (embedding_input txt) txt = true
  /\ (PyStr.len txt <= 8000 -> embedding_input txt = txt)
  /\ (8000 < PyStr.len txt -> PyStr.len (embedding_input txt) = 8000).
Proof.
  unfold embedding_input, PyStr.take, PyStr.len.
  destruct (8000 <? Z.of_nat (String.length txt)) eqn:E.
  - apply Z.ltb_lt in E. rewrite substring_0_length.
    repeat split; try lia. apply substring_0_prefix.
  - apply Z.ltb_ge in E. repeat split; try lia. apply prefix_refl.
Qed.

(** ** [semantic_search] *)

Lemma all_zero_repeat (n : nat) : all_zero (repeat 0%Q n) = true.
Proof. induction n as [|n IH]; [reflexivity | exact IH]. Qed.

(** X5: [semantic_search] answers with the empty list, and no error, when
    the query is blank, when the embedding call fails, when the embedding
    is all zeros, and when the search of the store raises. *)
Theorem semantic_search_degenerate (self : ProductionRAGConfig)
    (embeddings_create : string -> string -> Exc (list (list Q)))
    (Store : Type)
    (qdrant_search_plain : Store -> string -> list Q -> Z -> Exc (list ScoredPoint.t))
    (st : Store) (query : string) (limit : Z) :
  PyStr.strip query = ""
  \/ (exists e,
        embeddings_create (embedding_input query) (embedding_model self) = Raise e)
  \/ all_zero (embedding_or_dummy self embeddings_create query) = true
  \/ (exists e,
        qdrant_search_plain st (collection_name self)
          (embedding_or_dummy self embeddings_create query) limit = Raise e) ->
  semantic_search self embeddings_create Store qdrant_search_plain st query limit = Ok [].
Proof.
  intros H. unfold semantic_search. destruct (PyStr.strip query) eqn:Es; [reflexivity|].
  cbn [PyStr.truthy negb]. rewrite generate_embedding_eq. cbn [mbind exc_bind].
  fold (all_zero (embedding_or_dummy self embeddings_create query)).
  destruct H as [H | [[e H] | [H | [e H]]]].
  - discriminate.
  - unfold embedding_or_dummy. rewrite H. unfold dummy_embedding.
    now rewrite all_zero_repeat.
  - now rewrite H.
  - destruct (all_zero _); [reflexivity|]. now rewrite H.
Qed.

Lemma semantic_search_degenerate_witness :
  (exists e,
     unreachable_embeddings (embedding_input "visa fees")
       (embedding_model production_config) = Raise e)
  /\ semantic_search production_config unreachable_embeddings (gmap Z Point.t)
       (fun st coll v limit => MemStore.search st coll v limit None 0)
       sample_store "visa fees" 5 = Ok [].
Proof.
  assert (H : exists e,
            unreachable_embeddings (embedding_input "visa fees")
              (embedding_model production_config) = Raise e)
    by (now exists "APIConnectionError").
  split; [exact H|].
  apply (semantic_search_degenerate production_config unreachable_embeddings
           (gmap Z Point.t) (fun st coll v limit => MemStore.search st coll v limit None 0)
           sample_store "visa fees" 5).
  right. left. exact H.
Defined.

(** X6: for a query that is not blank and an embedding that is not all
    zeros, [semantic_search] returns one result per match of the store,
    in the order of the store, with the score and the id of the match. *)
Theorem semantic_search_results (self : ProductionRAGConfig)
    (embeddings_create : string -> string -> Exc (list (list Q)))
    (Store : Type)
    (qdrant_search_plain : Store -> string -> list Q -> Z -> Exc (list ScoredPoint.t))
    (st : Store) (query : string) (limit : Z) (hits : list ScoredPoint.t) :
  PyStr.strip query <> "" ->
  all_zero (embedding_or_dummy self embeddings_create query) = false ->
  qdrant_search_plain st (collection_name self)
    (embedding_or_dummy self embeddings_create query) limit = Ok hits ->
  exists results,
    semantic_search self embeddings_create Store qdrant_search_plain st query limit
    = Ok results
    /\ map PlainResult.score results = map ScoredPoint.score hits
    /\ map PlainResult.chunk_id results = map ScoredPoint.id hits
    /\ map PlainResult.text results
       = map (fun h => PyDict.get_default "text" (VStr "") (ScoredPoint.payload h)) hits.
Proof.
  intros Hq Hz Hs. unfold semantic_search.
  rewrite (proj2 (PyStrFacts.truthy_nonempty _) Hq). cbn [negb].
  rewrite generate_embedding_eq. cbn [mbind exc_bind].
  fold (all_zero (embedding_or_dummy self embeddings_create query)).
  rewrite Hz, Hs. cbn. eexists. split; [reflexivity|].
  rewrite !map_map. repeat split.
Qed.

Lemma semantic_search_results_witness :
  exists hits results,
    PyStr.strip "visa fees" <> ""
    /\ all_zero (embedding_or_dummy production_config sample_embeddings "visa fees") = false
    /\ MemStore.search sample_store (collection_name production_config)
         (embedding_or_dummy production_config sample_embeddings "visa fees") 2 None 0
       = Ok hits
    /\ semantic_search production_config sample_embeddings (gmap Z Point.t)
         (fun st coll v limit => MemStore.search st coll v limit None 0)
         sample_store "visa fees" 2 = Ok results
    /\ map PlainResult.score results = map ScoredPoint.score hits
    /\ length results = 2%nat.
Proof.
  eexists.
  assert (H1 : PyStr.strip "visa fees" <> "") by (cbv; discriminate).
  assert (H2 : all_zero (embedding_or_dummy production_config sample_embeddings
                           "visa fees") = false) by reflexivity.
  assert (H3 : MemStore.search sample_store (collection_name production_config)
                 (embedding_or_dummy production_config sample_embeddings "visa fees")
                 2 None 0 = Ok _) by (vm_compute; reflexivity).
  destruct (semantic_search_results production_config sample_embeddings
              (gmap Z Point.t) (fun st coll v limit => MemStore.search st coll v limit None 0)
              sample_store "visa fees" 2 _ H1 H2 H3) as (results & Hr & Hsc & _).
  exists results. repeat split; try assumption.
  apply (f_equal (@length Q)) in Hsc. rewrite !length_map in Hsc. exact Hsc.
Defined.

(** ** [vectorize_chunks] *)

Section VectorizeFacts.

Variable self : ProductionRAGConfig.
Variable embeddings_create : string -> string -> Exc (list (list Q)).
Variable py_hash : string -> Z.
Variable now_isoformat : nat -> string.

Lemma vectorize_from_points (chunks : list TextChunk) : forall (i : nat) total callback calls points,
  vectorize_from self embeddings_create py_hash now_isoformat i total callback chunks
    = (calls, Ok points) ->
  length points = length chunks
  /\ forall (k : nat) c, chunks !! k = Some c ->
       exists p n,
         points !! k = Some p
         /\ total_chunks c = Some n
         /\ Point.id p = py_hash (chunk_id c) mod 2 ^ 63
         /\ Point.vector p = embedding_or_dummy self embeddings_create (text c)
         /\ Point.payload p
            = [ ("chunk_id", VStr (chunk_id c));
                ("document_id", VStr (document_id c));
                ("title", VStr (title c));
                ("text", VStr (text c));
                ("chunk_index", VInt (chunk_index c));
                ("total_chunks", VInt n);
                ("word_count", VInt (word_count c));
                ("created_at", VStr (now_isoformat (i + k))) ].
Proof.
  induction chunks as [|c chunks IH]; intros i total callback calls points H.
  - cbn in H. injection H as <- <-. split; [reflexivity|]. intros k c Hk. discriminate.
  - cbn [vectorize_from] in H. rewrite generate_embedding_eq in H.
    destruct (total_chunks c) as [n|] eqn:En; [|discriminate].
    destruct (vectorize_from _ _ _ _ (S i) total callback chunks) as [calls' rest] eqn:Er.
    destruct rest as [points'|e]; [|discriminate].
    injection H as <- <-.
    destruct (IH _ _ _ _ _ Er) as [Hlen Hp].
    split; [cbn; now rewrite Hlen|].
    intros [|k] c' Hk; cbn in Hk.
    + injection Hk as <-. eexists _, n. split; [reflexivity|].
      rewrite Nat.add_0_r. now repeat split.
    + destruct (Hp k c' Hk) as (p & n' & H1 & H2 & H3 & H4 & H5).
      exists p, n'. replace (i + S k)%nat with (S i + k)%nat by lia.
      now repeat split.
Qed.

Lemma vectorize_from_calls (chunks : list TextChunk) : forall (i : nat) total calls points,
  vectorize_from self embeddings_create py_hash now_isoformat i total true chunks
    = (calls, Ok points) ->
  calls = imap (fun k _ =>
                  (Z.of_nat (i + k) + 1, total,
                   progress_message (Z.of_nat (i + k) + 1) total)) chunks.
Proof.
  induction chunks as [|c chunks IH]; intros i total calls points H.
  - cbn in H. now injection H as <- <-.
  - cbn [vectorize_from] in H. rewrite generate_embedding_eq in H.
    destruct (total_chunks c) as [n|]; [|discriminate].
    destruct (vectorize_from _ _ _ _ (S i) total true chunks) as [calls' rest] eqn:Er.
    destruct rest as [points'|e]; [|discriminate].
    injection H as <- <-. rewrite (IH _ _ _ _ Er). rewrite imap_cons.
    rewrite Nat.add_0_r. cbn [app]. f_equal. apply imap_ext. intros k x _. cbn.
    now replace (S (i + k))%nat with (i + S k)%nat by lia.
Qed.

Lemma vectorize_from_total (chunks : list TextChunk) : forall (i : nat) total callback,
  Forall (fun c => is_Some (total_chunks c)) chunks ->
  exists points,
    snd (vectorize_from self embeddings_create py_hash now_isoformat
           i total callback chunks) = Ok points.
Proof.
  induction chunks as [|c chunks IH]; intros i total callback Hall.
  - now exists [].
  - apply Forall_cons_1 in Hall as [[n Hn] Hall]. cbn [vectorize_from].
    rewrite generate_embedding_eq, Hn.
    destruct (IH (S i) total callback Hall) as [points Hp].
    destruct (vectorize_from _ _ _ _ (S i) total callback chunks) as [calls' rest].
    cbn in Hp. subst rest. now eexists.
Qed.

End VectorizeFacts.

(** X7: when [vectorize_chunks] succeeds it returns one point per chunk,
    in order; the id of a point is [hash(chunk_id) % 2**63], a number
    from 0 up to but not including 2^63, and a progress callback is
    called once per chunk with the counts 1, 2, ..., n. *)
Theorem vectorize_chunks_points (self : ProductionRAGConfig)
    (embeddings_create : string -> string -> Exc (list (list Q)))
    (py_hash : string -> Z) (now_isoformat : nat -> string)
    (chunks : list TextChunk) (calls : list (Z * Z * string)) (points : list Point.t) :
  vectorize_chunks self embeddings_create py_hash now_isoformat chunks true
    = (calls, Ok points) ->
  length points = length chunks
  /\ calls = progress_calls chunks
  /\ forall (k : nat) c, chunks !! k = Some c ->
       exists p,
         points !! k = Some p
         /\ Point.id p = py_hash (chunk_id c) mod 2 ^ 63
         /\ 0 <= Point.id p < 2 ^ 63
         /\ Point.vector p = embedding_or_dummy self embeddings_create (text c).
Proof.
  unfold vectorize_chunks. intros H.
  destruct (vectorize_from_points _ _ _ _ _ _ _ _ _ _ H) as [Hlen Hp].
  split; [exact Hlen|]. split; [exact (vectorize_from_calls _ _ _ _ _ _ _ _ _ H)|].
  intros k c Hk. destruct (Hp k c Hk) as (p & n & H1 & _ & H3 & H4 & _).
  exists p. repeat split; try assumption; rewrite H3; apply Z.mod_pos_bound; lia.
Qed.

Lemma vectorize_chunks_points_witness :
  exists chunks calls points,
    smart_chunk_text production_config "Form I-130 opens the case." "doc7" "Guide"
      = Some chunks
    /\ vectorize_chunks production_config sample_embeddings
         (fun s => - PyStr.len s) (fun _ => "2024-05-01T10:00:00") chunks true
       = (calls, Ok points)
    /\ calls = [(1, 1, "Vectorizing chunk 1/1")]
    /\ map Point.id points = [2 ^ 63 - 12].
Proof.
  eexists _, _, _.
  split; [vm_compute; reflexivity|].
  match goal with
  | |- ?G /\ _ => assert (Hv : G) by (vm_compute; reflexivity)
  end.
  destruct (vectorize_chunks_points _ _ _ _ _ _ _ Hv) as (_ & Hcalls & _).
  split; [exact Hv|]. split; [exact Hcalls | reflexivity].
Defined.

(** Every chunk that [smart_chunk_text] returns has its [total_chunks]. *)
Lemma smart_chunk_text_total_chunks (self : ProductionRAGConfig)
    (txt doc ttl : string) (chunks : list TextChunk) :
  smart_chunk_text self txt doc ttl = Some chunks ->
  Forall (fun c => is_Some (total_chunks c)) chunks.
Proof.
  unfold smart_chunk_text. destruct (negb _); [intros [= <-]; constructor|].
  destruct (_ <=? _); [intros [= <-]; repeat constructor; now eexists|].
  destruct (chunk_loop _ _ _ _ _ _ _ _) as [r|]; [|discriminate].
  intros [= <-]. apply Forall_map, Forall_forall. intros c _. now eexists.
Qed.

(** X8: the chunks that [smart_chunk_text] returns are always accepted by
    [vectorize_chunks]: no key is missing, a failed embedding call does
    not stop it, and there is one point per chunk. *)
Theorem vectorize_chunks_after_smart_chunk_text (self : ProductionRAGConfig)
    (embeddings_create : string -> string -> Exc (list (list Q)))
    (py_hash : string -> Z) (now_isoformat : nat -> string)
    (txt doc ttl : string) (callback : bool) (chunks : list TextChunk) :
  smart_chunk_text self txt doc ttl = Some chunks ->
  exists points,
    snd (vectorize_chunks self embeddings_create py_hash now_isoformat chunks callback)
    = Ok points
    /\ length points = length chunks.
Proof.
  intros H.
  pose proof (smart_chunk_text_total_chunks self txt doc ttl chunks H) as Hall.
  destruct (vectorize_from_total self embeddings_create py_hash now_isoformat
              chunks 0 (PyList.len chunks) callback Hall) as [points Hp].
  exists points. split; [exact Hp|].
  unfold vectorize_chunks in *.
  destruct (vectorize_from _ _ _ _ 0 _ callback chunks) as [calls r] eqn:E.
  cbn in Hp. subst r.
  now destruct (vectorize_from_points _ _ _ _ _ _ _ _ _ _ E).
Qed.

Lemma vectorize_chunks_after_smart_chunk_text_witness :
  exists chunks points,
    smart_chunk_text production_config "unembeddable" "doc" "" = Some chunks
    /\ snd (vectorize_chunks production_config sample_embeddings PyStr.len
              (fun _ => "2024-05-01") chunks false) = Ok points
    /\ length points = 1%nat.
Proof.
  eexists.
  assert (Hc : smart_chunk_text production_config "unembeddable" "doc" "" = Some _)
    by (vm_compute; reflexivity).
  destruct (vectorize_chunks_after_smart_chunk_text production_config sample_embeddings
              PyStr.len (fun _ => "2024-05-01") "unembeddable" "doc" "" false _ Hc)
    as (points & Hp & Hl).
  exists points. split; [exact Hc|]. split; [exact Hp | exact Hl].
Defined.

Lemma vectorize_from_key_error (self : ProductionRAGConfig)
    (embeddings_create : string -> string -> Exc (list (list Q)))
    (py_hash : string -> Z) (now_isoformat : nat -> string)
    (chunks : list TextChunk) : forall (i : nat) total callback,
  Exists (fun c => total_chunks c = None) chunks ->
  snd (vectorize_from self embeddings_create py_hash now_isoformat i total callback chunks)
  = Raise "KeyError".
Proof.
  induction chunks as [|c chunks IH]; intros i total callback H.
  - now apply Exists_nil in H.
  - cbn [vectorize_from]. rewrite generate_embedding_eq.
    destruct (total_chunks c) as [n|] eqn:En; [|reflexivity].
    apply Exists_cons in H as [H | H]; [congruence|].
    specialize (IH (S i) total callback H).
    destruct (vectorize_from _ _ _ _ (S i) total callback chunks) as [calls' rest].
    cbn in IH. now subst rest.
Qed.

(** X9: a chunk dictionary without [total_chunks] makes [vectorize_chunks]
    fail with [KeyError]; nothing is returned for the chunks before it. *)
Theorem vectorize_chunks_key_error (self : ProductionRAGConfig)
    (embeddings_create : string -> string -> Exc (list (list Q)))
    (py_hash : string -> Z) (now_isoformat : nat -> string)
    (chunks : list TextChunk) (callback : bool) :
  Exists (fun c => total_chunks c = None) chunks ->
  snd (vectorize_chunks self embeddings_create py_hash now_isoformat chunks callback)
  = Raise "KeyError".
Proof. apply vectorize_from_key_error. Qed.

Lemma vectorize_chunks_key_error_witness :
  let whole := {| text := "a b"; chunk_id := "d_chunk_0"; document_id := "d";
                  title := ""; chunk_index := 0; total_chunks := Some 2;
                  word_count := 2; start_word := None; end_word := None |} in
  let bare := {| text := "c"; chunk_id := "d_chunk_1"; document_id := "d";
                 title := ""; chunk_index := 1; total_chunks := None;
                 word_count := 1; start_word := Some 2; end_word := Some 3 |} in
  Exists (fun c => total_chunks c = None) [whole; bare]
  /\ snd (vectorize_chunks production_config sample_embeddings PyStr.len
            (fun _ => "2024-05-01") [whole; bare] false) = Raise "KeyError".
Proof.
  cbv zeta.
  match goal with |- ?P /\ _ => assert (H : P) end.
  { apply Exists_cons_tl, Exists_cons_hd. reflexivity. }
  split; [exact H|].
  exact (vectorize_chunks_key_error production_config sample_embeddings PyStr.len
           (fun _ => "2024-05-01") _ false H).
Defined.

(** X10: a point written by [vectorize_chunks] comes back from
    [semantic_search] with the text and the title of its chunk; its
    payload has no [source], so the source reported is always
    ["Unknown"]. *)
Theorem vectorized_point_plain_result (self : ProductionRAGConfig)
    (embeddings_create : string -> string -> Exc (list (list Q)))
    (py_hash : string -> Z) (now_isoformat : nat -> string)
    (chunks : list TextChunk) (callback : bool)
    (calls : list (Z * Z * string)) (points : list Point.t)
    (k : nat) (c : TextChunk) (p : Point.t) (s : Q) :
  vectorize_chunks self embeddings_create py_hash now_isoformat chunks callback
    = (calls, Ok points) ->
  chunks !! k = Some c ->
  points !! k = Some p ->
  plain_result {| ScoredPoint.id := Point.id p;
                  ScoredPoint.score := s;
                  ScoredPoint.payload := Point.payload p |}
  = {| PlainResult.text := VStr (text c);
       PlainResult.title := VStr (title c);
       PlainResult.source := VStr "Unknown";
       PlainResult.score := s;
       PlainResult.chunk_id := py_hash (chunk_id c) mod 2 ^ 63 |}.
Proof.
  unfold vectorize_chunks. intros H Hc Hp.
  destruct (vectorize_from_points _ _ _ _ _ _ _ _ _ _ H) as [_ Hpts].
  destruct (Hpts k c Hc) as (p' & n & H1 & _ & H3 & _ & H5).
  rewrite Hp in H1. injection H1 as <-.
  unfold plain_result. cbn [ScoredPoint.payload ScoredPoint.id ScoredPoint.score].
  rewrite H5, H3. reflexivity.
Qed.

Lemma vectorized_point_plain_result_witness :
  exists chunks calls points c p,
    vectorize_chunks production_config sample_embeddings PyStr.len
      (fun _ => "2024-05-01") chunks false = (calls, Ok points)
    /\ chunks !! 0%nat = Some c
    /\ points !! 0%nat = Some p
    /\ PlainResult.source
         (plain_result {| ScoredPoint.id := Point.id p;
                          ScoredPoint.score := 1;
                          ScoredPoint.payload := Point.payload p |})
       = VStr "Unknown".
Proof.
  exists [ {| text := "a b"; chunk_id := "d_chunk_0"; document_id := "d";
              title := "T"; chunk_index := 0; total_chunks := Some 1;
              word_count := 2; start_word := None; end_word := None |} ].
  eexists _, _, _, _.
  assert (Hv : vectorize_chunks production_config sample_embeddings PyStr.len
                 (fun _ => "2024-05-01")
                 [ {| text := "a b"; chunk_id := "d_chunk_0"; document_id := "d";
                      title := "T"; chunk_index := 0; total_chunks := Some 1;
                      word_count := 2; start_word := None; end_word := None |} ] false
               = (_, Ok _)) by (vm_compute; reflexivity).
  split; [exact Hv|]. split; [reflexivity|]. split; [reflexivity|].
  now rewrite (vectorized_point_plain_result _ _ _ _ _ _ _ _ 0%nat _ _ 1 Hv eq_refl eq_refl).
Defined.

(** ** The cache *)

Section CacheFacts.

Variable Redis : Type.
Variable redis_get : Redis -> string -> Exc (option string).
Variable redis_setex : Redis -> string -> Z -> string -> Redis * Exc unit.
Variable json_loads : string -> Exc PyVal.
Variable json_dumps : PyVal -> Exc string.

Lemma _get_cache_memory (cache : gmap string PyVal) (key : string) :
  _get_cache Redis redis_get json_loads
    {| redis_client := None; _memory_cache := Some cache |} key
  = default VNone (cache !! key).
Proof. reflexivity. Qed.

Lemma _set_cache_memory (cache : gmap string PyVal) (key : string) (value : PyVal) :
  _set_cache Redis redis_setex json_dumps
    {| redis_client := None; _memory_cache := Some cache |} key value
  = {| redis_client := None; _memory_cache := Some (<[key := value]> cache) |}.
Proof. reflexivity. Qed.

End CacheFacts.

(** X11: without Redis, what [_set_cache] stores under a key is what
    [_get_cache] returns for it, and the other keys keep their values. *)
Theorem memory_cache_round_trip (Redis : Type)
    (redis_get : Redis -> string -> Exc (option string))
    (redis_setex : Redis -> string -> Z -> string -> Redis * Exc unit)
    (json_loads : string -> Exc PyVal) (json_dumps : PyVal -> Exc string)
    (self : CacheState Redis) (cache : gmap string PyVal)
    (key other : string) (value : PyVal) :
  redis_client Redis self = None ->
  _memory_cache Redis self = Some cache ->
  let self' := _set_cache Redis redis_setex json_dumps self key value in
  _get_cache Redis redis_get json_loads self' key = value
  /\ (other <> key ->
      _get_cache Redis redis_get json_loads self' other
      = _get_cache Redis redis_get json_loads self other).
Proof.
  destruct self as [r m]. cbn. intros -> ->. cbv zeta.
  rewrite _set_cache_memory, !_get_cache_memory. split.
  - now rewrite lookup_insert_eq.
  - intros Hne. now rewrite lookup_insert_ne.
Qed.

Lemma memory_cache_round_trip_witness :
  let self : CacheState unit := {| redis_client := None; _memory_cache := Some ∅ |} in
  let oracle_get := fun (_ : unit) (_ : string) => Raise (A := option string) "unused" in
  let oracle_setex :=
    fun (_ : unit) (_ : string) (_ : Z) (_ : string) => (tt, Raise (A := unit) "unused") in
  let loads := fun (_ : string) => Raise (A := PyVal) "unused" in
  let dumps := fun (_ : PyVal) => Raise (A := string) "unused" in
  redis_client unit self = None
  /\ _memory_cache unit self = Some ∅
  /\ _get_cache unit oracle_get loads
       (_set_cache unit oracle_setex dumps self "emb:visa" (VList [VFloat 1])) "emb:visa"
     = VList [VFloat 1].
Proof.
  cbv zeta. split; [reflexivity|]. split; [reflexivity|].
  exact (proj1 (memory_cache_round_trip unit _ _ _ _
                  {| redis_client := None; _memory_cache := Some ∅ |} ∅
                  "emb:visa" "x" (VList [VFloat 1]) eq_refl eq_refl)).
Defined.

(** X12: with a Redis client the cache never falls back on memory: a
    failing or empty Redis answer, or bytes that do not decode, are a
    miss even when the memory cache holds the key, and [_set_cache]
    leaves the memory cache as it is. *)
Theorem redis_cache_no_fallback (Redis : Type)
    (redis_get : Redis -> string -> Exc (option string))
    (redis_setex : Redis -> string -> Z -> string -> Redis * Exc unit)
    (json_loads : string -> Exc PyVal) (json_dumps : PyVal -> Exc string)
    (self : CacheState Redis) (client : Redis) (key : string) (value : PyVal) :
  redis_client Redis self = Some client ->
  ((exists e, redis_get client key = Raise e)
   \/ redis_get client key = Ok None
   \/ redis_get client key = Ok (Some "")
   \/ (exists bytes e, redis_get client key = Ok (Some bytes) /\ json_loads bytes = Raise e)
   -> _get_cache Redis redis_get json_loads self key = VNone)
  /\ _memory_cache Redis (_set_cache Redis redis_setex json_dumps self key value)
     = _memory_cache Redis self.
Proof.
  destruct self as [r m]. cbn. intros ->. split.
  - unfold _get_cache. cbn [redis_client].
    intros [[e H] | [H | [H | (bytes & e & H & Hl)]]]; rewrite H; cbn; try reflexivity.
    destruct (PyStr.truthy bytes); [now rewrite Hl | reflexivity].
  - unfold _set_cache. cbn [redis_client _memory_cache].
    destruct (json_dumps value); [|reflexivity].
    now destruct (redis_setex _ _ _ _).
Qed.

Lemma redis_cache_no_fallback_witness :
  let self : CacheState unit :=
    {| redis_client := Some tt; _memory_cache := Some {[ "k" := VInt 7 ]} |} in
  let down := fun (_ : unit) (_ : string) => Raise (A := option string) "ConnectionError" in
  redis_client unit self = Some tt
  /\ _get_cache unit down (fun s => Ok (VStr s)) self "k" = VNone.
Proof.
  cbv zeta. split; [reflexivity|].
  refine (proj1 (redis_cache_no_fallback unit _
                   (fun _ _ _ _ => (tt, Ok tt)) (fun s => Ok (VStr s))
                   (fun _ => Ok "")
                   {| redis_client := Some tt; _memory_cache := Some {[ "k" := VInt 7 ]} |}
                   tt "k" VNone eq_refl) _).
  left. now exists "ConnectionError".
Defined.

(** ** [_build_search_filter] *)

(** X13: [_build_search_filter] returns [None] exactly when the filters
    hold none of [form_numbers], [visa_types], [chunk_type] and
    [min_freshness] and no true [current_only]; every other key is
    irrelevant. *)
Theorem _build_search_filter_None (f : gmap string PyVal) :
  _build_search_filter f = None <-> no_criteria f.
Proof.
  unfold _build_search_filter, no_criteria.
  destruct (f !! "form_numbers"), (f !! "visa_types"), (f !! "chunk_type"),
    (f !! "min_freshness"), (f !! "current_only") as [v|];
    try destruct (Py.truthy v) eqn:Ev; cbn;
    (split; [intros H; try discriminate H | intros (H1 & H2 & H3 & H4 & H5);
             try discriminate]).
  - specialize (H5 v eq_refl). congruence.
  - repeat split. intros v' [= <-]. exact Ev.
  - reflexivity.
  - repeat split. discriminate.
  - reflexivity.
Qed.

(** X14: a [current_only] entry whose value is false, zero, empty or
    [None] has the same effect as no [current_only] entry. *)
Theorem _build_search_filter_falsy_current_only (f : gmap string PyVal) (v : PyVal) :
  Py.truthy v = false ->
  _build_search_filter (<["current_only" := v]> f)
  = _build_search_filter (delete "current_only" f).
Proof.
  intros Hv. unfold _build_search_filter.
  rewrite lookup_insert_eq, lookup_delete_eq, Hv.
  now rewrite !lookup_insert_ne, !lookup_delete_ne by discriminate.
Qed.

Lemma _build_search_filter_falsy_current_only_witness :
  Py.truthy (VInt 0) = false
  /\ _build_search_filter (<["current_only" := VInt 0]> {[ "chunk_type" := VStr "list" ]})
     = Some {| must := [MatchValue "chunk_type" (VStr "list")] |}.
Proof.
  split; [reflexivity|].
  rewrite (_build_search_filter_falsy_current_only
             {[ "chunk_type" := VStr "list" ]} (VInt 0) eq_refl).
  vm_compute. reflexivity.
Defined.

(** ** What is stored is what is found *)

Lemma _make_serializable_id : forall v : PyVal, _make_serializable v = v.
Proof.
  fix IH 1. intros [| b | n | x | s | l | d]; cbn; try reflexivity.
  - f_equal. induction l as [|v l IHl]; cbn; [reflexivity|].
    now rewrite IH, IHl.
  - f_equal. induction d as [|[k v] d IHd]; cbn; [reflexivity|].
    now rewrite IH, IHd.
Qed.

Lemma _make_serializable_dict_id (d : Dict) : _make_serializable_dict d = d.
Proof.
  unfold _make_serializable_dict. induction d as [|[k v] d IH]; cbn; [reflexivity|].
  now rewrite _make_serializable_id, IH.
Qed.

(** X15: the payload of every point that [store_enhanced_chunks] hands to
    the store is [asdict(chunk)] itself: [_make_serializable] changes
    nothing in it. *)
Theorem store_enhanced_chunks_payload_asdict (self : ProductionRAGConfig)
    (embeddings_create : string -> string -> Exc (list (list Q)))
    (batch : list EnhancedChunk.t) (i : nat) (c : EnhancedChunk.t) :
  batch !! i = Some c ->
  exists p,
    batch_points self embeddings_create batch !! i = Some p
    /\ Point.payload p = asdict c.
Proof.
  intros H. eexists. split; [apply batch_points_lookup; exact H|].
  cbn [Point.payload]. apply _make_serializable_dict_id.
Qed.

Lemma store_enhanced_chunks_payload_asdict_witness :
  let c := sample_chunk "Guide" "Fees rise in May." 0 ["I-90"] true 1 in
  [c] !! 0%nat = Some c
  /\ exists p,
       batch_points production_config sample_embeddings [c] !! 0%nat = Some p
       /\ Point.payload p = asdict c.
Proof.
  cbv zeta. split; [reflexivity|].
  exact (store_enhanced_chunks_payload_asdict production_config sample_embeddings
           [sample_chunk "Guide" "Fees rise in May." 0 ["I-90"] true 1] 0 _ eq_refl).
Defined.

(** X16: a record written by [store_enhanced_chunks] and returned by the
    store comes out of [semantic_search_enhanced] with its content, title,
    url, chunk type, section title, entity lists, relationships, flows,
    temporal facts, currentness, freshness and confidence unchanged; the
    subsection title, the chunk index, the countries, the dependencies
    and the two dates are not part of the result. *)
Theorem enhanced_result_of_stored_chunk (c : EnhancedChunk.t) (i : Z) (s : Q) :
  enhanced_result {| ScoredPoint.id := i;
                     ScoredPoint.score := s;
                     ScoredPoint.payload := _make_serializable_dict (asdict c) |}
  = result_of_chunk c s
  /\ PyDict.keys (SearchResult.metadata (result_of_chunk c s))
     = [ "document_title"; "source_url"; "chunk_type"; "section_title";
         "form_numbers"; "visa_types"; "requirements"; "fees"; "relationships";
         "process_flows"; "temporal_info"; "is_current"; "freshness_score";
         "confidence_score" ].
Proof.
  rewrite _make_serializable_dict_id. split; reflexivity.
Qed.

(** ** Storing into the in-memory store *)

Lemma upsert_lookup_other (points : list Point.t) : forall (st : gmap Z Point.t) (k : Z),
  k ∉ map Point.id points ->
  fst (MemStore.upsert st enhanced_collection_name points) !! k = st !! k.
Proof.
  unfold MemStore.upsert. cbn [fst].
  induction points as [|p points IH]; intros st k Hk; [reflexivity|].
  cbn [foldl]. cbn [map] in Hk. apply not_elem_of_cons in Hk as [Hne Hk].
  rewrite IH by exact Hk. now apply lookup_insert_ne.
Qed.

Lemma upsert_lookup_point (points : list Point.t) : forall (st : gmap Z Point.t) (i : nat) p,
  NoDup (map Point.id points) ->
  points !! i = Some p ->
  fst (MemStore.upsert st enhanced_collection_name points) !! Point.id p = Some p.
Proof.
  induction points as [|q points IH]; intros st i p Hnd Hp; [discriminate|].
  cbn [map] in Hnd. apply NoDup_cons in Hnd as [Hq Hnd].
  destruct i as [|i]; cbn in Hp.
  - injection Hp as ->.
    pose proof (upsert_lookup_other points (<[Point.id p := p]> st) (Point.id p) Hq) as H.
    unfold MemStore.upsert in *. cbn [fst foldl] in *. rewrite H.
    apply lookup_insert_eq.
  - specialize (IH (<[Point.id q := q]> st) i p Hnd Hp).
    unfold MemStore.upsert in *. cbn [fst foldl] in *. exact IH.
Qed.

Lemma batch_points_ids_NoDup (self : ProductionRAGConfig)
    (embeddings_create : string -> string -> Exc (list (list Q)))
    (batch : list EnhancedChunk.t) :
  NoDup (map Point.id (batch_points self embeddings_create batch)).
Proof.
  rewrite batch_points_ids. change (map ?f ?l) with (f <$> l).
  apply NoDup_fmap_2; [intros x y; apply Nat2Z.inj | apply NoDup_seq].
Qed.

(** X17: within one call of [store_enhanced_chunks] the points get the
    pairwise distinct keys 0, 1, ..., n-1.  On a store whose upsert
    writes every point under its key, record [i] of the batch is then
    found under key [i], and every key outside 0..n-1 keeps what it held
    before the call. *)
Theorem store_enhanced_chunks_mem_lookup (self : ProductionRAGConfig)
    (embeddings_create : string -> string -> Exc (list (list Q)))
    (st : gmap Z Point.t) (batch : list EnhancedChunk.t) :
  let r := store_enhanced_chunks self embeddings_create _ MemStore.upsert st batch in
  fst r = true
  /\ NoDup (map Point.id (batch_points self embeddings_create batch))
  /\ (forall (i : nat) c, batch !! i = Some c ->
        snd r !! Z.of_nat i
        = Some {| Point.id := Z.of_nat i;
                  Point.vector :=
                    embedding_or_dummy self embeddings_create (EnhancedChunk.content c);
                  Point.payload := asdict c |})
  /\ (forall k, k < 0 \/ PyList.len batch <= k -> snd r !! k = st !! k).
Proof.
  cbv zeta. rewrite store_enhanced_chunks_eq. cbn [fst snd].
  split; [reflexivity|]. split; [apply batch_points_ids_NoDup|]. split.
  - intros i c Hc.
    pose proof (batch_points_lookup self embeddings_create batch i c Hc) as Hp.
    pose proof (upsert_lookup_point _ st i _
                  (batch_points_ids_NoDup self embeddings_create batch) Hp) as H.
    cbn [Point.id] in H. rewrite H. now rewrite _make_serializable_dict_id.
  - intros k Hk. apply upsert_lookup_other. rewrite batch_points_ids.
    intros Hin. change (map ?f ?l) with (f <$> l) in Hin.
    apply list_elem_of_fmap in Hin as (j & -> & Hj). apply elem_of_seq in Hj.
    unfold PyList.len in Hk. lia.
Qed.

Lemma store_enhanced_chunks_mem_lookup_witness :
  let c := sample_chunk "Guide" "Fees rise in May." 0 ["I-90"] true 1 in
  [c] !! 0%nat = Some c
  /\ snd (store_enhanced_chunks production_config sample_embeddings _ MemStore.upsert
            sample_store [c]) !! 0
     = Some {| Point.id := 0; Point.vector := [1%Q]; Point.payload := asdict c |}
  /\ snd (store_enhanced_chunks production_config sample_embeddings _ MemStore.upsert
            sample_store [c]) !! 2
     = sample_store !! 2.
Proof.
  cbv zeta.
  destruct (store_enhanced_chunks_mem_lookup production_config sample_embeddings
              sample_store [sample_chunk "Guide" "Fees rise in May." 0 ["I-90"] true 1])
    as (_ & _ & H1 & H2).
  split; [reflexivity|]. split.
  - exact (H1 0%nat _ eq_refl).
  - apply H2. right. unfold PyList.len. cbn [length]. lia.
Defined.

(** ** More on [get_entity_insights] *)

(** X18: the filter of [get_entity_insights] is never [None]: it always
    holds both keys, the entity under [form_numbers] when its name starts
    with [I-], [N-] or [DS-] and under [visa_types] otherwise, and an
    empty list under the other key; the store is asked for both
    conditions. *)
Theorem entity_filter_both_keys (entity : string) :
  let forms := of_strs (if is_form entity then [entity] else []) in
  let visas := of_strs (if negb (is_form entity) then [entity] else []) in
  entity_filter entity
  = Some (<["visa_types" := visas]> (<["form_numbers" := forms]> ∅))
  /\ search_filter (entity_filter entity)
     = Some {| must := [MatchAny "form_numbers" forms; MatchAny "visa_types" visas] |}.
Proof.
  cbv zeta.
  set (forms := of_strs (if is_form entity then [entity] else [])).
  set (visas := of_strs (if negb (is_form entity) then [entity] else [])).
  set (m := <["visa_types" := visas]> (<["form_numbers" := forms]> (∅ : gmap string PyVal))).
  assert (Hv : m !! "visa_types" = Some visas) by apply lookup_insert_eq.
  assert (Hf : m !! "form_numbers" = Some forms).
  { unfold m. rewrite lookup_insert_ne by discriminate. apply lookup_insert_eq. }
  assert (Hc : m !! "chunk_type" = None)
    by (unfold m; now rewrite !lookup_insert_ne, lookup_empty by discriminate).
  assert (Ho : m !! "current_only" = None)
    by (unfold m; now rewrite !lookup_insert_ne, lookup_empty by discriminate).
  assert (Hm : m !! "min_freshness" = None)
    by (unfold m; now rewrite !lookup_insert_ne, lookup_empty by discriminate).
  assert (Hdef : entity_filter entity
                 = if negb (existsb Py.truthy (map snd (map_to_list m)))
                   then None else Some m) by reflexivity.
  assert (Ht : Py.truthy (if is_form entity then forms else visas) = true)
    by (unfold forms, visas; now destruct (is_form entity)).
  clearbody m forms visas.
  assert (He : entity_filter entity = Some m).
  { rewrite Hdef.
    assert (Hex : existsb Py.truthy (map snd (map_to_list m)) = true).
    { apply existsb_exists. exists (if is_form entity then forms else visas).
      split; [|exact Ht].
      apply (in_map snd (map_to_list m)
               (if is_form entity then "form_numbers" else "visa_types",
                if is_form entity then forms else visas)).
      apply (proj1 (list_elem_of_In _ _)), (proj2 (elem_of_map_to_list _ _ _)).
      now destruct (is_form entity). }
    now rewrite Hex. }
  split; [exact He|]. rewrite He. unfold search_filter, filters_truthy.
  destruct (Nat.eqb (size m) 0) eqn:Es.
  { apply Nat.eqb_eq in Es. exfalso. revert Es.
    apply (map_size_ne_0_lookup_2 m "visa_types"). now rewrite Hv. }
  cbn [negb from_option id]. unfold _build_search_filter.
  now rewrite Hf, Hv, Hc, Ho, Hm.
Qed.

(** X19: when the search finds nothing, or the store fails,
    [get_entity_insights] still answers: no mentions, empty aggregates,
    an average freshness of 0, and the dependencies and flows of the
    relationship mapper. *)
Theorem get_entity_insights_no_hits (self : ProductionRAGConfig)
    (embeddings_create : string -> string -> Exc (list (list Q)))
    (Store : Type)
    (qdrant_search :
       Store -> string -> list Q -> Z -> option Filter -> Q -> Exc (list ScoredPoint.t))
    (MapperState : Type)
    (get_entity_dependencies : MapperState -> string -> list string)
    (get_process_flow : MapperState -> string -> Z -> list (list string))
    (st : Store) (m : MapperState) (entity : string) :
  let answer :=
    qdrant_search st enhanced_collection_name
      (embedding_or_dummy self embeddings_create ("information about " +:+ entity))
      10 (search_filter (entity_filter entity)) (1 # 2) in
  answer = Ok [] \/ (exists e, answer = Raise e) ->
  get_entity_insights self embeddings_create Store qdrant_search MapperState
    get_entity_dependencies get_process_flow st m entity
  = Ok (empty_insights entity (get_entity_dependencies m entity)
          (get_process_flow m entity 3)).
Proof.
  cbv zeta. intros H. unfold get_entity_insights. cbv zeta.
  rewrite semantic_search_enhanced_eq. unfold store_answer.
  destruct H as [-> | [e ->]]; reflexivity.
Qed.

Lemma get_entity_insights_no_hits_witness :
  MemStore.search sample_store enhanced_collection_name
    (embedding_or_dummy production_config sample_embeddings
       ("information about " +:+ "H-1B"))
    10 (search_filter (entity_filter "H-1B")) (1 # 2) = Ok []
  /\ get_entity_insights production_config sample_embeddings _ MemStore.search unit
       (fun _ _ => ["I-129"]) (fun _ _ _ => []) sample_store tt "H-1B"
     = Ok (empty_insights "H-1B" ["I-129"] []).
Proof.
  assert (H : MemStore.search sample_store enhanced_collection_name
                (embedding_or_dummy production_config sample_embeddings
                   ("information about " +:+ "H-1B"))
                10 (search_filter (entity_filter "H-1B")) (1 # 2) = Ok [])
    by (vm_compute; reflexivity).
  split; [exact H|].
  apply (get_entity_insights_no_hits production_config sample_embeddings _
           MemStore.search unit (fun _ _ => ["I-129"]) (fun _ _ _ => [])
           sample_store tt "H-1B").
  left. exact H.
Defined.

(** The filter sent to the store for an entity: two conditions, one of
    them on an empty list. *)
Lemma search_filter_of_entity_filter (entity : string) :
  search_filter (entity_filter entity)
  = Some {| must :=
              [ MatchAny "form_numbers"
                  (of_strs (if is_form entity then [entity] else []));
                MatchAny "visa_types"
                  (of_strs (if negb (is_form entity) then [entity] else [])) ] |}.
Proof.
  set (forms := of_strs (if is_form entity then [entity] else [])).
  set (visas := of_strs (if negb (is_form entity) then [entity] else [])).
  set (m := <["visa_types" := visas]> (<["form_numbers" := forms]> (∅ : gmap string PyVal))).
  assert (Hv : m !! "visa_types" = Some visas) by apply lookup_insert_eq.
  assert (Hf : m !! "form_numbers" = Some forms).
  { unfold m. rewrite lookup_insert_ne by discriminate. apply lookup_insert_eq. }
  assert (Hc : m !! "chunk_type" = None)
    by (unfold m; now rewrite !lookup_insert_ne, lookup_empty by discriminate).
  assert (Ho : m !! "current_only" = None)
    by (unfold m; now rewrite !lookup_insert_ne, lookup_empty by discriminate).
  assert (Hm : m !! "min_freshness" = None)
    by (unfold m; now rewrite !lookup_insert_ne, lookup_empty by discriminate).
  assert (Hdef : entity_filter entity
                 = if negb (existsb Py.truthy (map snd (map_to_list m)))
                   then None else Some m) by reflexivity.
  assert (Ht : Py.truthy (if is_form entity then forms else visas) = true)
    by (unfold forms, visas; now destruct (is_form entity)).
  clearbody m forms visas.
  assert (Hex : existsb Py.truthy (map snd (map_to_list m)) = true).
  { apply existsb_exists. exists (if is_form entity then forms else visas).
    split; [|exact Ht].
    apply (in_map snd (map_to_list m)
             (if is_form entity then "form_numbers" else "visa_types",
              if is_form entity then forms else visas)).
    apply (proj1 (list_elem_of_In _ _)), (proj2 (elem_of_map_to_list _ _ _)).
    now destruct (is_form entity). }
  rewrite Hdef, Hex. cbn [negb]. unfold search_filter, filters_truthy.
  destruct (Nat.eqb (size m) 0) eqn:Es.
  { apply Nat.eqb_eq in Es. exfalso. revert Es.
    apply (map_size_ne_0_lookup_2 m "visa_types"). now rewrite Hv. }
  cbn [negb from_option id]. unfold _build_search_filter.
  now rewrite Hf, Hv, Hc, Ho, Hm.
Qed.

(** Both conditions are required, and no stored value is a member of the
    empty list: no payload passes the filter of an entity. *)
Lemma entity_filter_holds_nowhere (entity : string) (payload : Dict) :
  Qdrant.filter_holds (search_filter (entity_filter entity)) payload = false.
Proof.
  rewrite search_filter_of_entity_filter.
  unfold Qdrant.filter_holds. cbn [must forallb Qdrant.condition_holds].
  destruct (is_form entity); cbn [negb of_strs map].
  - destruct (PyDict.get "visa_types" payload); cbn [existsb];
      now rewrite ?andb_false_r.
  - now destruct (PyDict.get "form_numbers" payload).
Qed.

(** X20: against a store that returns only points passing the filter it
    is given, [get_entity_insights] never has a hit to aggregate: its
    filter asks, next to the entity, for a member of an empty list.  The
    insights are those of an entity that nothing mentions. *)
Theorem get_entity_insights_filtering_store (self : ProductionRAGConfig)
    (embeddings_create : string -> string -> Exc (list (list Q)))
    (Store : Type)
    (qdrant_search :
       Store -> string -> list Q -> Z -> option Filter -> Q -> Exc (list ScoredPoint.t))
    (MapperState : Type)
    (get_entity_dependencies : MapperState -> string -> list string)
    (get_process_flow : MapperState -> string -> Z -> list (list string))
    (st : Store) (m : MapperState) (entity : string) :
  Qdrant.honours_filter qdrant_search ->
  get_entity_insights self embeddings_create Store qdrant_search MapperState
    get_entity_dependencies get_process_flow st m entity
  = Ok (empty_insights entity (get_entity_dependencies m entity)
          (get_process_flow m entity 3)).
Proof.
  intros Hh. unfold get_entity_insights. cbv zeta.
  rewrite semantic_search_enhanced_eq. unfold store_answer.
  destruct (qdrant_search _ _ _ _ _ _) as [hits|e] eqn:E; [|reflexivity].
  apply Hh in E. destruct hits as [|h hits]; [reflexivity|].
  apply Forall_cons_1 in E as [E _].
  rewrite entity_filter_holds_nowhere in E. discriminate E.
Qed.

Lemma get_entity_insights_filtering_store_witness :
  Qdrant.honours_filter MemStore.search
  /\ map (fun p => PyDict.get "form_numbers" (Point.payload p))
       (map snd (map_to_list sample_store))
     = [ Some (of_strs ["I-130"; "I-485"]); Some (of_strs ["I-130"]);
         Some (of_strs ["I-130"]) ]
  /\ get_entity_insights production_config sample_embeddings _ MemStore.search unit
       (fun _ _ => []) (fun _ _ _ => []) sample_store tt "I-130"
     = Ok (empty_insights "I-130" [] []).
Proof.
  split; [exact search_honours_filter|]. split; [vm_compute; reflexivity|].
  exact (get_entity_insights_filtering_store production_config sample_embeddings _
           MemStore.search unit (fun _ _ => []) (fun _ _ _ => [])
           sample_store tt "I-130" search_honours_filter).
Defined.

(** ** More on [process_document_enhanced] *)

Lemma assoc_get_dict_set_eq {V} (k : string) (v : V) (d : list (string * V)) :
  assoc_get k (dict_set k v d) = Some v.
Proof.
  induction d as [|[k' v'] d IH]; cbn.
  - now rewrite String.eqb_refl.
  - destruct (String.eqb k k') eqn:E; cbn; rewrite ?String.eqb_refl, ?E; [reflexivity | exact IH].
Qed.

Lemma assoc_get_dict_set_ne {V} (k k0 : string) (v : V) (d : list (string * V)) :
  k0 <> k -> assoc_get k0 (dict_set k v d) = assoc_get k0 d.
Proof.
  intros Hne. induction d as [|[k' v'] d IH]; cbn.
  - apply String.eqb_neq in Hne. now rewrite Hne.
  - destruct (String.eqb k k') eqn:E; cbn.
    + apply String.eqb_eq in E. subst k'. apply String.eqb_neq in Hne. now rewrite Hne.
    + now rewrite IH.
Qed.

Lemma collect_entity_fold (MapperState : Type)
    (get_entity_dependencies : MapperState -> string -> list string)
    (get_process_flow : MapperState -> string -> Z -> list (list string))
    (upper : string -> string)
    (m : MapperState) (rels : list ImmigrationRelationship.t)
    (entities : list string) : forall r0 d0 f0,
  exists d,
    fold_left (collect_entity MapperState get_entity_dependencies get_process_flow
                 upper m rels) entities (r0, d0, f0)
    = ((r0 ++ flat_map
                (fun entity =>
                   map relationship_dict
                     (filter (fun rel =>
                                String.eqb (upper (ImmigrationRelationship.source rel))
                                           (upper entity)
                                || String.eqb (upper (ImmigrationRelationship.target rel))
                                              (upper entity) = true) rels))
                entities)%list,
       d,
       (f0 ++ flat_map (fun entity => get_process_flow m entity 3) entities)%list)
    /\ (forall k,
          assoc_get k d
          = match (if bool_decide (k ∈ entities) then get_entity_dependencies m k else []) with
            | [] => assoc_get k d0
            | deps => Some deps
            end).
Proof.
  induction entities as [|entity entities IH]; intros r0 d0 f0.
  - exists d0. cbn. rewrite !app_nil_r. split; [reflexivity|].
    intros k. rewrite bool_decide_eq_false_2 by apply not_elem_of_nil. reflexivity.
  - cbn [fold_left]. unfold collect_entity at 2.
    match goal with |- context [fold_left _ entities (?r, ?d, ?f)] =>
      destruct (IH r d f) as (d' & Hfold & Hget)
    end.
    exists d'. split.
    + rewrite Hfold. cbn [flat_map].
      replace (match get_process_flow m entity 3 with
               | [] => f0
               | _ :: _ => (f0 ++ get_process_flow m entity 3)%list
               end)
        with (f0 ++ get_process_flow m entity 3)%list
        by (destruct (get_process_flow m entity 3); [apply app_nil_r | reflexivity]).
      now rewrite <- !app_assoc.
    + intros k. rewrite Hget. clear Hfold Hget.
      destruct (decide (k = entity)) as [-> | Hne].
      * rewrite (bool_decide_eq_true_2 (entity ∈ entity :: entities))
          by apply list_elem_of_here.
        destruct (bool_decide (entity ∈ entities));
          destruct (get_entity_dependencies m entity) as [|x deps] eqn:Ed;
          try reflexivity.
        now rewrite assoc_get_dict_set_eq.
      * assert (Hd : assoc_get k
                       (match get_entity_dependencies m entity with
                        | [] => d0
                        | _ :: _ => dict_set entity (get_entity_dependencies m entity) d0
                        end) = assoc_get k d0).
        { destruct (get_entity_dependencies m entity); [reflexivity|].
          now apply assoc_get_dict_set_ne. }
        rewrite Hd.
        destruct (bool_decide (k ∈ entities)) eqn:Ek.
        -- apply bool_decide_eq_true in Ek.
           rewrite (bool_decide_eq_true_2 (k ∈ entity :: entities))
             by (now apply list_elem_of_further).
           reflexivity.
        -- apply bool_decide_eq_false in Ek.
           rewrite (bool_decide_eq_false_2 (k ∈ entity :: entities)); [reflexivity|].
           intros Hin. apply elem_of_cons in Hin as [? | ?]; tauto.
Qed.

Section PipelineRecords.

Variable MapperState : Type.
Variable smart_chunk_document : string -> string -> string -> list SmartChunk.t.
Variable extract_relationships :
  MapperState -> string -> list string -> list string ->
  list ImmigrationRelationship.t * MapperState.
Variable get_entity_dependencies : MapperState -> string -> list string.
Variable get_process_flow : MapperState -> string -> Z -> list (list string).
Variable extract_temporal_info : string -> string -> list TemporalInfo.t.
Variable get_temporal_summary : list TemporalInfo.t -> TemporalSummary.t.
Variable upper : string -> string.

(** The record built for the chunk at position [i]. *)
Lemma process_document_enhanced_record (m : MapperState) (ttl cont src : string)
    (i : nat) (chunk : SmartChunk.t) :
  smart_chunk_document ttl cont src !! i = Some chunk ->
  let chunks := smart_chunk_document ttl cont src in
  let extracted :=
    extract_relationships m cont
      (concat (map SmartChunk.form_numbers chunks))
      (concat (map SmartChunk.visa_types chunks)) in
  let summary := get_temporal_summary (extract_temporal_info cont ttl) in
  exists e,
    fst (process_document_enhanced MapperState smart_chunk_document
           extract_relationships get_entity_dependencies get_process_flow
           extract_temporal_info get_temporal_summary upper m ttl cont src) !! i = Some e
    /\ (EnhancedChunk.content e = SmartChunk.content chunk
        /\ EnhancedChunk.chunk_type e = SmartChunk.chunk_type chunk
        /\ EnhancedChunk.section_title e = SmartChunk.section_title chunk
        /\ EnhancedChunk.subsection_title e = SmartChunk.subsection_title chunk
        /\ EnhancedChunk.confidence_score e = SmartChunk.confidence_score chunk
        /\ EnhancedChunk.form_numbers e = SmartChunk.form_numbers chunk
        /\ EnhancedChunk.visa_types e = SmartChunk.visa_types chunk
        /\ EnhancedChunk.requirements e = SmartChunk.requirements chunk
        /\ EnhancedChunk.fees e = SmartChunk.fees chunk
        /\ EnhancedChunk.countries e = SmartChunk.countries chunk)
    /\ (EnhancedChunk.chunk_index e = Z.of_nat i
        /\ EnhancedChunk.document_title e = ttl
        /\ EnhancedChunk.source_url e = src
        /\ EnhancedChunk.is_current e = TemporalSummary.is_current summary
        /\ EnhancedChunk.freshness_score e = TemporalSummary.freshness_score summary
        /\ EnhancedChunk.temporal_info e
           = map temporal_dict (extract_temporal_info cont ttl))
    /\ EnhancedChunk.relationships e
       = flat_map
           (fun entity =>
              map relationship_dict
                (filter (fun rel =>
                           String.eqb (upper (ImmigrationRelationship.source rel))
                                      (upper entity)
                           || String.eqb (upper (ImmigrationRelationship.target rel))
                                         (upper entity) = true) (fst extracted)))
           (chunk_entities chunk)
    /\ (forall k,
          assoc_get k (EnhancedChunk.dependencies e)
          = match (if bool_decide (k ∈ chunk_entities chunk)
                   then get_entity_dependencies (snd extracted) k else []) with
            | [] => None
            | deps => Some deps
            end)
    /\ EnhancedChunk.process_flows e
       = flat_map (fun entity => get_process_flow (snd extracted) entity 3)
           (chunk_entities chunk).
Proof.
  intros Hc. cbv zeta. unfold process_document_enhanced.
  destruct (extract_relationships _ _ _ _) as [rels m']. cbn [fst snd].
  unfold enumerate. change (map ?f ?l) with (f <$> l) at 1.
  rewrite list_lookup_fmap, list_lookup_imap, Hc. cbn [fmap option_fmap option_map].
  destruct (collect_entity_fold MapperState get_entity_dependencies get_process_flow
              upper m' rels (chunk_entities chunk) [] [] []) as (d & Hfold & Hget).
  unfold chunk_entities in Hfold. rewrite Hfold.
  eexists. split; [reflexivity|]. cbn.
  split; [now repeat split|]. split; [now repeat split|].
  split; [reflexivity|]. split; [|reflexivity].
  intros k. rewrite Hget. now destruct (if bool_decide _ then _ else _).
Qed.

End PipelineRecords.

(** X21: [process_document_enhanced] returns one record per chunk of the
    smart chunker, in order.  Record [i] copies the content, type,
    titles, confidence and entity lists of chunk [i], carries
    [chunk_index = i], and shares with all other records of the document
    the title, the url and the temporal summary. *)
Theorem process_document_enhanced_records (MapperState : Type)
    (smart_chunk_document : string -> string -> string -> list SmartChunk.t)
    (extract_relationships :
       MapperState -> string -> list string -> list string ->
       list ImmigrationRelationship.t * MapperState)
    (get_entity_dependencies : MapperState -> string -> list string)
    (get_process_flow : MapperState -> string -> Z -> list (list string))
    (extract_temporal_info : string -> string -> list TemporalInfo.t)
    (get_temporal_summary : list TemporalInfo.t -> TemporalSummary.t)
    (upper : string -> string)
    (m : MapperState) (ttl cont src : string) :
  let out :=
    fst (process_document_enhanced MapperState smart_chunk_document
           extract_relationships get_entity_dependencies get_process_flow
           extract_temporal_info get_temporal_summary upper m ttl cont src) in
  let summary := get_temporal_summary (extract_temporal_info cont ttl) in
  length out = length (smart_chunk_document ttl cont src)
  /\ forall (i : nat) chunk,
       smart_chunk_document ttl cont src !! i = Some chunk ->
       exists e,
         out !! i = Some e
         /\ EnhancedChunk.content e = SmartChunk.content chunk
         /\ EnhancedChunk.chunk_type e = SmartChunk.chunk_type chunk
         /\ EnhancedChunk.form_numbers e = SmartChunk.form_numbers chunk
         /\ EnhancedChunk.visa_types e = SmartChunk.visa_types chunk
         /\ EnhancedChunk.chunk_index e = Z.of_nat i
         /\ EnhancedChunk.document_title e = ttl
         /\ EnhancedChunk.source_url e = src
         /\ EnhancedChunk.is_current e = TemporalSummary.is_current summary
         /\ EnhancedChunk.freshness_score e = TemporalSummary.freshness_score summary.
Proof.
  cbv zeta. split.
  - pose proof (process_document_enhanced_chunk_index MapperState smart_chunk_document
                  extract_relationships get_entity_dependencies get_process_flow
                  extract_temporal_info get_temporal_summary upper m ttl cont src) as H.
    apply (f_equal (@length Z)) in H. now rewrite !length_map, length_seq in H.
  - intros i chunk Hc.
    destruct (process_document_enhanced_record MapperState smart_chunk_document
                extract_relationships get_entity_dependencies get_process_flow
                extract_temporal_info get_temporal_summary upper m ttl cont src i chunk Hc)
      as (e & He & Hcopy & Hdoc & _).
    exists e. split; [exact He|]. tauto.
Qed.

(** X22: the relationships listed in a record are exactly the
    relationships of the document that have an entity of the chunk (a
    form or a visa type) at one of their ends, letter case aside; a chunk
    without entities gets no relationship, dependency or flow. *)
Theorem process_document_enhanced_relationships (MapperState : Type)
    (smart_chunk_document : string -> string -> string -> list SmartChunk.t)
    (extract_relationships :
       MapperState -> string -> list string -> list string ->
       list ImmigrationRelationship.t * MapperState)
    (get_entity_dependencies : MapperState -> string -> list string)
    (get_process_flow : MapperState -> string -> Z -> list (list string))
    (extract_temporal_info : string -> string -> list TemporalInfo.t)
    (get_temporal_summary : list TemporalInfo.t -> TemporalSummary.t)
    (upper : string -> string)
    (m : MapperState) (ttl cont src : string) (i : nat) (chunk : SmartChunk.t) :
  smart_chunk_document ttl cont src !! i = Some chunk ->
  let chunks := smart_chunk_document ttl cont src in
  let rels :=
    fst (extract_relationships m cont
           (concat (map SmartChunk.form_numbers chunks))
           (concat (map SmartChunk.visa_types chunks))) in
  exists e,
    fst (process_document_enhanced MapperState smart_chunk_document
           extract_relationships get_entity_dependencies get_process_flow
           extract_temporal_info get_temporal_summary upper m ttl cont src) !! i = Some e
    /\ (forall d,
          d ∈ EnhancedChunk.relationships e <->
          exists rel entity,
            rel ∈ rels /\ entity ∈ chunk_entities chunk
            /\ touches upper entity rel /\ d = relationship_dict rel)
    /\ (chunk_entities chunk = [] ->
        EnhancedChunk.relationships e = []
        /\ EnhancedChunk.dependencies e = []
        /\ EnhancedChunk.process_flows e = []).
Proof.
  intros Hc. cbv zeta.
  destruct (process_document_enhanced_record MapperState smart_chunk_document
              extract_relationships get_entity_dependencies get_process_flow
              extract_temporal_info get_temporal_summary upper m ttl cont src i chunk Hc)
    as (e & He & _ & _ & Hr & Hd & Hf).
  exists e. split; [exact He|]. split.
  - intros d. rewrite Hr. rewrite list_elem_of_In, in_flat_map. split.
    + intros (entity & Hent & Hd'). apply list_elem_of_In in Hent, Hd'.
      change (map ?f ?l) with (f <$> l) in Hd'.
      apply list_elem_of_fmap in Hd' as (rel & -> & Hrel).
      apply list_elem_of_filter in Hrel as [Hm Hrel].
      exists rel, entity. repeat split; try assumption.
      apply orb_true_iff in Hm as [Hm | Hm]; apply String.eqb_eq in Hm;
        [now left | now right].
    + intros (rel & entity & Hrel & Hent & Ht & ->).
      exists entity. split; [now apply list_elem_of_In|].
      apply list_elem_of_In. change (map ?f ?l) with (f <$> l).
      apply list_elem_of_fmap_2, list_elem_of_filter. split; [|exact Hrel].
      apply orb_true_iff. destruct Ht as [Ht | Ht]; rewrite Ht, String.eqb_refl; tauto.
  - intros Hnil. rewrite Hr, Hf, Hnil. repeat split.
    destruct (EnhancedChunk.dependencies e) as [|[k v] d] eqn:Ed; [reflexivity|].
    specialize (Hd k). rewrite Hnil in Hd. cbn in Hd.
    rewrite String.eqb_refl in Hd. discriminate.
Qed.

Lemma process_document_enhanced_relationships_witness :
  let chunker := fun (_ _ _ : string) =>
    [ {| SmartChunk.content := "Form I-130 must be approved before filing Form I-485.";
         SmartChunk.chunk_type := "narrative"; SmartChunk.section_title := "";
         SmartChunk.subsection_title := ""; SmartChunk.confidence_score := 1;
         SmartChunk.form_numbers := ["i-485"]; SmartChunk.visa_types := [];
         SmartChunk.requirements := []; SmartChunk.fees := [];
         SmartChunk.countries := [] |} ] in
  let rel := {| ImmigrationRelationship.source := "I-485";
                ImmigrationRelationship.target := "I-130";
                ImmigrationRelationship.relationship_type := "requires";
                ImmigrationRelationship.confidence := 9 # 10;
                ImmigrationRelationship.context := "must be approved before" |} in
  let upper := fun s : string => if String.eqb s "i-485" then "I-485" else s in
  exists chunk e,
    chunker "t" "c" "u" !! 0%nat = Some chunk
    /\ fst (process_document_enhanced unit chunker (fun m _ _ _ => ([rel], m))
              (fun _ _ => []) (fun _ _ _ => []) (fun _ _ => [])
              (fun _ => {| TemporalSummary.is_current := true;
                           TemporalSummary.freshness_score := 1;
                           TemporalSummary.effective_dates := [];
                           TemporalSummary.expiration_dates := [] |})
              upper tt "t" "c" "u") !! 0%nat = Some e
    /\ relationship_dict rel ∈ EnhancedChunk.relationships e.
Proof.
  intros chunker rel upper.
  assert (Hc : chunker "t" "c" "u" !! 0%nat = Some _) by reflexivity.
  destruct (process_document_enhanced_relationships unit chunker
              (fun m _ _ _ => ([rel], m))
              (fun _ _ => []) (fun _ _ _ => []) (fun _ _ => [])
              (fun _ => {| TemporalSummary.is_current := true;
                           TemporalSummary.freshness_score := 1;
                           TemporalSummary.effective_dates := [];
                           TemporalSummary.expiration_dates := [] |})
              upper tt "t" "c" "u" 0%nat _ Hc) as (e & He & Hiff & _).
  eexists _, e. split; [exact Hc|]. split; [exact He|].
  apply Hiff. exists rel, "i-485". split; [apply list_elem_of_here|].
  split; [apply list_elem_of_here|]. split; [left; reflexivity | reflexivity].
Defined.

(** X23: the [dependencies] of a record hold an entry for exactly the
    entities of the chunk that have dependencies in the relationship
    mapper (as it stands after the relationships of this document were
    extracted), never an empty list; its [process_flows] are the flows of
    depth 3 of its entities, one entity after the other. *)
Theorem process_document_enhanced_dependencies (MapperState : Type)
    (smart_chunk_document : string -> string -> string -> list SmartChunk.t)
    (extract_relationships :
       MapperState -> string -> list string -> list string ->
       list ImmigrationRelationship.t * MapperState)
    (get_entity_dependencies : MapperState -> string -> list string)
    (get_process_flow : MapperState -> string -> Z -> list (list string))
    (extract_temporal_info : string -> string -> list TemporalInfo.t)
    (get_temporal_summary : list TemporalInfo.t -> TemporalSummary.t)
    (upper : string -> string)
    (m : MapperState) (ttl cont src : string) (i : nat) (chunk : SmartChunk.t) :
  smart_chunk_document ttl cont src !! i = Some chunk ->
  let chunks := smart_chunk_document ttl cont src in
  let m' :=
    snd (extract_relationships m cont
           (concat (map SmartChunk.form_numbers chunks))
           (concat (map SmartChunk.visa_types chunks))) in
  exists e,
    fst (process_document_enhanced MapperState smart_chunk_document
           extract_relationships get_entity_dependencies get_process_flow
           extract_temporal_info get_temporal_summary upper m ttl cont src) !! i = Some e
    /\ (forall entity deps,
          assoc_get entity (EnhancedChunk.dependencies e) = Some deps <->
          entity ∈ chunk_entities chunk /\ deps <> []
          /\ deps = get_entity_dependencies m' entity)
    /\ EnhancedChunk.process_flows e
       = flat_map (fun entity => get_process_flow m' entity 3) (chunk_entities chunk).
Proof.
  intros Hc. cbv zeta.
  destruct (process_document_enhanced_record MapperState smart_chunk_document
              extract_relationships get_entity_dependencies get_process_flow
              extract_temporal_info get_temporal_summary upper m ttl cont src i chunk Hc)
    as (e & He & _ & _ & _ & Hd & Hf).
  exists e. split; [exact He|]. split; [|exact Hf].
  intros entity deps. rewrite Hd. clear Hd.
  destruct (bool_decide (entity ∈ chunk_entities chunk)) eqn:E.
  - apply bool_decide_eq_true in E.
    destruct (get_entity_dependencies _ entity) as [|x l] eqn:Ed; split.
    + discriminate.
    + intros (_ & Hne & ->). congruence.
    + intros [= <-]. now repeat split.
    + intros (_ & _ & ->). reflexivity.
  - apply bool_decide_eq_false in E. split; [discriminate | tauto].
Qed.

Lemma process_document_enhanced_dependencies_witness :
  let chunker := fun (_ _ _ : string) =>
    [ {| SmartChunk.content := "File Form I-485 after Form I-130.";
         SmartChunk.chunk_type := "narrative"; SmartChunk.section_title := "";
         SmartChunk.subsection_title := ""; SmartChunk.confidence_score := 1;
         SmartChunk.form_numbers := ["I-485"; "I-130"]; SmartChunk.visa_types := [];
         SmartChunk.requirements := []; SmartChunk.fees := [];
         SmartChunk.countries := [] |} ] in
  let deps := fun (_ : unit) (entity : string) =>
    if String.eqb entity "I-485" then ["I-130"] else [] in
  exists chunk e,
    chunker "t" "c" "u" !! 0%nat = Some chunk
    /\ fst (process_document_enhanced unit chunker (fun m _ _ _ => ([], m))
              deps (fun _ _ _ => []) (fun _ _ => [])
              (fun _ => {| TemporalSummary.is_current := true;
                           TemporalSummary.freshness_score := 1;
                           TemporalSummary.effective_dates := [];
                           TemporalSummary.expiration_dates := [] |})
              id tt "t" "c" "u") !! 0%nat = Some e
    /\ assoc_get "I-485" (EnhancedChunk.dependencies e) = Some ["I-130"]
    /\ assoc_get "I-130" (EnhancedChunk.dependencies e) = None.
Proof.
  intros chunker deps.
  assert (Hc : chunker "t" "c" "u" !! 0%nat = Some _) by reflexivity.
  destruct (process_document_enhanced_dependencies unit chunker
              (fun m _ _ _ => ([], m)) deps
              (fun _ _ _ => []) (fun _ _ => [])
              (fun _ => {| TemporalSummary.is_current := true;
                           TemporalSummary.freshness_score := 1;
                           TemporalSummary.effective_dates := [];
                           TemporalSummary.expiration_dates := [] |})
              id tt "t" "c" "u" 0%nat _ Hc) as (e & He & Hiff & _).
  eexists _, e. split; [exact Hc|]. split; [exact He|]. split.
  - apply Hiff. split; [apply list_elem_of_here|]. split; [discriminate | reflexivity].
  - destruct (assoc_get "I-130" (EnhancedChunk.dependencies e)) as [d|] eqn:E;
      [|reflexivity].
    apply Hiff in E as (_ & Hne & ->). now elim Hne.
Defined.

(** ** [validate_user_path] *)

Lemma collect_insights_ok (base_rag : ProductionRAGConfig)
    (embeddings_create : string -> string -> Exc (list (list Q)))
    (Store : Type)
    (qdrant_search :
       Store -> string -> list Q -> Z -> option Filter -> Q -> Exc (list ScoredPoint.t))
    (MapperState : Type)
    (get_entity_dependencies : MapperState -> string -> list string)
    (get_process_flow : MapperState -> string -> Z -> list (list string))
    (get_processing_estimate : string -> option (Z * Z))
    (st : Store) (m : MapperState) (entities : list string) :
  forall ia ta ia' ta',
  collect_insights base_rag embeddings_create Store qdrant_search MapperState
    get_entity_dependencies get_process_flow get_processing_estimate st m entities ia ta = Ok (ia', ta') ->
  (forall k, k ∈ entities ->
     exists ins,
       get_entity_insights base_rag embeddings_create Store qdrant_search MapperState
         get_entity_dependencies get_process_flow st m k = Ok ins
       /\ assoc_get k ia' = Some ins)
  /\ (forall k, k ∉ entities -> assoc_get k ia' = assoc_get k ia)
  /\ (forall k,
        assoc_get k ta'
        = match (if bool_decide (k ∈ entities) then get_processing_estimate k else None) with
          | Some (lo, hi) => Some (timeline_entry lo hi)
          | None => assoc_get k ta
          end).
Proof.
  induction entities as [|entity entities IH]; intros ia ta ia' ta' H.
  - cbn in H. injection H as <- <-. split; [|split].
    + intros k Hk. now apply elem_of_nil in Hk.
    + reflexivity.
    + intros k. now rewrite bool_decide_eq_false_2 by apply not_elem_of_nil.
  - cbn [collect_insights] in H.
    destruct (get_entity_insights base_rag embeddings_create Store qdrant_search MapperState
         get_entity_dependencies get_process_flow st m entity) as [ins|e] eqn:Ei; [|discriminate].
    cbn [mbind exc_bind] in H.
    apply IH in H as (Hin & Hout & Ht). split; [|split].
    + intros k Hk. destruct (decide (k ∈ entities)) as [Hk' | Hk'].
      * now apply Hin.
      * apply elem_of_cons in Hk as [-> | Hk]; [|tauto].
        exists ins. split; [exact Ei|]. rewrite Hout by exact Hk'.
        apply assoc_get_dict_set_eq.
    + intros k Hk. apply not_elem_of_cons in Hk as [Hne Hk].
      rewrite Hout by exact Hk. now apply assoc_get_dict_set_ne.
    + intros k. rewrite Ht. clear Ht.
      destruct (decide (k = entity)) as [-> | Hne].
      * rewrite (bool_decide_eq_true_2 (entity ∈ entity :: entities))
          by apply list_elem_of_here.
        destruct (bool_decide (entity ∈ entities));
          destruct (get_processing_estimate entity) as [[lo hi]|]; try reflexivity.
        apply assoc_get_dict_set_eq.
      * assert (Hd : assoc_get k
                       (match get_processing_estimate entity with
                        | Some (lo, hi) =>
                            dict_set entity
                              {| Timeline.min_days := lo; Timeline.max_days := hi;
                                 Timeline.description :=
                                   PyStr.of_int (lo / 30) +:+ "-"
                                   +:+ PyStr.of_int (hi / 30) +:+ " months" |} ta
                        | None => ta
                        end) = assoc_get k ta).
        { destruct (get_processing_estimate entity) as [[lo hi]|]; [|reflexivity].
          now apply assoc_get_dict_set_ne. }
        rewrite Hd.
        destruct (bool_decide (k ∈ entities)) eqn:Ek.
        -- apply bool_decide_eq_true in Ek.
           now rewrite (bool_decide_eq_true_2 (k ∈ entity :: entities))
             by (now apply list_elem_of_further).
        -- apply bool_decide_eq_false in Ek.
           rewrite (bool_decide_eq_false_2 (k ∈ entity :: entities)); [reflexivity|].
           intros Hin'. apply elem_of_cons in Hin' as [? | ?]; tauto.
Qed.

Lemma collect_insights_raise (base_rag : ProductionRAGConfig)
    (embeddings_create : string -> string -> Exc (list (list Q)))
    (Store : Type)
    (qdrant_search :
       Store -> string -> list Q -> Z -> option Filter -> Q -> Exc (list ScoredPoint.t))
    (MapperState : Type)
    (get_entity_dependencies : MapperState -> string -> list string)
    (get_process_flow : MapperState -> string -> Z -> list (list string))
    (get_processing_estimate : string -> option (Z * Z))
    (st : Store) (m : MapperState) (entities : list string) :
  forall ia ta entity e,
  entity ∈ entities ->
  get_entity_insights base_rag embeddings_create Store qdrant_search MapperState
         get_entity_dependencies get_process_flow st m entity = Raise e ->
  exists e',
    collect_insights base_rag embeddings_create Store qdrant_search MapperState
    get_entity_dependencies get_process_flow get_processing_estimate st m entities ia ta = Raise e'.
Proof.
  induction entities as [|x entities IH]; intros ia ta entity e Hin He.
  - now apply elem_of_nil in Hin.
  - cbn [collect_insights].
    destruct (get_entity_insights base_rag embeddings_create Store qdrant_search MapperState
         get_entity_dependencies get_process_flow st m x) as [ins|e0] eqn:Ex; [|now eexists].
    cbn [mbind exc_bind].
    apply elem_of_cons in Hin as [-> | Hin]; [congruence|].
    now apply (IH _ _ entity e).
Qed.

Lemma next_steps_spec (MapperState : Type)
    (get_process_flow : MapperState -> string -> Z -> list (list string))
    (m : MapperState) (entities : list string) (s : string) :
  s ∈ next_steps MapperState get_process_flow m entities <->
  exists entity flow step,
    entity ∈ entities /\ flow ∈ get_process_flow m entity 2
    /\ flow !! 1%nat = Some step /\ (step ∉ entities)
    /\ s = next_step_message step entity.
Proof.
  unfold next_steps. rewrite list_elem_of_In, in_flat_map. split.
  - intros (entity & Hent & Hs). apply in_flat_map in Hs as (flow & Hflow & Hs).
    destruct flow as [|a [|step flow]]; try (now destruct Hs).
    destruct (bool_decide (step ∈ entities)) eqn:E; [now destruct Hs|].
    apply bool_decide_eq_false in E. destruct Hs as [<- | []].
    exists entity, (a :: step :: flow), step.
    repeat split; try (now apply list_elem_of_In); assumption.
  - intros (entity & flow & step & Hent & Hflow & Hstep & Hnot & ->).
    exists entity. split; [now apply list_elem_of_In|].
    apply in_flat_map. exists flow. split; [now apply list_elem_of_In|].
    destruct flow as [|a [|step' flow]]; try discriminate.
    cbn in Hstep. injection Hstep as ->.
    rewrite bool_decide_eq_false_2 by exact Hnot. now left.
Qed.

Lemma assoc_get_copy (k : string) (validation : Dict) :
  assoc_get k (EnhancedValidation.copy validation)
  = EnhancedValidation.copied <$> PyDict.get k validation.
Proof.
  induction validation as [|[k' v] d IH]; [reflexivity|].
  cbn. now destruct (String.eqb k k').
Qed.

(** What a call of [validate_user_path] that returns has put into the
    dictionary. *)
Lemma validate_user_path_ok (base_rag : ProductionRAGConfig)
    (embeddings_create : string -> string -> Exc (list (list Q)))
    (Store : Type)
    (qdrant_search :
       Store -> string -> list Q -> Z -> option Filter -> Q -> Exc (list ScoredPoint.t))
    (MapperState : Type)
    (get_entity_dependencies : MapperState -> string -> list string)
    (get_process_flow : MapperState -> string -> Z -> list (list string))
    (validate_entity_combination : MapperState -> list string -> option string -> Dict)
    (get_processing_estimate : string -> option (Z * Z))
    (st : Store) (m : MapperState) (entities : list string)
    (user_country : option string)
    (ev : EnhancedValidation.t) :
  validate_user_path base_rag embeddings_create Store qdrant_search MapperState
    get_entity_dependencies get_process_flow validate_entity_combination
    get_processing_estimate st m entities user_country = Ok ev ->
  exists ia ta valid,
    collect_insights base_rag embeddings_create Store qdrant_search MapperState
      get_entity_dependencies get_process_flow get_processing_estimate
      st m entities [] [] = Ok (ia, ta)
    /\ PyDict.get "valid" (validate_entity_combination m entities user_country)
       = Some valid
    /\ assoc_get "entity_insights" ev = Some (EnhancedValidation.insights ia)
    /\ assoc_get "timeline_estimate" ev = Some (EnhancedValidation.timeline ta)
    /\ assoc_get "recommended_next_steps" ev
       = Some (EnhancedValidation.steps
                 (if negb (Py.truthy valid)
                  then ["Address the identified conflicts and missing requirements before proceeding"]
                  else next_steps MapperState get_process_flow m entities))
    /\ (forall k, k ∉ written_keys ->
          assoc_get k ev
          = EnhancedValidation.copied
              <$> PyDict.get k (validate_entity_combination m entities user_country)).
Proof.
  unfold validate_user_path. intros H.
  destruct (collect_insights _ _ _ _ _ _ _ _ _ _ _ _ _) as [[ia ta]|e] eqn:Ec;
    [|discriminate].
  cbn [mbind exc_bind] in H.
  destruct (PyDict.get "valid" _) as [valid|] eqn:Ev; [|discriminate].
  injection H as <-. exists ia, ta, valid.
  split; [reflexivity|]. split; [reflexivity|].
  split.
  { rewrite assoc_get_dict_set_ne, assoc_get_dict_set_ne by discriminate.
    apply assoc_get_dict_set_eq. }
  split.
  { rewrite assoc_get_dict_set_ne by discriminate. apply assoc_get_dict_set_eq. }
  split; [apply assoc_get_dict_set_eq|].
  intros k Hk. unfold written_keys in Hk.
  apply not_elem_of_cons in Hk as [H1 Hk]. apply not_elem_of_cons in Hk as [H2 Hk].
  apply not_elem_of_cons in Hk as [H3 _].
  rewrite !assoc_get_dict_set_ne by assumption. apply assoc_get_copy.
Qed.

(** X24: for a path that the relationship mapper finds invalid,
    [validate_user_path] gives exactly one recommendation, the fixed
    advice to address conflicts and missing requirements, whatever the
    process flows are.  Every entry of the mapper's validation under
    another key than the three the function writes is handed on
    unchanged; under those three keys nothing of the mapper is left. *)
Theorem validate_user_path_invalid (base_rag : ProductionRAGConfig)
    (embeddings_create : string -> string -> Exc (list (list Q)))
    (Store : Type)
    (qdrant_search :
       Store -> string -> list Q -> Z -> option Filter -> Q -> Exc (list ScoredPoint.t))
    (MapperState : Type)
    (get_entity_dependencies : MapperState -> string -> list string)
    (get_process_flow : MapperState -> string -> Z -> list (list string))
    (validate_entity_combination : MapperState -> list string -> option string -> Dict)
    (get_processing_estimate : string -> option (Z * Z))
    (st : Store) (m : MapperState) (entities : list string)
    (user_country : option string)
    (valid : PyVal) (ev : EnhancedValidation.t) :
  validate_user_path base_rag embeddings_create Store qdrant_search MapperState
    get_entity_dependencies get_process_flow validate_entity_combination
    get_processing_estimate st m entities user_country = Ok ev ->
  PyDict.get "valid" (validate_entity_combination m entities user_country) = Some valid ->
  Py.truthy valid = false ->
  EnhancedValidation.recommended_next_steps ev
  = ["Address the identified conflicts and missing requirements before proceeding"]
  /\ (forall k, k ∉ written_keys ->
        assoc_get k ev
        = EnhancedValidation.copied
            <$> PyDict.get k (validate_entity_combination m entities user_country))
  /\ (forall k v, k ∈ written_keys ->
        assoc_get k ev <> Some (EnhancedValidation.copied v)).
Proof.
  intros H Hv Ht.
  destruct (validate_user_path_ok _ _ _ _ _ _ _ _ _ _ _ _ _ _ H)
    as (ia & ta & valid' & _ & Hv' & Hi & Htl & Hs & Hc).
  rewrite Hv in Hv'. injection Hv' as <-. rewrite Ht in Hs. cbn [negb] in Hs.
  split; [unfold EnhancedValidation.recommended_next_steps; now rewrite Hs|].
  split; [exact Hc|].
  intros k v Hk. unfold written_keys in Hk.
  repeat (apply elem_of_cons in Hk as [-> | Hk]; [congruence|]).
  now apply elem_of_nil in Hk.
Qed.

Lemma validate_user_path_invalid_witness :
  let validate := fun (_ : unit) (_ : list string) (_ : option string) =>
    [("valid", VBool false); ("conflicts", VList [VStr "B-2 conflicts with F-1"]);
     ("recommended_next_steps", VList [VStr "ask the mapper"])] in
  exists ev,
    validate_user_path production_config sample_embeddings _ MemStore.search unit
      (fun _ _ => []) (fun _ _ _ => [["F-1"; "OPT"]]) validate (fun _ => None)
      sample_store tt ["B-2"; "F-1"] None = Ok ev
    /\ PyDict.get "valid" (validate tt ["B-2"; "F-1"] None) = Some (VBool false)
    /\ EnhancedValidation.recommended_next_steps ev
       = ["Address the identified conflicts and missing requirements before proceeding"]
    /\ assoc_get "conflicts" ev
       = Some (EnhancedValidation.copied (VList [VStr "B-2 conflicts with F-1"]))
    /\ map fst ev
       = ["valid"; "conflicts"; "recommended_next_steps"; "entity_insights";
          "timeline_estimate"].
Proof.
  cbv zeta. eexists.
  match goal with |- ?A /\ _ => assert (H : A) by (vm_compute; reflexivity) end.
  split; [exact H|]. split; [reflexivity|].
  split; [|split; reflexivity].
  exact (proj1 (validate_user_path_invalid _ _ _ _ _ _ _ _ _ _ _ _ _ _ _ H
                  eq_refl eq_refl)).
Defined.

(** X25: for a valid path, the recommendations of [validate_user_path]
    are exactly the messages "Consider S as next step after E" where E is
    an entity of the path, S is the second element of one of E's flows of
    depth 2, and S is not already in the path. *)
Theorem validate_user_path_valid_steps (base_rag : ProductionRAGConfig)
    (embeddings_create : string -> string -> Exc (list (list Q)))
    (Store : Type)
    (qdrant_search :
       Store -> string -> list Q -> Z -> option Filter -> Q -> Exc (list ScoredPoint.t))
    (MapperState : Type)
    (get_entity_dependencies : MapperState -> string -> list string)
    (get_process_flow : MapperState -> string -> Z -> list (list string))
    (validate_entity_combination : MapperState -> list string -> option string -> Dict)
    (get_processing_estimate : string -> option (Z * Z))
    (st : Store) (m : MapperState) (entities : list string)
    (user_country : option string) (valid : PyVal) (ev : EnhancedValidation.t) :
  validate_user_path base_rag embeddings_create Store qdrant_search MapperState
    get_entity_dependencies get_process_flow validate_entity_combination
    get_processing_estimate st m entities user_country = Ok ev ->
  PyDict.get "valid" (validate_entity_combination m entities user_country) = Some valid ->
  Py.truthy valid = true ->
  forall s,
    s ∈ EnhancedValidation.recommended_next_steps ev <->
    exists entity flow step,
      entity ∈ entities /\ flow ∈ get_process_flow m entity 2
      /\ flow !! 1%nat = Some step /\ (step ∉ entities)
      /\ s = next_step_message step entity.
Proof.
  intros H Hv Ht s.
  destruct (validate_user_path_ok _ _ _ _ _ _ _ _ _ _ _ _ _ _ H)
    as (ia & ta & valid' & _ & Hv' & _ & _ & Hs & _).
  rewrite Hv in Hv'. injection Hv' as <-. rewrite Ht in Hs. cbn [negb] in Hs.
  unfold EnhancedValidation.recommended_next_steps. rewrite Hs.
  apply next_steps_spec.
Qed.

Lemma validate_user_path_valid_steps_witness :
  let validate := fun (_ : unit) (_ : list string) (_ : option string) =>
    [("valid", VBool true)] in
  let flows := fun (_ : unit) (entity : string) (_ : Z) =>
    if String.eqb entity "F-1" then [["F-1"; "OPT"]; ["F-1"; "H-1B"]; ["F-1"]] else [] in
  exists ev,
    validate_user_path production_config sample_embeddings _ MemStore.search unit
      (fun _ _ => []) flows validate (fun _ => None)
      sample_store tt ["F-1"; "H-1B"] None = Ok ev
    /\ PyDict.get "valid" (validate tt ["F-1"; "H-1B"] None) = Some (VBool true)
    /\ EnhancedValidation.recommended_next_steps ev
       = ["Consider OPT as next step after F-1"]
    /\ next_step_message "OPT" "F-1" ∈ EnhancedValidation.recommended_next_steps ev.
Proof.
  cbv zeta. eexists.
  match goal with |- ?A /\ _ => assert (H : A) by (vm_compute; reflexivity) end.
  split; [exact H|]. split; [reflexivity|]. split; [reflexivity|].
  apply (validate_user_path_valid_steps _ _ _ _ _ _ _ _ _ _ _ _ _ _ _ H eq_refl eq_refl).
  exists "F-1", ["F-1"; "OPT"], "OPT". split; [apply list_elem_of_here|].
  split; [apply list_elem_of_here|]. split; [reflexivity|]. split; [|reflexivity].
  intros Hin. repeat (apply elem_of_cons in Hin as [Hin|Hin]; [discriminate|]).
  now apply elem_of_nil in Hin.
Defined.

(** X26: when [validate_user_path] returns, it holds the insights of
    every entity of the path, and a timeline entry for exactly the
    entities that have a processing estimate: the days as given and the
    months as the days divided by 30, rounded down. *)
Theorem validate_user_path_insights_timeline (base_rag : ProductionRAGConfig)
    (embeddings_create : string -> string -> Exc (list (list Q)))
    (Store : Type)
    (qdrant_search :
       Store -> string -> list Q -> Z -> option Filter -> Q -> Exc (list ScoredPoint.t))
    (MapperState : Type)
    (get_entity_dependencies : MapperState -> string -> list string)
    (get_process_flow : MapperState -> string -> Z -> list (list string))
    (validate_entity_combination : MapperState -> list string -> option string -> Dict)
    (get_processing_estimate : string -> option (Z * Z))
    (st : Store) (m : MapperState) (entities : list string)
    (user_country : option string) (ev : EnhancedValidation.t) :
  validate_user_path base_rag embeddings_create Store qdrant_search MapperState
    get_entity_dependencies get_process_flow validate_entity_combination
    get_processing_estimate st m entities user_country = Ok ev ->
  (forall entity, entity ∈ entities ->
     exists ins,
       get_entity_insights base_rag embeddings_create Store qdrant_search MapperState
         get_entity_dependencies get_process_flow st m entity = Ok ins
       /\ assoc_get entity (EnhancedValidation.entity_insights ev) = Some ins)
  /\ (forall entity, entity ∉ entities ->
        assoc_get entity (EnhancedValidation.entity_insights ev) = None)
  /\ (forall entity t,
        assoc_get entity (EnhancedValidation.timeline_estimate ev) = Some t <->
        entity ∈ entities
        /\ exists lo hi,
             get_processing_estimate entity = Some (lo, hi) /\ t = timeline_entry lo hi).
Proof.
  intros H.
  destruct (validate_user_path_ok _ _ _ _ _ _ _ _ _ _ _ _ _ _ H)
    as (ia & ta & valid & Ec & _ & Hi & Htl & _ & _).
  unfold EnhancedValidation.entity_insights, EnhancedValidation.timeline_estimate.
  rewrite Hi, Htl.
  apply collect_insights_ok in Ec as (Hin & Hout & Ht).
  split; [exact Hin|]. split; [intros entity Hn; now rewrite Hout|].
  intros entity t. rewrite Ht. clear Ht.
  destruct (bool_decide (entity ∈ entities)) eqn:E.
  - apply bool_decide_eq_true in E.
    destruct (get_processing_estimate entity) as [[lo hi]|]; split.
    + intros [= <-]. split; [exact E|]. now exists lo, hi.
    + intros (_ & lo' & hi' & [= <- <-] & ->). reflexivity.
    + discriminate.
    + intros (_ & lo' & hi' & Hd & _). discriminate.
  - apply bool_decide_eq_false in E. split; [discriminate | tauto].
Qed.

Lemma validate_user_path_insights_timeline_witness :
  let estimate := fun entity : string =>
    if String.eqb entity "I-485" then Some (240, 725) else None in
  exists ev,
    validate_user_path production_config sample_embeddings _ MemStore.search unit
      (fun _ _ => []) (fun _ _ _ => []) (fun _ _ _ => [("valid", VBool true)]) estimate
      sample_store tt ["I-485"; "I-130"] None = Ok ev
    /\ assoc_get "I-485" (EnhancedValidation.timeline_estimate ev)
       = Some {| Timeline.min_days := 240; Timeline.max_days := 725;
                 Timeline.description := "8-24 months" |}
    /\ assoc_get "I-130" (EnhancedValidation.timeline_estimate ev) = None.
Proof.
  cbv zeta. eexists.
  match goal with |- ?A /\ _ => assert (H : A) by (vm_compute; reflexivity) end.
  split; [exact H|].
  destruct (validate_user_path_insights_timeline _ _ _ _ _ _ _ _ _ _ _ _ _ _ H)
    as (_ & _ & Ht).
  split.
  - apply Ht. split; [apply list_elem_of_here|]. exists 240, 725.
    split; [reflexivity | vm_compute; reflexivity].
  - reflexivity.
Defined.

(** X27: [validate_user_path] has no handler of its own: when the
    insights of one entity of the path cannot be computed, or the
    validation of the mapper has no [valid] entry, the whole call
    raises. *)
Theorem validate_user_path_raises (base_rag : ProductionRAGConfig)
    (embeddings_create : string -> string -> Exc (list (list Q)))
    (Store : Type)
    (qdrant_search :
       Store -> string -> list Q -> Z -> option Filter -> Q -> Exc (list ScoredPoint.t))
    (MapperState : Type)
    (get_entity_dependencies : MapperState -> string -> list string)
    (get_process_flow : MapperState -> string -> Z -> list (list string))
    (validate_entity_combination : MapperState -> list string -> option string -> Dict)
    (get_processing_estimate : string -> option (Z * Z))
    (st : Store) (m : MapperState) (entities : list string)
    (user_country : option string) :
  (exists entity e,
     entity ∈ entities
     /\ get_entity_insights base_rag embeddings_create Store qdrant_search MapperState
          get_entity_dependencies get_process_flow st m entity = Raise e)
  \/ PyDict.get "valid" (validate_entity_combination m entities user_country) = None ->
  exists e,
    validate_user_path base_rag embeddings_create Store qdrant_search MapperState
      get_entity_dependencies get_process_flow validate_entity_combination
      get_processing_estimate st m entities user_country = Raise e.
Proof.
  unfold validate_user_path. intros [(entity & e & Hin & He) | Hv].
  - destruct (collect_insights_raise base_rag embeddings_create Store qdrant_search
                MapperState get_entity_dependencies get_process_flow
                get_processing_estimate st m entities [] [] entity e Hin He) as [e' ->].
    now exists e'.
  - destruct (collect_insights _ _ _ _ _ _ _ _ _ _ _ _ _) as [[ia ta]|e];
      [|now exists e].
    cbn [mbind exc_bind]. rewrite Hv. now eexists.
Qed.

Lemma validate_user_path_raises_witness :
  (exists entity e,
     entity ∈ ["I-130"]
     /\ get_entity_insights production_config sample_embeddings _
          MemStore.search_unfiltered unit (fun _ _ => []) (fun _ _ _ => [])
          ill_typed_store tt entity = Raise e)
  /\ exists e,
       validate_user_path production_config sample_embeddings _
         MemStore.search_unfiltered unit (fun _ _ => []) (fun _ _ _ => [])
         (fun _ _ _ => [("valid", VBool true)]) (fun _ => None)
         ill_typed_store tt ["I-130"] None = Raise e.
Proof.
  assert (H : exists entity e,
            entity ∈ ["I-130"]
            /\ get_entity_insights production_config sample_embeddings _
                 MemStore.search_unfiltered unit (fun _ _ => []) (fun _ _ _ => [])
                 ill_typed_store tt entity = Raise e).
  { exists "I-130", "TypeError". split; [apply list_elem_of_here|].
    vm_compute. reflexivity. }
  split; [exact H|].
  apply (validate_user_path_raises production_config sample_embeddings _
           MemStore.search_unfiltered unit (fun _ _ => []) (fun _ _ _ => [])
           (fun _ _ _ => [("valid", VBool true)]) (fun _ => None)
           ill_typed_store tt ["I-130"] None).
  left. exact H.
Defined.

(** ** Stored records can always be aggregated *)

(** X28: when every hit handed to [get_entity_insights] carries a payload
    written by [store_enhanced_chunks], the aggregation cannot fail: the
    insights are returned and count every hit. *)
Theorem get_entity_insights_of_stored (self : ProductionRAGConfig)
    (embeddings_create : string -> string -> Exc (list (list Q)))
    (Store : Type)
    (qdrant_search :
       Store -> string -> list Q -> Z -> option Filter -> Q -> Exc (list ScoredPoint.t))
    (MapperState : Type)
    (get_entity_dependencies : MapperState -> string -> list string)
    (get_process_flow : MapperState -> string -> Z -> list (list string))
    (st : Store) (m : MapperState) (entity : string) (hits : list ScoredPoint.t) :
  qdrant_search st enhanced_collection_name
    (embedding_or_dummy self embeddings_create ("information about " +:+ entity))
    10 (search_filter (entity_filter entity)) (1 # 2) = Ok hits ->
  Forall (fun h => exists c,
            ScoredPoint.payload h = _make_serializable_dict (asdict c)) hits ->
  exists ins,
    get_entity_insights self embeddings_create Store qdrant_search MapperState
      get_entity_dependencies get_process_flow st m entity = Ok ins
    /\ Insights.total_mentions ins = PyList.len hits.
Proof.
  intros Hs Hp. unfold get_entity_insights. cbv zeta.
  rewrite semantic_search_enhanced_eq. unfold store_answer. rewrite Hs.
  assert (Ht : Forall well_typed_result (map enhanced_result hits)).
  { apply Forall_map. eapply Forall_impl; [exact Hp|].
    intros [i s payload] [c Hc]. cbn in Hc. subst payload.
    apply stored_payload_well_typed. }
  destruct (aggregate_results_inv _ [] empty_aggregate agg_inv_empty Ht)
    as (a & Ha & _ & _ & _ & _ & _ & _ & _ & Is).
  cbn [mbind exc_bind app] in *. rewrite Ha. cbn [mbind exc_bind].
  rewrite Is, average_of_freshness_total. cbn [mbind exc_bind].
  eexists. split; [reflexivity|]. cbn. unfold PyList.len. now rewrite length_map.
Qed.

Lemma get_entity_insights_of_stored_witness :
  exists hits ins,
    MemStore.search_unfiltered sample_store enhanced_collection_name
      (embedding_or_dummy production_config sample_embeddings
         ("information about " +:+ "I-485"))
      10 (search_filter (entity_filter "I-485")) (1 # 2) = Ok hits
    /\ length hits = 3%nat
    /\ get_entity_insights production_config sample_embeddings _
         MemStore.search_unfiltered unit (fun _ _ => []) (fun _ _ _ => [])
         sample_store tt "I-485" = Ok ins
    /\ Insights.total_mentions ins = 3.
Proof.
  eexists.
  assert (Hs : MemStore.search_unfiltered sample_store enhanced_collection_name
                 (embedding_or_dummy production_config sample_embeddings
                    ("information about " +:+ "I-485"))
                 10 (search_filter (entity_filter "I-485")) (1 # 2) = Ok _)
    by (vm_compute; reflexivity).
  match type of Hs with _ = Ok ?l =>
    assert (Hp : Forall (fun h => exists c,
                           ScoredPoint.payload h = _make_serializable_dict (asdict c)) l)
  end.
  { repeat constructor.
    - exists (sample_chunk "Guide" "Form I-485 follows." 2 ["I-130"; "I-485"] true (9 # 10)).
      reflexivity.
    - exists (sample_chunk "Guide" "The old fee was 420 dollars." 1 ["I-130"] false (1 # 10)).
      reflexivity.
    - exists (sample_chunk "Guide" "Form I-130 opens the case." 0 ["I-130"] true (1 # 5)).
      reflexivity. }
  destruct (get_entity_insights_of_stored production_config sample_embeddings _
              MemStore.search_unfiltered unit (fun _ _ => []) (fun _ _ _ => [])
              sample_store tt "I-485" _ Hs Hp) as (ins & Hi & Hn).
  exists ins. split; [exact Hs|]. split; [reflexivity|]. split; [exact Hi | exact Hn].
Defined.
